(** * mcp-elasticsearch: request translation and response normalisation

    A shallow embedding of [config.go], [handler.go] and the start-up path of
    [main.go], together with the properties of the three tool handlers
    ([handleListIndices], [handleGetMappings], [handleSearch]) and of the
    construction of the handler ([validateConfig], [newElasticsearchHandler]).

    Conventions.
    - Go's [int] is the 64-bit two's-complement integer; it is a [Z] and every
      addition writes its wrap-around out ([int_add]).
    - Go's [float64] is [spec_float] at precision 53 (the handlers never
      compute on floats, they only carry them).
    - Go's [error] is represented by the text of its [Error()] method: the
      handlers only format errors with [%v] or hand them to the logger.
    - A value of Go's [any] is a [value]; [nil] slices, maps and pointers are
      [None], distinct from their empty counterparts.
    - The text produced by [json.Marshal] is represented by the JSON document
      it denotes ([json]).
    - The logger, [json.Unmarshal] and the Elasticsearch client are the
      collaborators of the handlers: every call to them is recorded, in
      order, in a trace of events. *)

From Stdlib Require Import ZArith String Ascii List Floats.SpecFloat Lia.
From stdpp Require Import gmap strings list fin_maps sorting.

Set Warnings "-register-all".

Open Scope string_scope.
Open Scope list_scope.
Open Scope Z_scope.

(** ** Outcomes of fallible calls: a value, or the text of a Go [error] *)

Inductive outcome (A : Type) : Type :=
| Ok (a : A)
| Err (err : string).
Arguments Ok {A} a.
Arguments Err {A} err.

(** ** Go's [int] *)

Module GoInt.

Definition min_int : Z := - 2 ^ 63.
Definition max_int : Z := 2 ^ 63 - 1.

Definition in_range (z : Z) : Prop := min_int <= z <= max_int.

Definition in_rangeb (z : Z) : bool := (min_int <=? z) && (z <=? max_int).

(** Two's-complement wrap-around of a mathematical integer. *)
Definition wrap (z : Z) : Z := (z + 2 ^ 63) mod 2 ^ 64 - 2 ^ 63.

(** [a + b] on [int]. *)
Definition int_add (a b : Z) : Z := wrap (a + b).

End GoInt.
Import GoInt.

(** ** Go's [float64] *)

Abbreviation float64 := spec_float.

Module GoFloat.

Definition prec : Z := 53.
Definition emax : Z := 1024.

(** The [float64] nearest to [m * 2^e] (round to nearest, ties to even). *)
Definition of_Z_scaled (m e : Z) : float64 := binary_normalize prec emax m e false.

Definition of_Z (n : Z) : float64 := of_Z_scaled n 0.

Definition is_finite (f : float64) : bool :=
  match f with
  | S754_zero _ | S754_finite _ _ _ => true
  | S754_infinity _ | S754_nan => false
  end.

Definition is_zero (f : float64) : bool :=
  match f with
  | S754_zero _ => true
  | _ => false
  end.

(** The integer part of a finite float, rounded toward zero. *)
Definition trunc (f : float64) : Z :=
  match f with
  | S754_finite s m e =>
      let a := if 0 <=? e then Z.pos m * 2 ^ e else Z.pos m / 2 ^ (- e) in
      if s then - a else a
  | _ => 0
  end.

(** The conversion [int(f)].  When the integer part does not fit in an
    [int] (or [f] is an infinity or a NaN) the Go specification leaves the
    result to the implementation; on amd64 it is the smallest [int]. *)
Definition to_int (f : float64) : Z :=
  if is_finite f && in_rangeb (trunc f) then trunc f else min_int.

(** The text [%v] prints for a float that JSON cannot express. *)
Definition unsupported_text (f : float64) : string :=
  match f with
  | S754_infinity false => "+Inf"
  | S754_infinity true => "-Inf"
  | _ => "NaN"
  end.

End GoFloat.

(** ** Values of Go's [any], and JSON documents *)

(** The dynamic values the handlers put in their [map[string]any]s. *)
Inductive value : Type :=
| VNil                                        (* the nil interface *)
| VBool (b : bool)
| VInt (n : Z)                                (* int *)
| VFloat (f : float64)                        (* float64 *)
| VFloatPtr (p : option float64)              (* *float64 *)
| VString (s : string)
| VSlice (l : option (list value))            (* []T, [None] is the nil slice *)
| VMap (m : option (gmap string value)).      (* map[string]any, [None] is the nil map *)

(** Go's [map[string]any] and [[]T]. *)
Abbreviation gomap := (option (gmap string value)).
Abbreviation slice A := (option (list A)).

(** [len] of a map and of a slice: nil has length zero. *)
Definition len_map (m : gomap) : Z :=
  match m with
  | None => 0
  | Some m => Z.of_nat (size m)
  end.

Definition len_slice {A} (s : slice A) : Z :=
  match s with
  | None => 0
  | Some l => Z.of_nat (length l)
  end.

(** [append(s, x)]: appending to the nil slice allocates. *)
Definition append {A} (s : slice A) (x : A) : slice A :=
  match s with
  | None => Some [x]
  | Some l => Some (l ++ [x])
  end.

(** The elements a [for range] loop visits. *)
Definition range {A} (s : slice A) : list A :=
  match s with
  | None => []
  | Some l => l
  end.

(** JSON documents. *)
Inductive json : Type :=
| JNull
| JBool (b : bool)
| JInt (n : Z)
| JFloat (f : float64)
| JString (s : string)
| JArray (l : list json)
| JObject (m : gmap string json).

(** ** [json.Marshal]

    The encoder fails on a float that JSON cannot express (an infinity or a
    NaN) and on nothing else a [value] can hold.  It visits the elements of
    a slice in order and the entries of a map in the order of their keys,
    and gives up at the first failure. *)

Module GoMarshal.

Definition outcome_map {A B} (f : A -> B) (r : outcome A) : outcome B :=
  match r with
  | Ok a => Ok (f a)
  | Err e => Err e
  end.

(** All the results of a list, or its first error. *)
Definition sequence_list {A} (l : list (outcome A)) : outcome (list A) :=
  foldr (fun r acc =>
           match r with
           | Err e => Err e
           | Ok a => outcome_map (cons a) acc
           end) (Ok []) l.

Definition key_le (a b : string * outcome json) : Prop :=
  String.leb a.1 b.1 = true.

#[global] Instance key_le_dec a b : Decision (key_le a b).
Proof. unfold key_le. apply _. Defined.

Definition get_ok {A} (r : outcome A) : option A :=
  match r with
  | Ok a => Some a
  | Err _ => None
  end.

(** All the results of a map, or the error of its smallest failing key. *)
Definition sequence_map (rm : gmap string (outcome json)) : outcome (gmap string json) :=
  match sequence_list (merge_sort key_le (map_to_list rm)).*2 with
  | Err e => Err e
  | Ok _ => Ok (omap get_ok rm)
  end.

Definition marshal_float (f : float64) : outcome json :=
  if GoFloat.is_finite f then Ok (JFloat f)
  else Err ("json: unsupported value: " +:+ GoFloat.unsupported_text f).

Fixpoint Marshal (v : value) : outcome json :=
  match v with
  | VNil => Ok JNull
  | VBool b => Ok (JBool b)
  | VInt n => Ok (JInt n)
  | VFloat f => marshal_float f
  | VFloatPtr None => Ok JNull
  | VFloatPtr (Some f) => marshal_float f
  | VString s => Ok (JString s)
  | VSlice None => Ok JNull
  | VSlice (Some l) => outcome_map JArray (sequence_list (map Marshal l))
  | VMap None => Ok JNull
  | VMap (Some m) => outcome_map JObject (sequence_map (Marshal <$> m))
  end.

End GoMarshal.
Import GoMarshal.


(** ** The [mcp] tool-call interface

    [mcp.CallToolRequest] carries the arguments of a call as a
    [map[string]any] decoded from JSON; its accessors are those of the
    [mcp-go] library. *)

(** The double-quote character, for texts that quote a name. *)
Definition dquote : string := String "034"%char EmptyString.

(** [%q] of a key without special characters. *)
Definition quoted (s : string) : string := dquote +:+ s +:+ dquote.

Module strconv.

Definition digit_of (c : ascii) : option Z :=
  let n := Z.of_N (N_of_ascii c) in
  if (48 <=? n) && (n <=? 57) then Some (n - 48) else None.

Fixpoint parse_digits (s : string) (acc : Z) : option Z :=
  match s with
  | EmptyString => Some acc
  | String c s' =>
      match digit_of c with
      | Some d => parse_digits s' (10 * acc + d)
      | None => None
      end
  end.

(** [strconv.Atoi]: an optional sign and decimal digits, within [int]. *)
Definition Atoi (s : string) : option Z :=
  let '(neg, ds) :=
    match s with
    | String "+"%char r => (false, r)
    | String "-"%char r => (true, r)
    | _ => (false, s)
    end in
  match ds with
  | EmptyString => None
  | _ =>
      match parse_digits ds 0 with
      | Some n => let v := if neg then - n else n in
                  if in_rangeb v then Some v else None
      | None => None
      end
  end.

(** [strconv.ParseBool]. *)
Definition ParseBool (s : string) : option bool :=
  if bool_decide (s ∈ ["1"; "t"; "T"; "TRUE"; "true"; "True"]) then Some true
  else if bool_decide (s ∈ ["0"; "f"; "F"; "FALSE"; "false"; "False"]) then Some false
  else None.

End strconv.

Record CallToolRequest : Type := { Arguments : gmap string value }.

Definition RequireString (r : CallToolRequest) (key : string) : outcome string :=
  match Arguments r !! key with
  | Some (VString str) => Ok str
  | Some _ => Err ("argument " +:+ quoted key +:+ " is not a string")
  | None => Err ("required argument " +:+ quoted key +:+ " not found")
  end.

Definition GetString (r : CallToolRequest) (key defaultValue : string) : string :=
  match Arguments r !! key with
  | Some (VString str) => str
  | _ => defaultValue
  end.

Definition GetInt (r : CallToolRequest) (key : string) (defaultValue : Z) : Z :=
  match Arguments r !! key with
  | Some (VInt v) => v
  | Some (VFloat v) => GoFloat.to_int v
  | Some (VString v) =>
      match strconv.Atoi v with
      | Some i => i
      | None => defaultValue
      end
  | _ => defaultValue
  end.

Definition GetBool (r : CallToolRequest) (key : string) (defaultValue : bool) : bool :=
  match Arguments r !! key with
  | Some (VBool v) => v
  | Some (VString v) =>
      match strconv.ParseBool v with
      | Some b => b
      | None => defaultValue
      end
  | Some (VInt v) => negb (v =? 0)
  | Some (VFloat v) => negb (GoFloat.is_zero v)
  | _ => defaultValue
  end.

(** [mcp.CallToolResult]: an error text, or the text of a JSON document
    (represented by the document). *)
Inductive CallToolResult : Type :=
| NewToolResultError (text : string)
| NewToolResultText (text : json).

(** ** Collaborators and the trace of their calls *)

Inductive level : Type := DebugLevel | InfoLevel | ErrorLevel.

(** The fields of a [zerolog] event. *)
Inductive field : Type :=
| Str (key val : string)
| Int (key : string) (val : Z)
| Bool (key : string) (val : bool)
| ErrField (err : string)
| RawJSON (key : string) (val : json).

(** [elasticsearch.Config], as far as the handler sets it. *)
Record esConfig : Type := {
  Addresses : list string;
  esAPIKey : string;
  esUsername : string;
  esPassword : string
}.

Inductive event : Type :=
| Log (lvl : level) (fields : list field) (msg : string)
| JSONUnmarshal (data : string)
| ESNewClient (cfg : esConfig)
| ESInfo
| ESCatIndices (index format h : string)
| ESGetMapping (index : string)
| ESSearch (index : string) (body : json) (trackTotalHits pretty : bool)
           (timeout : option string).

Definition is_backend_call (e : event) : bool :=
  match e with
  | ESInfo | ESCatIndices _ _ _ | ESGetMapping _ | ESSearch _ _ _ _ _ => true
  | _ => false
  end.

Definition is_unmarshal (e : event) : bool :=
  match e with
  | JSONUnmarshal _ => true
  | _ => false
  end.

Definition backend_calls (t : list event) : list event := List.filter is_backend_call t.

Definition unmarshal_calls (t : list event) : list event := List.filter is_unmarshal t.

(** A Go function body with return type [R]: it appends to the trace and
    either goes on with a value ([inr]) or has executed a [return] ([inl]). *)
Definition M (R A : Type) : Type := list event -> (R + A) * list event.

#[global] Instance M_ret R : MRet (M R) :=
  fun A (a : A) t => (inr a, t).

#[global] Instance M_bind R : MBind (M R) :=
  fun A B (k : A -> M R B) (m : M R A) t =>
    match m t with
    | (inl r, t') => (inl r, t')
    | (inr a, t') => k a t'
    end.

(** The [return] statement. *)
Definition return_ {R A} (r : R) : M R A := fun t => (inl r, t).

Definition emit {R} (e : event) : M R unit := fun t => (inr tt, t ++ [e]).

(** [if c { body }] where [body] may return. *)
Definition when {R} (c : bool) (body : M R unit) : M R unit :=
  if c then body else mret tt.

(** Running a body whose last statement is a [return], from a trace. *)
Definition exec {R} (m : M R R) (t : list event) : R * list event :=
  match m t with
  | (inl r, t') | (inr r, t') => (r, t')
  end.

(** A call from the empty trace: what the function returns and what it did. *)
Definition execute {R} (m : M R R) : R * list event := exec m [].

(** A call inside another body. *)
Definition call {R A} (m : M A A) : M R A :=
  fun t => let '(r, t') := exec m t in (inr r, t').

(** ** The Elasticsearch client

    [*esapi.Response] as the handlers use it: the status ([IsError]), the
    text of [String()], and the body as [json.NewDecoder(res.Body).Decode]
    reads it into the variable the handler declares. *)
Record Response (A : Type) : Type := {
  res_IsError : bool;
  res_String : string;
  res_Body : outcome A
}.
Arguments res_IsError {A} r.
Arguments res_String {A} r.
Arguments res_Body {A} r.

Record IndexInfo : Type := {
  Name : string;
  Health : string;
  Status : string;
  UUID : string;
  DocsCount : string;
  DocsDeleted : string;
  StoreSize : string;
  PrimarySize : string;
  PrimaryCount : string;
  ReplicaCount : string;
  CreationDate : string;
  CreationTime : string
}.

Record SearchTotal : Type := {
  Value : Z;
  Relation : string
}.

Record SearchHits : Type := {
  Total : SearchTotal;
  MaxScore : option float64;
  Hits_Hits : slice gomap
}.

Record SearchResponse : Type := {
  Took : Z;
  TimedOut : bool;
  Shards : gomap;
  Hits : SearchHits;
  Aggregations : gomap
}.

(** The calls of [*elasticsearch.Client] the handlers make; each returns
    [(res, err)].  [Search] receives the index, the body, [track_total_hits]
    and the timeout option (set or not). *)
Record Client : Type := {
  Info : outcome (Response unit);
  Cat_Indices : string -> outcome (Response (slice IndexInfo));
  Indices_GetMapping : string -> outcome (Response gomap);
  Search : string -> json -> bool -> option string -> outcome (Response SearchResponse)
}.

Record ElasticsearchHandler : Type := { client : Client }.

(** Boxing of typed Go values into [any]. *)
Definition of_hits (hits : slice gomap) : value := VSlice (map VMap <$> hits).

Definition cat_columns : string :=
  "index,health,status,uuid,docs.count,docs.deleted,store.size,pri.store.size,pri,rep,creation.date,creation.date.string".

(** The canonical query of a search without a query. *)
Definition match_all : gomap := Some {[ "match_all" := VMap (Some ∅) ]}.

(** ** The handlers ([handler.go]) *)

Section Handlers.

(** [json.Unmarshal(data, &v)] for a [v] of type [any]: the decoded value,
    or the decoder's error. *)
Variable Unmarshal : string -> outcome value.

(** [json.Unmarshal(data, &m)] for a nil [m] of type [map[string]any]: the
    map (still nil after a [null]), or the decoder's error. *)
Variable UnmarshalMap : string -> outcome gomap.

Definition unmarshal_any {R} (data : string) : M R (outcome value) :=
  emit (JSONUnmarshal data) ;; mret (Unmarshal data).

Definition unmarshal_map {R} (data : string) : M R (outcome gomap) :=
  emit (JSONUnmarshal data) ;; mret (UnmarshalMap data).

Definition index_entry (idx : IndexInfo) : value :=
  VMap (Some (<["name" := VString (Name idx)]>
             (<["health" := VString (Health idx)]>
             (<["status" := VString (Status idx)]>
             (<["uuid" := VString (UUID idx)]>
             (<["docs_count" := VString (DocsCount idx)]>
             (<["docs_deleted" := VString (DocsDeleted idx)]>
             (<["store_size" := VString (StoreSize idx)]>
             (<["primary_size" := VString (PrimarySize idx)]>
             (<["primary_count" := VString (PrimaryCount idx)]>
             (<["replica_count" := VString (ReplicaCount idx)]>
             (<["creation_date" := VString (CreationDate idx)]>
             (<["creation_time" := VString (CreationTime idx)]> ∅))))))))))))).

Definition handleListIndices (h : ElasticsearchHandler) (request : CallToolRequest)
  : M CallToolResult CallToolResult :=
  let pattern := GetString request "pattern" "*" in
  emit (Log InfoLevel [Str "pattern" pattern] "Listing indices") ;;
  emit (ESCatIndices pattern "json" cat_columns) ;;
  res ← match Cat_Indices (client h) pattern with
        | Err err =>
            emit (Log ErrorLevel [ErrField err; Str "pattern" pattern]
                    "Failed to list indices") ;;
            return_ (NewToolResultError ("Failed to list indices: " +:+ err))
        | Ok res => mret res
        end;
  when (res_IsError res)
    (emit (Log ErrorLevel [Str "response" (res_String res)]
             "Elasticsearch error listing indices") ;;
     return_ (NewToolResultError ("Elasticsearch error: " +:+ res_String res))) ;;
  indices ← match res_Body res with
            | Err err =>
                emit (Log ErrorLevel [ErrField err] "Failed to decode indices response") ;;
                return_ (NewToolResultError ("Failed to decode response: " +:+ err))
            | Ok indices => mret indices
            end;
  let result : slice value :=
    foldl (fun result idx => append result (index_entry idx)) None (range indices) in
  let response : gmap string value :=
    <["total_indices" := VInt (len_slice result)]>
    (<["pattern" := VString pattern]>
    (<["indices" := VSlice result]> ∅)) in
  jsonBytes ← match Marshal (VMap (Some response)) with
              | Err err =>
                  emit (Log ErrorLevel [ErrField err] "Failed to marshal indices response") ;;
                  return_ (NewToolResultError "Failed to marshal result to JSON")
              | Ok jsonBytes => mret jsonBytes
              end;
  emit (Log InfoLevel [Int "count" (len_slice result); Str "pattern" pattern]
          "Listed indices successfully") ;;
  return_ (NewToolResultText jsonBytes).

Definition handleGetMappings (h : ElasticsearchHandler) (request : CallToolRequest)
  : M CallToolResult CallToolResult :=
  index ← match RequireString request "index" with
          | Err err =>
              emit (Log ErrorLevel [ErrField err] "Missing index parameter") ;;
              return_ (NewToolResultError "Missing 'index' parameter")
          | Ok index => mret index
          end;
  emit (Log InfoLevel [Str "index" index] "Getting index mappings") ;;
  emit (ESGetMapping index) ;;
  res ← match Indices_GetMapping (client h) index with
        | Err err =>
            emit (Log ErrorLevel [ErrField err; Str "index" index]
                    "Failed to get mappings") ;;
            return_ (NewToolResultError ("Failed to get mappings: " +:+ err))
        | Ok res => mret res
        end;
  when (res_IsError res)
    (emit (Log ErrorLevel [Str "response" (res_String res)]
             "Elasticsearch error getting mappings") ;;
     return_ (NewToolResultError ("Elasticsearch error: " +:+ res_String res))) ;;
  mappings ← match res_Body res with
             | Err err =>
                 emit (Log ErrorLevel [ErrField err] "Failed to decode mappings response") ;;
                 return_ (NewToolResultError ("Failed to decode response: " +:+ err))
             | Ok mappings => mret mappings
             end;
  let response : gmap string value :=
    <["index" := VString index]> (<["mappings" := VMap mappings]> ∅) in
  jsonBytes ← match Marshal (VMap (Some response)) with
              | Err err =>
                  emit (Log ErrorLevel [ErrField err] "Failed to marshal mappings response") ;;
                  return_ (NewToolResultError "Failed to marshal result to JSON")
              | Ok jsonBytes => mret jsonBytes
              end;
  emit (Log InfoLevel [Str "index" index] "Retrieved mappings successfully") ;;
  return_ (NewToolResultText jsonBytes).

(** [handleSearch] is one long function whose blocks are set off by
    comments; each block is a definition here, named after its comment, and
    [handleSearch] runs them in the order of the source. *)

(** [index, err := request.RequireString("index")] and its error check
    (the same lines open [handleGetMappings]). *)
Definition require_index (request : CallToolRequest) : M CallToolResult string :=
  match RequireString request "index" with
  | Err err =>
      emit (Log ErrorLevel [ErrField err] "Missing index parameter") ;;
      return_ (NewToolResultError "Missing 'index' parameter")
  | Ok index => mret index
  end.

(** "Validate size and from parameters". *)
Definition validate_size_from (size from : Z) : M CallToolResult unit :=
  when ((size <? 0) || (size >? 10000))
    (return_ (NewToolResultError "Size parameter must be between 0 and 10000")) ;;
  when (from <? 0)
    (return_ (NewToolResultError "From parameter must be >= 0")) ;;
  when (int_add from size >? 10000)
    (return_ (NewToolResultError "from + size must not exceed 10000")).

(** "Parse query JSON". *)
Definition parse_query (queryString : string) : M CallToolResult gomap :=
  if bool_decide (queryString = "{}") || bool_decide (queryString = EmptyString)
  then (* Default to match_all query if empty *)
    mret match_all
  else
    r ← unmarshal_map queryString;
    match r with
    | Err err =>
        emit (Log ErrorLevel [ErrField err; Str "query" queryString] "Invalid query JSON") ;;
        return_ (NewToolResultError ("Invalid query JSON: " +:+ err))
    | Ok query =>
        (* Validate that query is not empty after parsing *)
        if len_map query =? 0 then mret match_all else mret query
    end.

(** "Build search request", with [track_total_hits] and "Add timeout if
    specified". *)
Definition build_search_request (query : gomap) (size from : Z)
    (trackTotalHits : bool) (timeout : string) : gmap string value :=
  let searchRequest : gmap string value :=
    <["query" := VMap query]> (<["size" := VInt size]> (<["from" := VInt from]> ∅)) in
  let searchRequest :=
    if trackTotalHits then <["track_total_hits" := VBool true]> searchRequest
    else searchRequest in
  if negb (bool_decide (timeout = EmptyString))
  then <["timeout" := VString timeout]> searchRequest
  else searchRequest.

(** "Parse and add sort if provided". *)
Definition add_sort (sortString : string) (searchRequest : gmap string value)
  : M CallToolResult (gmap string value) :=
  if negb (bool_decide (sortString = EmptyString)) then
    r ← unmarshal_any sortString;
    match r with
    | Err err =>
        emit (Log ErrorLevel [ErrField err; Str "sort" sortString] "Invalid sort JSON") ;;
        return_ (NewToolResultError ("Invalid sort JSON: " +:+ err))
    | Ok sort => mret (<["sort" := sort]> searchRequest)
    end
  else mret searchRequest.

(** "Parse and add aggregations if provided". *)
Definition add_aggs (aggsString : string) (searchRequest : gmap string value)
  : M CallToolResult (gmap string value) :=
  if negb (bool_decide (aggsString = EmptyString)) then
    r ← unmarshal_map aggsString;
    match r with
    | Err err =>
        emit (Log ErrorLevel [ErrField err; Str "aggs" aggsString]
                "Invalid aggregations JSON") ;;
        return_ (NewToolResultError ("Invalid aggregations JSON: " +:+ err))
    | Ok aggs => mret (<["aggs" := VMap aggs]> searchRequest)
    end
  else mret searchRequest.

(** "Parse and add _source if provided". *)
Definition add_source (sourceString : string) (searchRequest : gmap string value)
  : M CallToolResult (gmap string value) :=
  if negb (bool_decide (sourceString = EmptyString)) then
    r ← unmarshal_any sourceString;
    match r with
    | Err err =>
        emit (Log ErrorLevel [ErrField err; Str "_source" sourceString]
                "Invalid _source JSON") ;;
        return_ (NewToolResultError ("Invalid _source JSON: " +:+ err))
    | Ok source => mret (<["_source" := source]> searchRequest)
    end
  else mret searchRequest.

(** "Parse and add highlight if provided". *)
Definition add_highlight (highlightString : string) (searchRequest : gmap string value)
  : M CallToolResult (gmap string value) :=
  if negb (bool_decide (highlightString = EmptyString)) then
    r ← unmarshal_map highlightString;
    match r with
    | Err err =>
        emit (Log ErrorLevel [ErrField err; Str "highlight" highlightString]
                "Invalid highlight JSON") ;;
        return_ (NewToolResultError ("Invalid highlight JSON: " +:+ err))
    | Ok highlight => mret (<["highlight" := VMap highlight]> searchRequest)
    end
  else mret searchRequest.

(** "Convert to JSON", "Build search options", "Execute search" and the
    decoding of the reply. *)
Definition execute_search (h : ElasticsearchHandler) (index : string)
    (searchRequest : gmap string value) (trackTotalHits : bool) (timeout : string)
  : M CallToolResult SearchResponse :=
  searchBody ← match Marshal (VMap (Some searchRequest)) with
               | Err err =>
                   emit (Log ErrorLevel [ErrField err] "Failed to marshal search request") ;;
                   return_ (NewToolResultError "Failed to create search request")
               | Ok searchBody => mret searchBody
               end;
  emit (Log DebugLevel [RawJSON "search_body" searchBody] "Search request body") ;;
  (* Add timeout option if specified *)
  let timeoutOption :=
    if negb (bool_decide (timeout = EmptyString)) then Some timeout else None in
  emit (ESSearch index searchBody trackTotalHits true timeoutOption) ;;
  res ← match Search (client h) index searchBody trackTotalHits timeoutOption with
        | Err err =>
            emit (Log ErrorLevel [ErrField err; Str "index" index]
                    "Failed to execute search") ;;
            return_ (NewToolResultError ("Failed to execute search: " +:+ err))
        | Ok res => mret res
        end;
  when (res_IsError res)
    (emit (Log ErrorLevel [Str "response" (res_String res)] "Elasticsearch search error") ;;
     return_ (NewToolResultError ("Elasticsearch search error: " +:+ res_String res))) ;;
  match res_Body res with
  | Err err =>
      emit (Log ErrorLevel [ErrField err] "Failed to decode search response") ;;
      return_ (NewToolResultError ("Failed to decode response: " +:+ err))
  | Ok searchResponse => mret searchResponse
  end.

(** "Build response with metadata" and "Add aggregations to response if
    present". *)
Definition build_response (index : string) (searchResponse : SearchResponse)
    (from size : Z) : M CallToolResult (gmap string value) :=
  let response : gmap string value :=
    <["index" := VString index]>
    (<["took" := VInt (Took searchResponse)]>
    (<["timed_out" := VBool (TimedOut searchResponse)]>
    (<["total_hits" := VInt (Value (Total (Hits searchResponse)))]>
    (<["max_score" := VFloatPtr (MaxScore (Hits searchResponse))]>
    (<["hits" := of_hits (Hits_Hits (Hits searchResponse))]>
    (<["shards" := VMap (Shards searchResponse)]>
    (<["from" := VInt from]>
    (<["size" := VInt size]> ∅)))))))) in
  if negb (bool_decide (Aggregations searchResponse = None))
     && (len_map (Aggregations searchResponse) >? 0)
  then
    emit (Log DebugLevel [Int "agg_count" (len_map (Aggregations searchResponse))]
            "Aggregations found in response") ;;
    mret (<["aggregations" := VMap (Aggregations searchResponse)]> response)
  else mret response.

(** The end of [handleSearch]: the response is encoded, the success is
    logged and the text is returned. *)
Definition respond (index : string) (searchResponse : SearchResponse) (from size : Z)
  : M CallToolResult CallToolResult :=
  response ← build_response index searchResponse from size;
  jsonBytes ← match Marshal (VMap (Some response)) with
              | Err err =>
                  emit (Log ErrorLevel [ErrField err] "Failed to marshal search response") ;;
                  return_ (NewToolResultError "Failed to marshal result to JSON")
              | Ok jsonBytes => mret jsonBytes
              end;
  emit (Log InfoLevel
          [Str "index" index;
           Int "total_hits" (Value (Total (Hits searchResponse)));
           Int "returned_hits" (len_slice (Hits_Hits (Hits searchResponse)));
           Int "took_ms" (Took searchResponse);
           Int "agg_count" (len_map (Aggregations searchResponse))]
          "Search executed successfully") ;;
  return_ (NewToolResultText jsonBytes).

Definition handleSearch (h : ElasticsearchHandler) (request : CallToolRequest)
  : M CallToolResult CallToolResult :=
  index ← require_index request;
  let queryString := GetString request "query" "{}" in
  let size := GetInt request "size" 10 in
  let from := GetInt request "from" 0 in
  let sortString := GetString request "sort" EmptyString in
  let aggsString := GetString request "aggs" EmptyString in
  let sourceString := GetString request "_source" EmptyString in
  let highlightString := GetString request "highlight" EmptyString in
  let trackTotalHits := GetBool request "track_total_hits" true in
  let timeout := GetString request "timeout" EmptyString in
  emit (Log InfoLevel
          [Str "index" index; Str "query" queryString; Int "size" size; Int "from" from;
           Str "sort" sortString; Str "aggs" aggsString; Str "_source" sourceString;
           Str "highlight" highlightString; Bool "track_total_hits" trackTotalHits;
           Str "timeout" timeout]
          "Executing search") ;;
  validate_size_from size from ;;
  query ← parse_query queryString;
  let searchRequest := build_search_request query size from trackTotalHits timeout in
  searchRequest ← add_sort sortString searchRequest;
  searchRequest ← add_aggs aggsString searchRequest;
  searchRequest ← add_source sourceString searchRequest;
  searchRequest ← add_highlight highlightString searchRequest;
  searchResponse ← execute_search h index searchRequest trackTotalHits timeout;
  respond index searchResponse from size.

End Handlers.

(** ** Vocabulary for the properties of [handleSearch] *)

(** The guards of "Validate size and from parameters", in one. *)
Definition rejected (size from : Z) : bool :=
  (size <? 0) || (size >? 10000) || (from <? 0) || (int_add from size >? 10000).

(** The text of the guard that fires. *)
Definition size_from_error (size from : Z) : string :=
  if (size <? 0) || (size >? 10000) then "Size parameter must be between 0 and 10000"
  else if from <? 0 then "From parameter must be >= 0"
  else "from + size must not exceed 10000".

(** Is a text handed to the decoder?  The query is not when it is empty or
    the text of the empty object, the other fields are not when empty. *)
Definition query_decoded (queryString : string) : bool :=
  negb (bool_decide (queryString = "{}") || bool_decide (queryString = EmptyString)).

Definition decoded (s : string) : bool := negb (bool_decide (s = EmptyString)).

(** The decoder's calls a field causes. *)
Definition calls (used : bool) (s : string) : list event :=
  if used then [JSONUnmarshal s] else [].

(** An optional key of the request: set when its value is there. *)
Definition insert_opt (k : string) (o : option value) (m : gmap string value)
  : gmap string value :=
  match o with
  | Some v => <[k := v]> m
  | None => m
  end.

(** The value of an optional field: none for the empty text, else what the
    decoder made of the text. *)
Definition field_ok (s : string) (r : outcome value) (o : option value) : Prop :=
  if decoded s then ∃ v, r = Ok v ∧ o = Some v else o = None.

(** A block that makes no backend call: it returns an error, or goes on
    with a value that satisfies [P]. *)
Definition quiet {A} (m : M CallToolResult A) (t : list event) (P : A -> Prop) : Prop :=
  ∃ d, backend_calls d = []
       ∧ ((∃ msg, m t = (inl (NewToolResultError msg), t ++ d))
          ∨ (∃ a, m t = (inr a, t ++ d) ∧ P a)).

Section SearchVocabulary.

Variable Unmarshal : string -> outcome value.
Variable UnmarshalMap : string -> outcome gomap.
Variable request : CallToolRequest.

(** The query of the request: the canonical one unless the text decodes to
    a map with entries. *)
Definition query_ok (q : gomap) : Prop :=
  if query_decoded (GetString request "query" "{}")
  then ∃ q0, UnmarshalMap (GetString request "query" "{}") = Ok q0
             ∧ q = if len_map q0 =? 0 then match_all else q0
  else q = match_all.

(** The request the handler has built when it reaches "Convert to JSON". *)
Definition assembled (searchRequest : gmap string value) : Prop :=
  ∃ q sort aggs source highlight,
    query_ok q
    ∧ field_ok (GetString request "sort" EmptyString)
        (Unmarshal (GetString request "sort" EmptyString)) sort
    ∧ field_ok (GetString request "aggs" EmptyString)
        (outcome_map VMap (UnmarshalMap (GetString request "aggs" EmptyString))) aggs
    ∧ field_ok (GetString request "_source" EmptyString)
        (Unmarshal (GetString request "_source" EmptyString)) source
    ∧ field_ok (GetString request "highlight" EmptyString)
        (outcome_map VMap (UnmarshalMap (GetString request "highlight" EmptyString)))
        highlight
    ∧ searchRequest =
        insert_opt "highlight" highlight
          (insert_opt "_source" source
             (insert_opt "aggs" aggs
                (insert_opt "sort" sort
                   (build_search_request q
                      (GetInt request "size" 10) (GetInt request "from" 0)
                      (GetBool request "track_total_hits" true)
                      (GetString request "timeout" EmptyString))))).

(** The timeout option of the dispatched search. *)
Definition timeoutOption : option string :=
  if negb (bool_decide (GetString request "timeout" EmptyString = EmptyString))
  then Some (GetString request "timeout" EmptyString) else None.

(** The response map of "Build response with metadata" and "Add
    aggregations to response if present". *)
Definition response_of (index : string) (searchResponse : SearchResponse)
  : gmap string value :=
  let response : gmap string value :=
    <["index" := VString index]>
    (<["took" := VInt (Took searchResponse)]>
    (<["timed_out" := VBool (TimedOut searchResponse)]>
    (<["total_hits" := VInt (Value (Total (Hits searchResponse)))]>
    (<["max_score" := VFloatPtr (MaxScore (Hits searchResponse))]>
    (<["hits" := of_hits (Hits_Hits (Hits searchResponse))]>
    (<["shards" := VMap (Shards searchResponse)]>
    (<["from" := VInt (GetInt request "from" 0)]>
    (<["size" := VInt (GetInt request "size" 10)]> ∅)))))))) in
  if negb (bool_decide (Aggregations searchResponse = None))
     && (len_map (Aggregations searchResponse) >? 0)
  then <["aggregations" := VMap (Aggregations searchResponse)]> response
  else response.

End SearchVocabulary.

(** The first event of a search that has its index. *)
Definition executing_search (request : CallToolRequest) (index : string) : event :=
  Log InfoLevel
    [Str "index" index;
     Str "query" (GetString request "query" "{}");
     Int "size" (GetInt request "size" 10);
     Int "from" (GetInt request "from" 0);
     Str "sort" (GetString request "sort" EmptyString);
     Str "aggs" (GetString request "aggs" EmptyString);
     Str "_source" (GetString request "_source" EmptyString);
     Str "highlight" (GetString request "highlight" EmptyString);
     Bool "track_total_hits" (GetBool request "track_total_hits" true);
     Str "timeout" (GetString request "timeout" EmptyString)]
    "Executing search".

(** The five parameters of a search that carry JSON text, in the order the
    handler reads them. *)
Inductive subfield : Type :=
| QueryField | SortField | AggsField | SourceField | HighlightField.

(** The name of the parameter, and the name its error message uses. *)
Definition param (f : subfield) : string :=
  match f with
  | QueryField => "query"
  | SortField => "sort"
  | AggsField => "aggs"
  | SourceField => "_source"
  | HighlightField => "highlight"
  end.



Section Subfields.

Variable Unmarshal : string -> outcome value.
Variable UnmarshalMap : string -> outcome gomap.
Variable request : CallToolRequest.

(** The text supplied for a field (or its default). *)
Definition text (f : subfield) : string :=
  GetString request (param f)
    match f with
    | QueryField => "{}"
    | _ => EmptyString
    end.

(** Is the text of the field handed to the decoder? *)
Definition handed (f : subfield) : bool :=
  match f with
  | QueryField => query_decoded (text f)
  | _ => decoded (text f)
  end.

Definition error_of {A} (r : outcome A) : option string :=
  match r with
  | Ok _ => None
  | Err err => Some err
  end.

(** The decoder's error on a field, if its text is decoded and rejected:
    the query, the aggregations and the highlight are decoded into a map,
    the sort and the source filter into [any]. *)
Definition decode_error (f : subfield) : option string :=
  if handed f then
    match f with
    | QueryField | AggsField | HighlightField => error_of (UnmarshalMap (text f))
    | SortField | SourceField => error_of (Unmarshal (text f))
    end
  else None.

End Subfields.


(** ** Vocabulary for the properties of [handleListIndices] *)

(** The slice the conversion loop builds. *)
Definition list_result (indices : slice IndexInfo) : slice value :=
  foldl (fun result idx => append result (index_entry idx)) None (range indices).

(** The response map of the listing. *)
Definition list_response (pattern : string) (indices : slice IndexInfo)
  : gmap string value :=
  <["total_indices" := VInt (len_slice (list_result indices))]>
  (<["pattern" := VString pattern]>
  (<["indices" := VSlice (list_result indices)]> ∅)).

(** The encoding of an entry of the listing. *)
Definition index_entry_json (idx : IndexInfo) : json :=
  JObject (<["name" := JString (Name idx)]>
          (<["health" := JString (Health idx)]>
          (<["status" := JString (Status idx)]>
          (<["uuid" := JString (UUID idx)]>
          (<["docs_count" := JString (DocsCount idx)]>
          (<["docs_deleted" := JString (DocsDeleted idx)]>
          (<["store_size" := JString (StoreSize idx)]>
          (<["primary_size" := JString (PrimarySize idx)]>
          (<["primary_count" := JString (PrimaryCount idx)]>
          (<["replica_count" := JString (ReplicaCount idx)]>
          (<["creation_date" := JString (CreationDate idx)]>
          (<["creation_time" := JString (CreationTime idx)]> ∅)))))))))))).

(** The document the listing returns. *)
Definition list_document (pattern : string) (indices : slice IndexInfo) : json :=
  JObject (<["total_indices" := JInt (Z.of_nat (length (range indices)))]>
          (<["pattern" := JString pattern]>
          (<["indices" := match range indices with
                          | [] => JNull
                          | l => JArray (index_entry_json <$> l)
                          end]> ∅))).

(** ** Configuration ([config.go]) *)

Record ElasticsearchConfig : Type := {
  URL : string;
  APIKey : string;
  Username : string;
  Password : string
}.

Record ServerConfig : Type := {
  ServerName : string;       (* Name *)
  ServerVersion : string     (* Version *)
}.

Record LoggingConfig : Type := {
  Level : string;
  Format : string;
  Output : string
}.

Record Config : Type := {
  Elasticsearch : ElasticsearchConfig;
  Server : ServerConfig;
  Logging : LoggingConfig
}.

(** [os.Getenv] on the process environment (after [godotenv.Overload]):
    an unset variable reads as the empty string. *)
Definition Getenv (env : gmap string string) (key : string) : string :=
  default EmptyString (env !! key).

Definition getEnv (env : gmap string string) (key defaultValue : string) : string :=
  let value := Getenv env key in
  if negb (bool_decide (value = EmptyString)) then value else defaultValue.

Definition validLogLevels : gmap string bool :=
  <["debug" := true]> (<["info" := true]> (<["warn" := true]>
  (<["error" := true]> (<["fatal" := true]> ∅)))).

(** [nil] is [Ok tt]. *)
Definition validateConfig (config : Config) : outcome unit :=
  if bool_decide (URL (Elasticsearch config) = EmptyString) then
    Err "ES_URL environment variable is required"
  else if bool_decide (APIKey (Elasticsearch config) = EmptyString)
          && (bool_decide (Username (Elasticsearch config) = EmptyString)
              || bool_decide (Password (Elasticsearch config) = EmptyString)) then
    Err "either ES_API_KEY or ES_USERNAME+ES_PASSWORD must be provided"
  else if negb (default false (validLogLevels !! Level (Logging config))) then
    Err ("invalid log level: " +:+ Level (Logging config))
  else Ok tt.

Definition loadConfig (env : gmap string string) (version : string) : outcome Config :=
  let config := {|
    Elasticsearch := {|
      URL := getEnv env "ES_URL" "http://localhost:9200";
      APIKey := getEnv env "ES_API_KEY" EmptyString;
      Username := getEnv env "ES_USERNAME" EmptyString;
      Password := getEnv env "ES_PASSWORD" EmptyString |};
    Server := {|
      ServerName := getEnv env "MCP_ES_SERVER_NAME" "mcp-elasticsearch 🔍";
      ServerVersion := version |};
    Logging := {|
      Level := getEnv env "MCP_ES_LOG_LEVEL" "info";
      Format := getEnv env "MCP_ES_LOG_FORMAT" "console";
      Output := getEnv env "MCP_ES_LOG_OUTPUT" "stderr" |} |} in
  match validateConfig config with
  | Err err => Err ("invalid configuration: " +:+ err)
  | Ok _ => Ok config
  end.

(** ** Construction of the handler ([handler.go], [main.go]) *)

Section Construction.

(** [elasticsearch.NewClient]. *)
Variable NewClient : esConfig -> outcome Client.

(** Modelled from the spec: [newLogger] of the repository's logging file,
    which the sources at hand do not include; the spec treats logging setup
    as an external collaborator that either yields a logger or fails. *)
Variable newLogger : LoggingConfig -> outcome unit.

Definition newElasticsearchHandler (cfg : ElasticsearchConfig)
  : M (outcome ElasticsearchHandler) (outcome ElasticsearchHandler) :=
  emit (Log InfoLevel [Str "url" (URL cfg)] "Creating Elasticsearch client") ;;
  (* Configure Elasticsearch client *)
  let esCfg := {| Addresses := [URL cfg]; esAPIKey := EmptyString;
                  esUsername := EmptyString; esPassword := EmptyString |} in
  (* Set authentication method *)
  esCfg ← (if negb (bool_decide (APIKey cfg = EmptyString)) then
             emit (Log InfoLevel [] "Using API key authentication") ;;
             mret {| Addresses := Addresses esCfg; esAPIKey := APIKey cfg;
                     esUsername := esUsername esCfg; esPassword := esPassword esCfg |}
           else if negb (bool_decide (Username cfg = EmptyString))
                   && negb (bool_decide (Password cfg = EmptyString)) then
             emit (Log InfoLevel [Str "username" (Username cfg)]
                     "Using basic authentication") ;;
             mret {| Addresses := Addresses esCfg; esAPIKey := esAPIKey esCfg;
                     esUsername := Username cfg; esPassword := Password cfg |}
           else mret esCfg);
  emit (ESNewClient esCfg) ;;
  client ← match NewClient esCfg with
           | Err err =>
               emit (Log ErrorLevel [ErrField err] "Failed to create Elasticsearch client") ;;
               return_ (Err ("error creating elasticsearch client: " +:+ err))
           | Ok client => mret client
           end;
  (* Test connection *)
  emit (Log DebugLevel [] "Testing Elasticsearch connection") ;;
  emit ESInfo ;;
  res ← match Info client with
        | Err err =>
            emit (Log ErrorLevel [ErrField err] "Failed to connect to Elasticsearch") ;;
            return_ (Err ("error connecting to elasticsearch: " +:+ err))
        | Ok res => mret res
        end;
  when (res_IsError res)
    (emit (Log ErrorLevel [Str "response" (res_String res)]
             "Elasticsearch connection error") ;;
     return_ (Err ("elasticsearch connection error: " +:+ res_String res))) ;;
  emit (Log InfoLevel [] "Elasticsearch connection successful") ;;
  return_ (Ok {| client := client |}).

(** [run] of [main.go] up to the construction of the handler; the
    registration of the tools and the serving loop follow a success.
    ([loadConfig] has already stored [version] in the configuration, so the
    assignment guarded by [version != "dev"] changes nothing.) *)
Definition run (env : gmap string string) (version : string)
  : M (outcome ElasticsearchHandler) (outcome ElasticsearchHandler) :=
  cfg ← match loadConfig env version with
        | Err err => return_ (Err ("failed to load configuration: " +:+ err))
        | Ok cfg => mret cfg
        end;
  _ ← match newLogger (Logging cfg) with
      | Err err => return_ (Err ("failed to initialize logger: " +:+ err))
      | Ok log => mret log
      end;
  emit (Log InfoLevel
          [Str "server_name" (ServerName (Server cfg));
           Str "version" (ServerVersion (Server cfg));
           Str "log_level" (Level (Logging cfg));
           Str "elasticsearch_url" (URL (Elasticsearch cfg));
           Bool "use_api_key" (negb (bool_decide (APIKey (Elasticsearch cfg) = EmptyString)));
           Bool "use_basic_auth" (negb (bool_decide (Username (Elasticsearch cfg) = EmptyString)))]
          "Configuration loaded") ;;
  r ← call (newElasticsearchHandler (Elasticsearch cfg));
  match r with
  | Err err => return_ (Err ("failed to initialize Elasticsearch handler: " +:+ err))
  | Ok esHandler => return_ (Ok esHandler)
  end.

End Construction.

(** ** Vocabulary for the properties of the construction *)

(** The client configuration [newElasticsearchHandler] builds: the API key
    when there is one, else the username and password when both are there,
    else no credentials. *)
Definition selected_config (cfg : ElasticsearchConfig) : esConfig :=
  if negb (bool_decide (APIKey cfg = EmptyString)) then
    {| Addresses := [URL cfg]; esAPIKey := APIKey cfg;
       esUsername := EmptyString; esPassword := EmptyString |}
  else if negb (bool_decide (Username cfg = EmptyString))
          && negb (bool_decide (Password cfg = EmptyString)) then
    {| Addresses := [URL cfg]; esAPIKey := EmptyString;
       esUsername := Username cfg; esPassword := Password cfg |}
  else
    {| Addresses := [URL cfg]; esAPIKey := EmptyString;
       esUsername := EmptyString; esPassword := EmptyString |}.

(** The Elasticsearch settings [loadConfig] reads from the environment. *)
Definition elasticsearch_of (env : gmap string string) : ElasticsearchConfig :=
  {| URL := getEnv env "ES_URL" "http://localhost:9200";
     APIKey := getEnv env "ES_API_KEY" EmptyString;
     Username := getEnv env "ES_USERNAME" EmptyString;
     Password := getEnv env "ES_PASSWORD" EmptyString |}.




(** ** [encoding/json]: a decoder for the examples

    The handlers are verified for every decoder ([Unmarshal] is a variable
    of their section).  The decoder below instantiates it where a statement
    is evaluated on a concrete call: it follows the scanner of Go's
    [encoding/json] (the whole text is checked first, then decoded; the
    messages are those of [SyntaxError] and [UnmarshalTypeError]) on texts
    that are valid UTF-8, as the arguments of a tool call are. *)

Module encoding_json.

Definition code (c : ascii) : Z := Z.of_N (N_of_ascii c).

Definition chr (n : Z) : ascii := ascii_of_N (Z.to_N n).

Definition str1 (c : ascii) : string := String c EmptyString.

Definition hex_digit (n : Z) : ascii :=
  if n <? 10 then chr (48 + n) else chr (87 + n).

(** UTF-8 encoding of a code point. *)
Definition utf8 (r : Z) : string :=
  if r <? 128 then str1 (chr r)
  else if r <? 2048 then
    String (chr (192 + r / 64)) (str1 (chr (128 + r mod 64)))
  else if r <? 65536 then
    String (chr (224 + r / 4096))
      (String (chr (128 + (r / 64) mod 64)) (str1 (chr (128 + r mod 64))))
  else
    String (chr (240 + r / 262144))
      (String (chr (128 + (r / 4096) mod 64))
         (String (chr (128 + (r / 64) mod 64)) (str1 (chr (128 + r mod 64))))).

(** [quoteChar]: a byte as the error messages show it. *)
Definition quoteChar (c : ascii) : string :=
  let n := code c in
  let body :=
    if n =? 39 then "\'"
    else if n =? 34 then dquote
    else if n =? 92 then "\\"
    else if n =? 7 then "\a"
    else if n =? 8 then "\b"
    else if n =? 12 then "\f"
    else if n =? 10 then "\n"
    else if n =? 13 then "\r"
    else if n =? 9 then "\t"
    else if n =? 11 then "\v"
    else if (n <? 32) || (n =? 127) then
      "\x" +:+ str1 (hex_digit (n / 16)) +:+ str1 (hex_digit (n mod 16))
    else if n <? 128 then str1 c
    else if (n <? 161) || (n =? 173) then
      "\u00" +:+ str1 (hex_digit (n / 16)) +:+ str1 (hex_digit (n mod 16))
    else utf8 n in
  "'" +:+ body +:+ "'".

Definition invalid (c : ascii) (context : string) : string :=
  "invalid character " +:+ quoteChar c +:+ " " +:+ context.

Definition unexpected_end : string := "unexpected end of JSON input".

(** The syntax tree of a valid text: numbers keep their literal, the
    entries of an object keep their order. *)
Inductive raw : Type :=
| RNull
| RBool (b : bool)
| RNumber (lit : string)
| RString (s : string)
| RArray (l : list raw)
| RObject (l : list (string * raw)).

Definition is_space (c : ascii) : bool :=
  let n := code c in (n =? 32) || (n =? 9) || (n =? 13) || (n =? 10).

Definition is_digit (c : ascii) : bool :=
  let n := code c in (48 <=? n) && (n <=? 57).

Fixpoint skip_space (s : string) : string :=
  match s with
  | String c r => if is_space c then skip_space r else s
  | EmptyString => s
  end.

(** The rest of a literal ([rue] after [t], ...). *)
Fixpoint literal (name rest : string) (s : string) (v : raw) : outcome (raw * string) :=
  match rest with
  | EmptyString => Ok (v, s)
  | String e rest' =>
      match s with
      | EmptyString => Err unexpected_end
      | String c r =>
          if Ascii.eqb c e then literal name rest' r v
          else Err (invalid c ("in literal " +:+ name +:+ " (expecting " +:+ quoteChar e +:+ ")"))
      end
  end.

(** Leading digits of a text: the digits and what follows them. *)
Fixpoint digits (s : string) : string * string :=
  match s with
  | String c r =>
      if is_digit c then let '(d, r') := digits r in (String c d, r') else (EmptyString, s)
  | EmptyString => (EmptyString, s)
  end.

(** After the integer part [lit]: an optional fraction and exponent. *)
Definition number_tail (lit s : string) : outcome (raw * string) :=
  let frac :=
    match s with
    | String "."%char r =>
        match r with
        | EmptyString => Err unexpected_end
        | String c _ =>
            if is_digit c then let '(d, r') := digits r in Ok (lit +:+ "." +:+ d, r')
            else Err (invalid c "after decimal point in numeric literal")
        end
    | _ => Ok (lit, s)
    end in
  match frac with
  | Err e => Err e
  | Ok (lit, s) =>
      let is_e c := Ascii.eqb c "e" || Ascii.eqb c "E" in
      match s with
      | String e r =>
          if is_e e then
            let '(sign, r) :=
              match r with
              | String "+"%char r' => ("+", r')
              | String "-"%char r' => ("-", r')
              | _ => (EmptyString, r)
              end in
            match r with
            | EmptyString => Err unexpected_end
            | String c _ =>
                if is_digit c then
                  let '(d, r') := digits r in
                  Ok (RNumber (lit +:+ str1 e +:+ sign +:+ d), r')
                else Err (invalid c "in exponent of numeric literal")
            end
          else Ok (RNumber lit, s)
      | EmptyString => Ok (RNumber lit, s)
      end
  end.

(** A number whose first character [c] is a digit; [sign] is [-] or empty. *)
Definition number (sign : string) (c : ascii) (r : string) : outcome (raw * string) :=
  if Ascii.eqb c "0" then number_tail (sign +:+ "0") r
  else let '(d, r') := digits r in number_tail (sign +:+ String c d) r'.

Definition hex_value (c : ascii) : option Z :=
  let n := code c in
  if (48 <=? n) && (n <=? 57) then Some (n - 48)
  else if (97 <=? n) && (n <=? 102) then Some (n - 87)
  else if (65 <=? n) && (n <=? 70) then Some (n - 55)
  else None.

(** Four hexadecimal digits: their value and the rest. *)
Fixpoint hex4 (k : nat) (acc : Z) (s : string) : outcome (Z * string) :=
  match k with
  | O => Ok (acc, s)
  | S k' =>
      match s with
      | EmptyString => Err unexpected_end
      | String c r =>
          match hex_value c with
          | Some d => hex4 k' (16 * acc + d) r
          | None => Err (invalid c "in \u hexadecimal character escape")
          end
      end
  end.

(** [getu4]: the value of a leading [\uXXXX], for a second surrogate. *)
Definition getu4 (s : string) : option Z :=
  match s with
  | String "\"%char (String "u"%char r) =>
      match hex4 4 0 r with
      | Ok (v, _) => Some v
      | Err _ => None
      end
  | _ => None
  end.

Definition is_surrogate (r : Z) : bool := (55296 <=? r) && (r <? 57344).

Definition replacement : Z := 65533.

(** The inside of a string literal, after its opening quote: the decoded
    text and what follows the closing quote. *)
Fixpoint string_body (fuel : nat) (s : string) : outcome (string * string) :=
  match fuel with
  | O => Err unexpected_end
  | S fuel =>
      match s with
      | EmptyString => Err unexpected_end
      | String c r =>
          if code c =? 34 then Ok (EmptyString, r)
          else if code c =? 92 then
            match r with
            | EmptyString => Err unexpected_end
            | String e r' =>
                let simple (t : string) :=
                  match string_body fuel r' with
                  | Ok (b, rest) => Ok (t +:+ b, rest)
                  | Err err => Err err
                  end in
                if Ascii.eqb e "b" then simple (str1 (chr 8))
                else if Ascii.eqb e "f" then simple (str1 (chr 12))
                else if Ascii.eqb e "n" then simple (str1 (chr 10))
                else if Ascii.eqb e "r" then simple (str1 (chr 13))
                else if Ascii.eqb e "t" then simple (str1 (chr 9))
                else if Ascii.eqb e "\" then simple "\"
                else if Ascii.eqb e "/" then simple "/"
                else if code e =? 34 then simple dquote
                else if Ascii.eqb e "u" then
                  match hex4 4 0 r' with
                  | Err err => Err err
                  | Ok (rr, r'') =>
                      let plain (rune : Z) :=
                        match string_body fuel r'' with
                        | Ok (b, rest) => Ok (utf8 rune +:+ b, rest)
                        | Err err => Err err
                        end in
                      if is_surrogate rr then
                        match getu4 r'' with
                        | Some rr1 =>
                            if (rr <? 56320) && (56320 <=? rr1) && (rr1 <? 57344) then
                              match string_body fuel (String.substring 6 (String.length r'') r'') with
                              | Ok (b, rest) =>
                                  Ok (utf8 ((rr - 55296) * 1024 + (rr1 - 56320) + 65536) +:+ b, rest)
                              | Err err => Err err
                              end
                            else plain replacement
                        | None => plain replacement
                        end
                      else plain rr
                  end
                else Err (invalid e "in string escape code")
            end
          else if code c <? 32 then Err (invalid c "in string literal")
          else
            match string_body fuel r with
            | Ok (b, rest) => Ok (String c b, rest)
            | Err err => Err err
            end
      end
  end.

Definition maxNestingDepth : Z := 10000.

(** A value, then the members of an array and of an object.  Every call
    takes one unit of fuel; a text of [n] bytes needs fewer than [2n+2]. *)
Fixpoint scan_value (fuel : nat) (depth : Z) (s : string) : outcome (raw * string) :=
  match fuel with
  | O => Err unexpected_end
  | S fuel =>
      match skip_space s with
      | EmptyString => Err unexpected_end
      | String c r =>
          if Ascii.eqb c "{" then
            if maxNestingDepth <? depth + 1 then Err "exceeded max depth"
            else
              match skip_space r with
              | String "}"%char r' => Ok (RObject [], r')
              | _ => scan_members fuel (depth + 1) [] r
              end
          else if Ascii.eqb c "[" then
            if maxNestingDepth <? depth + 1 then Err "exceeded max depth"
            else
              match skip_space r with
              | String "]"%char r' => Ok (RArray [], r')
              | _ => scan_elements fuel (depth + 1) [] r
              end
          else if code c =? 34 then
            match string_body (String.length r + 1) r with
            | Ok (str, r') => Ok (RString str, r')
            | Err err => Err err
            end
          else if Ascii.eqb c "-" then
            match r with
            | EmptyString => Err unexpected_end
            | String d r' =>
                if is_digit d then number "-" d r'
                else Err (invalid d "in numeric literal")
            end
          else if is_digit c then number EmptyString c r
          else if Ascii.eqb c "t" then literal "true" "rue" r (RBool true)
          else if Ascii.eqb c "f" then literal "false" "alse" r (RBool false)
          else if Ascii.eqb c "n" then literal "null" "ull" r RNull
          else Err (invalid c "looking for beginning of value")
      end
  end
with scan_elements (fuel : nat) (depth : Z) (acc : list raw) (s : string)
  : outcome (raw * string) :=
  match fuel with
  | O => Err unexpected_end
  | S fuel =>
      match scan_value fuel depth s with
      | Err err => Err err
      | Ok (v, r) =>
          match skip_space r with
          | EmptyString => Err unexpected_end
          | String c r' =>
              if Ascii.eqb c "," then scan_elements fuel depth (acc ++ [v]) r'
              else if Ascii.eqb c "]" then Ok (RArray (acc ++ [v]), r')
              else Err (invalid c "after array element")
          end
      end
  end
with scan_members (fuel : nat) (depth : Z) (acc : list (string * raw)) (s : string)
  : outcome (raw * string) :=
  match fuel with
  | O => Err unexpected_end
  | S fuel =>
      match skip_space s with
      | EmptyString => Err unexpected_end
      | String q r =>
          if code q =? 34 then
            match string_body (String.length r + 1) r with
            | Err err => Err err
            | Ok (key, r) =>
                match skip_space r with
                | EmptyString => Err unexpected_end
                | String c r =>
                    if Ascii.eqb c ":" then
                      match scan_value fuel depth r with
                      | Err err => Err err
                      | Ok (v, r) =>
                          match skip_space r with
                          | EmptyString => Err unexpected_end
                          | String c r' =>
                              if Ascii.eqb c "," then
                                scan_members fuel depth (acc ++ [(key, v)]) r'
                              else if Ascii.eqb c "}" then
                                Ok (RObject (acc ++ [(key, v)]), r')
                              else Err (invalid c "after object key:value pair")
                          end
                      end
                    else Err (invalid c "after object key")
                end
            end
          else Err (invalid q "looking for beginning of object key string")
      end
  end.

(** [checkValid] and the syntax tree of a valid text. *)
Definition scan (data : string) : outcome raw :=
  match scan_value (2 * String.length data + 2) 0 data with
  | Err err => Err err
  | Ok (v, r) =>
      match skip_space r with
      | EmptyString => Ok v
      | String c _ => Err (invalid c "after top-level value")
      end
  end.

(** [strconv.ParseFloat] on a valid numeric literal: the sign, the digits
    [d] and the decimal exponent [k] of [d * 10^k]. *)
Definition decimal_of (lit : string) : bool * Z * Z :=
  let '(neg, s) :=
    match lit with
    | String "-"%char r => (true, r)
    | _ => (false, lit)
    end in
  let '(ip, s) := digits s in
  let '(fp, s) :=
    match s with
    | String "."%char r => digits r
    | _ => (EmptyString, s)
    end in
  let e :=
    match s with
    | String _ (String "-"%char r) => - default 0 (strconv.parse_digits r 0)
    | String _ (String "+"%char r) => default 0 (strconv.parse_digits r 0)
    | String _ r => default 0 (strconv.parse_digits r 0)
    | EmptyString => 0
    end in
  (neg, default 0 (strconv.parse_digits (ip +:+ fp) 0), e - Z.of_nat (String.length fp)).

(** The [float64] nearest to [d * 10^k].  A quotient is computed with more
    than 53 bits and a sticky bit, so that the final rounding is the rounding
    of the exact value; exponents beyond the range of [float64] are cut off
    before any power is computed. *)
Definition float_of_decimal (neg : bool) (d k : Z) : float64 :=
  let sign (m : Z) := if neg then - m else m in
  if d =? 0 then S754_zero neg
  else if 0 <=? k then
    if 400 <? k then S754_infinity neg
    else GoFloat.of_Z_scaled (sign (d * 10 ^ k)) 0
  else
    let n := - k in
    if 400 + Z.log2 d <? n then S754_zero neg
    else
      let p := 10 ^ n in
      let s := Z.max 0 (Z.log2 p - Z.log2 d + 64) in
      let q := (d * 2 ^ s) / p in
      let sticky := if (d * 2 ^ s) mod p =? 0 then 0 else 1 in
      GoFloat.of_Z_scaled (sign (2 * q + sticky)) (- s - 1).

Definition convertNumber (lit : string) : outcome value :=
  let '(neg, d, k) := decimal_of lit in
  let f := float_of_decimal neg d k in
  if GoFloat.is_finite f then Ok (VFloat f)
  else Err ("json: cannot unmarshal number " +:+ lit +:+ " into Go value of type float64").

(** The entries of an object in their order: a later key replaces an
    earlier one; the first failure is the failure of the whole. *)
Definition collect (l : list (string * outcome value)) : outcome (gmap string value) :=
  foldl (fun acc kv =>
           match acc with
           | Err err => Err err
           | Ok m =>
               match kv.2 with
               | Err err => Err err
               | Ok v => Ok (<[kv.1 := v]> m)
               end
           end) (Ok ∅) l.

(** Decoding into [any]. *)
Fixpoint valueInterface (r : raw) : outcome value :=
  match r with
  | RNull => Ok VNil
  | RBool b => Ok (VBool b)
  | RNumber lit => convertNumber lit
  | RString s => Ok (VString s)
  | RArray l => outcome_map (fun l => VSlice (Some l)) (sequence_list (map valueInterface l))
  | RObject l =>
      outcome_map (fun m => VMap (Some m))
        (collect (map (fun kv => (kv.1, valueInterface kv.2)) l))
  end.

(** [json.Unmarshal(data, &v)] for [v] of type [any]. *)
Definition Unmarshal (data : string) : outcome value :=
  match scan data with
  | Err err => Err err
  | Ok r => valueInterface r
  end.

Definition type_error (kind : string) : string :=
  "json: cannot unmarshal " +:+ kind +:+ " into Go value of type map[string]interface {}".

(** [json.Unmarshal(data, &m)] for a nil [m] of type [map[string]any]: an
    object fills the map, [null] leaves it nil, any other value is a type
    error and is skipped. *)
Definition UnmarshalMap (data : string) : outcome gomap :=
  match scan data with
  | Err err => Err err
  | Ok (RObject l) => outcome_map Some (collect (map (fun kv => (kv.1, valueInterface kv.2)) l))
  | Ok RNull => Ok None
  | Ok (RBool _) => Err (type_error "bool")
  | Ok (RNumber _) => Err (type_error "number")
  | Ok (RString _) => Err (type_error "string")
  | Ok (RArray _) => Err (type_error "array")
  end.

End encoding_json.

(** ** A simulated backend

    A cluster that holds the named collections: listing answers with the
    collections whose name matches the pattern, where [*] stands for any
    run of characters; every other call answers with an empty reply. *)

Module simulated.

Fixpoint glob (pattern name : string) : bool :=
  match pattern with
  | EmptyString => bool_decide (name = EmptyString)
  | String c pattern' =>
      if Ascii.eqb c "*" then
        (fix star (name : string) : bool :=
           glob pattern' name
           || match name with
              | EmptyString => false
              | String _ name' => star name'
              end) name
      else
        match name with
        | EmptyString => false
        | String d name' => Ascii.eqb c d && glob pattern' name'
        end
  end.

Definition info (name : string) : IndexInfo := {|
  Name := name; Health := "green"; Status := "open"; UUID := "uuid-" +:+ name;
  DocsCount := "0"; DocsDeleted := "0"; StoreSize := "225b"; PrimarySize := "225b";
  PrimaryCount := "1"; ReplicaCount := "0"; CreationDate := "0";
  CreationTime := "1970-01-01T00:00:00.000Z" |}.

Definition ok {A} (body : A) : outcome (Response A) :=
  Ok {| res_IsError := false; res_String := "[200 OK]"; res_Body := Ok body |}.

Definition emptyReply : SearchResponse := {|
  Took := 1; TimedOut := false; Shards := Some ∅;
  Hits := {| Total := {| Value := 0; Relation := "eq" |};
             MaxScore := None; Hits_Hits := Some [] |};
  Aggregations := None |}.

Definition cluster (names : list string) : Client := {|
  Info := ok tt;
  Cat_Indices pattern := ok (Some (info <$> filter (fun name => glob pattern name = true) names));
  Indices_GetMapping index := ok (Some ∅);
  Search index body trackTotalHits timeout := ok emptyReply |}.

(** A cluster that answers every search with [reply]. *)
Definition replying (reply : SearchResponse) : Client := {|
  Info := ok tt;
  Cat_Indices pattern := ok (Some []);
  Indices_GetMapping index := ok (Some ∅);
  Search index body trackTotalHits timeout := ok reply |}.

End simulated.

(** ** Concrete calls *)

Module Examples.

Definition search := handleSearch encoding_json.Unmarshal encoding_json.UnmarshalMap.

Definition handler : ElasticsearchHandler :=
  {| client := simulated.cluster ["logs-a"; "logs-b"; "metrics-a"] |}.

(** A call with the given arguments; a JSON number arrives as a [float64]. *)
Definition call_with (arguments : list (string * value)) : CallToolRequest :=
  {| Arguments := list_to_map arguments |}.

Definition number (n : Z) : value := VFloat (GoFloat.of_Z n).

(** The text [{"match":{"a":1}}]. *)
Definition match_a_1 : string :=
  "{" +:+ quoted "match" +:+ ":{" +:+ quoted "a" +:+ ":1}}".

(** The text [{"match":], cut off in the middle. *)
Definition truncated : string := "{" +:+ quoted "match" +:+ ":".

Definition round_trip : CallToolRequest :=
  call_with [("index", VString "logs-*"); ("query", VString match_a_1); ("size", number 5)].

(** [from = 2^63 - 1024] is a [float64] and an [int]. *)
Definition far_offset : CallToolRequest :=
  call_with [("index", VString "logs-*"); ("from", number 9223372036854774784);
             ("size", number 10000)].

Definition blank_query : CallToolRequest :=
  call_with [("index", VString "logs-*"); ("query", VString " { } ")].


Definition truncated_query_negative_size : CallToolRequest :=
  call_with [("index", VString "logs-*"); ("query", VString truncated);
             ("size", number (-1))].



Definition no_index : CallToolRequest := call_with [].

Definition numeric_index : CallToolRequest := call_with [("index", number 42)].

Definition list_logs : CallToolRequest := call_with [("pattern", VString "logs-*")].

Definition list_traces : CallToolRequest := call_with [("pattern", VString "traces-*")].

(** A reply with two hits, no score and one aggregation. *)
Definition hit (id : string) : gomap := Some {[ "_id" := VString id ]}.

Definition reply_with_aggregation : SearchResponse := {|
  Took := 3; TimedOut := false; Shards := Some {[ "total" := VFloat (GoFloat.of_Z 1) ]};
  Hits := {| Total := {| Value := 2; Relation := "eq" |};
             MaxScore := None; Hits_Hits := Some [hit "b"; hit "a"] |};
  Aggregations := Some {[ "by_level" := VMap (Some ∅) ]} |}.

Definition replying_handler : ElasticsearchHandler :=
  {| client := simulated.replying reply_with_aggregation |}.


(** A client library that connects every configuration to the simulated
    cluster, and a logger set-up that succeeds. *)
Definition new_client (cfg : esConfig) : outcome Client := Ok (client handler).

Definition new_logger (cfg : LoggingConfig) : outcome unit := Ok tt.

End Examples.

(** ** Typed environment variables ([config.go]) *)

Definition getBoolEnv (env : gmap string string) (key : string) (defaultValue : bool)
  : bool :=
  let value := Getenv env key in
  if negb (bool_decide (value = EmptyString)) then
    match strconv.ParseBool value with
    | Some parsed => parsed
    | None => defaultValue
    end
  else defaultValue.

Definition getIntEnv (env : gmap string string) (key : string) (defaultValue : Z) : Z :=
  let value := Getenv env key in
  if negb (bool_decide (value = EmptyString)) then
    match strconv.Atoi value with
    | Some parsed => parsed
    | None => defaultValue
    end
  else defaultValue.

(** [strconv.Itoa], the inverse of [strconv.Atoi]: the decimal text of an
    integer, its digits computed from the last one, with a [-] for a
    negative one.  ([fuel] is one less than the number of binary digits, at
    least the number of decimal digits.) *)
Fixpoint digits_of (fuel : nat) (n : Z) (acc : string) : string :=
  let acc' := String (encoding_json.chr (48 + n mod 10)) acc in
  match fuel with
  | O => acc'
  | S fuel' => if n <? 10 then acc' else digits_of fuel' (n / 10) acc'
  end.

Definition Itoa (n : Z) : string :=
  if n <? 0 then String "-" (digits_of (Z.to_nat (Z.log2 (- n))) (- n) EmptyString)
  else digits_of (Z.to_nat (Z.log2 n)) n EmptyString.

(** The spellings [strconv.ParseBool] accepts. *)
Definition true_spellings : list string := ["1"; "t"; "T"; "TRUE"; "true"; "True"].

Definition false_spellings : list string := ["0"; "f"; "F"; "FALSE"; "false"; "False"].

(** ** The tools [run] declares and registers ([main.go])

    [mcp.NewTool] takes a name and options; a parameter is declared by
    [mcp.WithString], [mcp.WithNumber] or [mcp.WithBoolean] with options of
    its own.  [mcp.DefaultNumber] takes a [float64]. *)

Inductive PropertyOption : Type :=
| DefaultString (value : string)
| DefaultNumber (value : float64)
| DefaultBool (value : bool)
| Required
| Description (desc : string).

Inductive ToolOption : Type :=
| WithDescription (description : string)
| WithString (name : string) (opts : list PropertyOption)
| WithNumber (name : string) (opts : list PropertyOption)
| WithBoolean (name : string) (opts : list PropertyOption).

Record Tool : Type := NewTool {
  tool_name : string;
  tool_opts : list ToolOption
}.

Definition listIndicesTool : Tool :=
  NewTool "list_indices"
    [WithDescription
       "List all Elasticsearch indices with optional pattern filtering. Returns index names, health status, and document counts.";
     WithString "pattern"
       [DefaultString "*";
        Description "Index pattern filter (e.g., 'logs-*', 'apm-*')"]].

Definition getMappingsTool : Tool :=
  NewTool "get_index_mappings"
    [WithDescription
       "Get field mappings for one or more Elasticsearch indices. Useful for understanding index structure before querying.";
     WithString "index"
       [Required;
        Description "Index name or pattern (e.g., 'logs-*', 'apm-errors-*')"]].

Definition searchTool : Tool :=
  NewTool "search"
    [WithDescription
       "Execute Elasticsearch search queries with aggregations, filtering, and sorting. Returns structured search results.";
     WithString "index"
       [Required; Description "Index name or pattern to search"];
     WithString "query"
       [DefaultString "{}"; Description "Elasticsearch query DSL as JSON string"];
     WithNumber "size"
       [DefaultNumber (GoFloat.of_Z 10);
        Description "Maximum number of documents to return (0-10000)"];
     WithNumber "from"
       [DefaultNumber (GoFloat.of_Z 0);
        Description "Offset from the first result (for pagination)"];
     WithString "sort"
       [DefaultString EmptyString;
        Description
          ("Sort specification as JSON string (e.g., '[{" +:+ quoted "@timestamp" +:+ ": {"
           +:+ quoted "order" +:+ ": " +:+ quoted "desc" +:+ "}}]')")];
     WithString "aggs"
       [DefaultString EmptyString;
        Description
          ("Aggregations specification as JSON string (e.g., '{" +:+ quoted "avg_price"
           +:+ ": {" +:+ quoted "avg" +:+ ": {" +:+ quoted "field" +:+ ": "
           +:+ quoted "price" +:+ "}}}')")];
     WithString "_source"
       [DefaultString EmptyString;
        Description
          ("Source filtering as JSON string (e.g., '[" +:+ quoted "field1" +:+ ", "
           +:+ quoted "field2" +:+ "]' or '{" +:+ quoted "includes" +:+ ": ["
           +:+ quoted "field1" +:+ "], " +:+ quoted "excludes" +:+ ": ["
           +:+ quoted "field2" +:+ "]}')")];
     WithString "highlight"
       [DefaultString EmptyString;
        Description
          ("Highlight specification as JSON string (e.g., '{" +:+ quoted "fields"
           +:+ ": {" +:+ quoted "title" +:+ ": {}}}')")];
     WithBoolean "track_total_hits"
       [DefaultBool true; Description "Whether to track the total number of hits"]].

Section Registration.

Variable Unmarshal : string -> outcome value.
Variable UnmarshalMap : string -> outcome gomap.

(** "Register tool handlers": the three [s.AddTool] calls, in order. *)
Definition registered_tools (esHandler : ElasticsearchHandler)
  : list (Tool * (CallToolRequest -> M CallToolResult CallToolResult)) :=
  [(listIndicesTool, handleListIndices esHandler);
   (getMappingsTool, handleGetMappings esHandler);
   (searchTool, handleSearch Unmarshal UnmarshalMap esHandler)].

End Registration.

(** ** The reduced variant of [handleSearch] ([handler.go], second part)

    The file holds a second variant of the handler.  Its
    [newElasticsearchHandler] and [handleGetMappings] are those above, line
    for line; its [handleSearch] reads five parameters only and is modelled
    here, block by block as above. *)

Module Reduced.

Section Handlers.

Variable Unmarshal : string -> outcome value.
Variable UnmarshalMap : string -> outcome gomap.

(** "Validate size parameter". *)
Definition validate_size (size : Z) : M CallToolResult unit :=
  when ((size <? 0) || (size >? 10000))
    (return_ (NewToolResultError "Size parameter must be between 0 and 10000")).

(** "Parse query JSON": the text is always handed to the decoder. *)
Definition parse_query (queryString : string) : M CallToolResult gomap :=
  r ← unmarshal_map UnmarshalMap queryString;
  match r with
  | Err err =>
      emit (Log ErrorLevel [ErrField err; Str "query" queryString] "Invalid query JSON") ;;
      return_ (NewToolResultError ("Invalid query JSON: " +:+ err))
  | Ok query => mret query
  end.

(** "Build search request", with [track_total_hits]. *)
Definition build_search_request (query : gomap) (size : Z) (trackTotalHits : bool)
  : gmap string value :=
  let searchRequest : gmap string value :=
    <["query" := VMap query]> (<["size" := VInt size]> ∅) in
  if trackTotalHits then <["track_total_hits" := VBool true]> searchRequest
  else searchRequest.

(** "Convert to JSON", "Execute search" and the decoding of the reply. *)
Definition execute_search (h : ElasticsearchHandler) (index : string)
    (searchRequest : gmap string value) (trackTotalHits : bool)
  : M CallToolResult SearchResponse :=
  searchBody ← match Marshal (VMap (Some searchRequest)) with
               | Err err =>
                   emit (Log ErrorLevel [ErrField err] "Failed to marshal search request") ;;
                   return_ (NewToolResultError "Failed to create search request")
               | Ok searchBody => mret searchBody
               end;
  emit (Log DebugLevel [RawJSON "search_body" searchBody] "Search request body") ;;
  emit (ESSearch index searchBody trackTotalHits true None) ;;
  res ← match Search (client h) index searchBody trackTotalHits None with
        | Err err =>
            emit (Log ErrorLevel [ErrField err; Str "index" index]
                    "Failed to execute search") ;;
            return_ (NewToolResultError ("Failed to execute search: " +:+ err))
        | Ok res => mret res
        end;
  when (res_IsError res)
    (emit (Log ErrorLevel [Str "response" (res_String res)] "Elasticsearch search error") ;;
     return_ (NewToolResultError ("Elasticsearch search error: " +:+ res_String res))) ;;
  match res_Body res with
  | Err err =>
      emit (Log ErrorLevel [ErrField err] "Failed to decode search response") ;;
      return_ (NewToolResultError ("Failed to decode response: " +:+ err))
  | Ok searchResponse => mret searchResponse
  end.

(** "Build response with metadata" to the end. *)
Definition respond (index : string) (searchResponse : SearchResponse)
  : M CallToolResult CallToolResult :=
  let response : gmap string value :=
    <["index" := VString index]>
    (<["took" := VInt (Took searchResponse)]>
    (<["timed_out" := VBool (TimedOut searchResponse)]>
    (<["total_hits" := VInt (Value (Total (Hits searchResponse)))]>
    (<["max_score" := VFloatPtr (MaxScore (Hits searchResponse))]>
    (<["hits" := of_hits (Hits_Hits (Hits searchResponse))]>
    (<["shards" := VMap (Shards searchResponse)]> ∅)))))) in
  let response :=
    if negb (bool_decide (Aggregations searchResponse = None))
       && (len_map (Aggregations searchResponse) >? 0)
    then <["aggregations" := VMap (Aggregations searchResponse)]> response
    else response in
  jsonBytes ← match Marshal (VMap (Some response)) with
              | Err err =>
                  emit (Log ErrorLevel [ErrField err] "Failed to marshal search response") ;;
                  return_ (NewToolResultError "Failed to marshal result to JSON")
              | Ok jsonBytes => mret jsonBytes
              end;
  emit (Log InfoLevel
          [Str "index" index;
           Int "total_hits" (Value (Total (Hits searchResponse)));
           Int "returned_hits" (len_slice (Hits_Hits (Hits searchResponse)));
           Int "took_ms" (Took searchResponse)]
          "Search executed successfully") ;;
  return_ (NewToolResultText jsonBytes).

Definition handleSearch (h : ElasticsearchHandler) (request : CallToolRequest)
  : M CallToolResult CallToolResult :=
  index ← require_index request;
  let queryString := GetString request "query" "{}" in
  let size := GetInt request "size" 10 in
  let sortString := GetString request "sort" EmptyString in
  let trackTotalHits := GetBool request "track_total_hits" true in
  emit (Log InfoLevel
          [Str "index" index; Str "query" queryString; Int "size" size;
           Str "sort" sortString; Bool "track_total_hits" trackTotalHits]
          "Executing search") ;;
  validate_size size ;;
  query ← parse_query queryString;
  let searchRequest := build_search_request query size trackTotalHits in
  searchRequest ← add_sort Unmarshal sortString searchRequest;
  searchResponse ← execute_search h index searchRequest trackTotalHits;
  respond index searchResponse.

End Handlers.

End Reduced.

(** The keys the two variants of the search have in common, in the body
    they send. *)
Definition common_keys : list string := ["query"; "size"; "track_total_hits"; "sort"].

(** ** Vocabulary for the properties of the tools *)

(** The parameter an option declares, with its options. *)
Definition declared (o : ToolOption) : option (string * list PropertyOption) :=
  match o with
  | WithDescription _ => None
  | WithString name opts | WithNumber name opts | WithBoolean name opts => Some (name, opts)
  end.

(** The argument a caller sends when it sends the declared default: a JSON
    string, number ([float64]) or boolean. *)
Definition default_argument (o : PropertyOption) : option value :=
  match o with
  | DefaultString s => Some (VString s)
  | DefaultNumber f => Some (VFloat f)
  | DefaultBool b => Some (VBool b)
  | Required | Description _ => None
  end.

Definition is_required (o : PropertyOption) : bool :=
  match o with
  | Required => true
  | _ => false
  end.

(** The names a tool declares, the defaults it declares, and the names it
    marks as required. *)
Definition declared_parameters (tool : Tool) : list string :=
  fst <$> omap declared (tool_opts tool).

Definition declared_defaults (tool : Tool) : list (string * value) :=
  flat_map (fun p : string * list PropertyOption =>
              (fun v => (p.1, v)) <$> omap default_argument p.2)
           (omap declared (tool_opts tool)).

Definition required_parameters (tool : Tool) : list string :=
  fst <$> List.filter (fun p : string * list PropertyOption => existsb is_required p.2)
            (omap declared (tool_opts tool)).

(** A call with one more argument (or another value for it). *)
Definition with_argument (name : string) (v : value) (request : CallToolRequest)
  : CallToolRequest :=
  {| Arguments := <[name := v]> (Arguments request) |}.

(** ** Vocabulary for the traces *)

Definition is_log (e : event) : bool :=
  match e with
  | Log _ _ _ => true
  | _ => false
  end.

(** What a run handed to the logger. *)
Definition logged (t : list event) : list event := List.filter is_log t.

(** The text of a field, as the decoder returned it, boxed into [any]: the
    query, the aggregations and the highlight are decoded into a map, the
    sort and the source filter into [any]. *)
Definition decoded_value (Unmarshal : string -> outcome value)
    (UnmarshalMap : string -> outcome gomap) (request : CallToolRequest) (f : subfield)
  : outcome value :=
  match f with
  | QueryField | AggsField | HighlightField =>
      outcome_map VMap (UnmarshalMap (text request f))
  | SortField | SourceField => Unmarshal (text request f)
  end.

(** The decoder's calls of a search whose fields all decode. *)
Definition decoder_calls (request : CallToolRequest) : list event :=
  flat_map (fun g => calls (handed request g) (text request g))
    [QueryField; SortField; AggsField; SourceField; HighlightField].

(** The result of a dispatched search, read off the backend's answer. *)
Definition result_of_reply (request : CallToolRequest) (index : string)
    (answer : outcome (Response SearchResponse)) : CallToolResult :=
  match answer with
  | Err err => NewToolResultError ("Failed to execute search: " +:+ err)
  | Ok res =>
      if res_IsError res
      then NewToolResultError ("Elasticsearch search error: " +:+ res_String res)
      else
        match res_Body res with
        | Err err => NewToolResultError ("Failed to decode response: " +:+ err)
        | Ok reply =>
            match Marshal (VMap (Some (response_of request index reply))) with
            | Err _ => NewToolResultError "Failed to marshal result to JSON"
            | Ok doc => NewToolResultText doc
            end
        end
  end.

(** The result of a schema retrieval, read off the backend's answer. *)
Definition mappings_of_reply (index : string) (answer : outcome (Response gomap))
  : CallToolResult :=
  match answer with
  | Err err => NewToolResultError ("Failed to get mappings: " +:+ err)
  | Ok res =>
      if res_IsError res
      then NewToolResultError ("Elasticsearch error: " +:+ res_String res)
      else
        match res_Body res with
        | Err err => NewToolResultError ("Failed to decode response: " +:+ err)
        | Ok mappings =>
            match Marshal (VMap mappings) with
            | Err _ => NewToolResultError "Failed to marshal result to JSON"
            | Ok j =>
                NewToolResultText
                  (JObject (<["index" := JString index]> (<["mappings" := j]> ∅)))
            end
        end
  end.

(** The keys of the document a search returns. *)
Definition result_keys : list string :=
  ["index"; "took"; "timed_out"; "total_hits"; "max_score"; "hits"; "shards"; "from";
   "size"; "aggregations"].

(** What a search hands to the logger when its reply has aggregations, and
    when it has succeeded. *)
Definition aggregations_found (reply : SearchResponse) : list event :=
  if negb (bool_decide (Aggregations reply = None)) && (len_map (Aggregations reply) >? 0)
  then [Log DebugLevel [Int "agg_count" (len_map (Aggregations reply))]
          "Aggregations found in response"]
  else [].

Definition search_executed (index : string) (reply : SearchResponse) : event :=
  Log InfoLevel
    [Str "index" index;
     Int "total_hits" (Value (Total (Hits reply)));
     Int "returned_hits" (len_slice (Hits_Hits (Hits reply)));
     Int "took_ms" (Took reply);
     Int "agg_count" (len_map (Aggregations reply))]
    "Search executed successfully".

(** A value that [json.Marshal] can encode. *)
Definition encodable (v : value) : Prop := ∃ j, Marshal v = Ok j.

(** The levels [validateConfig] accepts. *)
Definition log_levels : list string := ["debug"; "info"; "warn"; "error"; "fatal"].

(** Does the configuration carry credentials? *)
Definition has_credentials (cfg : ElasticsearchConfig) : Prop :=
  APIKey cfg ≠ EmptyString ∨ (Username cfg ≠ EmptyString ∧ Password cfg ≠ EmptyString).

(** The configuration [loadConfig] reads from the environment. *)
Definition config_of (env : gmap string string) (version : string) : Config :=
  {| Elasticsearch := elasticsearch_of env;
     Server := {| ServerName := getEnv env "MCP_ES_SERVER_NAME" "mcp-elasticsearch 🔍";
                  ServerVersion := version |};
     Logging := {| Level := getEnv env "MCP_ES_LOG_LEVEL" "info";
                   Format := getEnv env "MCP_ES_LOG_FORMAT" "console";
                   Output := getEnv env "MCP_ES_LOG_OUTPUT" "stderr" |} |}.

(** The first event of a start-up whose configuration and logger are there. *)
Definition configuration_loaded (cfg : Config) : event :=
  Log InfoLevel
    [Str "server_name" (ServerName (Server cfg));
     Str "version" (ServerVersion (Server cfg));
     Str "log_level" (Level (Logging cfg));
     Str "elasticsearch_url" (URL (Elasticsearch cfg));
     Bool "use_api_key" (negb (bool_decide (APIKey (Elasticsearch cfg) = EmptyString)));
     Bool "use_basic_auth" (negb (bool_decide (Username (Elasticsearch cfg) = EmptyString)))]
    "Configuration loaded".

(** What [newElasticsearchHandler] logs about the way it authenticates. *)
Definition authentication_log (cfg : ElasticsearchConfig) : list event :=
  if negb (bool_decide (APIKey cfg = EmptyString)) then
    [Log InfoLevel [] "Using API key authentication"]
  else if negb (bool_decide (Username cfg = EmptyString))
          && negb (bool_decide (Password cfg = EmptyString)) then
    [Log InfoLevel [Str "username" (Username cfg)] "Using basic authentication"]
  else [].

(** ** More concrete calls *)

Module Cases.

(** A backend that cannot be reached, one that rejects every call, and one
    whose replies cannot be decoded. *)
Definition unreachable : Client := {|
  Info := Err "dial tcp: connection refused";
  Cat_Indices pattern := Err "dial tcp: connection refused";
  Indices_GetMapping index := Err "dial tcp: connection refused";
  Search index body trackTotalHits timeout := Err "dial tcp: connection refused" |}.

Definition rejects {A} : outcome (Response A) :=
  Ok {| res_IsError := true; res_String := "[404 Not Found]";
        res_Body := Err "unexpected end of JSON input" |}.

Definition rejecting : Client := {|
  Info := rejects;
  Cat_Indices pattern := rejects;
  Indices_GetMapping index := rejects;
  Search index body trackTotalHits timeout := rejects |}.

Definition unreachable_handler : ElasticsearchHandler := {| client := unreachable |}.

Definition rejecting_handler : ElasticsearchHandler := {| client := rejecting |}.

Definition only_index : CallToolRequest :=
  Examples.call_with [("index", VString "logs-*")].

(** A search with every optional field set. *)
Definition full : CallToolRequest :=
  Examples.call_with
    [("index", VString "logs-*"); ("query", VString Examples.match_a_1);
     ("size", Examples.number 5); ("from", Examples.number 20);
     ("sort", VString "[]"); ("aggs", VString "{}"); ("_source", VString "false");
     ("highlight", VString "{}"); ("track_total_hits", VBool false);
     ("timeout", VString "5s")].

(** An environment with a username and a password, and the same with
    another password. *)
Definition basic_auth : gmap string string :=
  list_to_map [("ES_USERNAME", "user"); ("ES_PASSWORD", "pass")].

Definition basic_auth' : gmap string string :=
  list_to_map [("ES_USERNAME", "user"); ("ES_PASSWORD", "other")].

Definition api_key_only : gmap string string :=
  list_to_map [("ES_API_KEY", "key"); ("MCP_ES_LOG_LEVEL", "debug")].

End Cases.

(** * Properties *)

(** ** [json.Marshal] *)

Section MarshalFacts.

Lemma sequence_list_Ok {A} (l : list (outcome A)) (l' : list A) :
  sequence_list l = Ok l' -> l = map Ok l'.
Proof.
  revert l'. induction l as [|r l IH]; intros l' H; simpl in H.
  - by inversion H.
  - destruct r as [a|e]; [|done].
    destruct (sequence_list l) as [l0|e] eqn:E; simpl in H; [|done].
    inversion H; subst. simpl. f_equal. by apply IH.
Qed.

Lemma sequence_list_map_Ok {A} (l : list A) : sequence_list (map Ok l) = Ok l.
Proof. induction l as [|a l IH]; simpl; [done|]. by rewrite IH. Qed.

Lemma sequence_map_Ok (rm : gmap string (outcome json)) (jm : gmap string json) :
  sequence_map rm = Ok jm -> rm = Ok <$> jm.
Proof.
  unfold sequence_map.
  destruct (sequence_list _) as [l|e] eqn:E; [|done].
  intros [= <-]. apply sequence_list_Ok in E.
  assert (Hall : ∀ k r, rm !! k = Some r -> ∃ j, r = Ok j).
  { intros k r Hk.
    assert (Hin : r ∈ (merge_sort key_le (map_to_list rm)).*2).
    { rewrite merge_sort_Permutation. apply list_elem_of_fmap.
      exists (k, r). split; [done|]. by apply elem_of_map_to_list. }
    rewrite E in Hin. apply list_elem_of_fmap in Hin as (j & -> & _). eauto. }
  apply map_eq. intros k. rewrite lookup_fmap, lookup_omap.
  destruct (rm !! k) as [r|] eqn:Hk; [|done].
  destruct (Hall _ _ Hk) as [j ->]. done.
Qed.

Lemma sequence_map_fmap_Ok (jm : gmap string json) : sequence_map (Ok <$> jm) = Ok jm.
Proof.
  unfold sequence_map.
  assert (E : ∃ l, (merge_sort key_le (map_to_list (Ok (A:=json) <$> jm))).*2 = map Ok l).
  { assert (F : Forall (fun r => ∃ j : json, r = Ok j)
                  (merge_sort key_le (map_to_list (Ok (A:=json) <$> jm))).*2).
    { rewrite merge_sort_Permutation. apply Forall_forall. intros r Hr.
      apply list_elem_of_fmap in Hr as ([k r'] & -> & Hk).
      apply elem_of_map_to_list in Hk. rewrite lookup_fmap in Hk.
      destruct (jm !! k) as [j|]; simplify_eq/=. eauto. }
    induction F as [|r l [j ->] _ [l' ->]]; [by exists []|]. by exists (j :: l'). }
  destruct E as [l ->]. rewrite sequence_list_map_Ok. f_equal.
  apply map_eq. intros k. rewrite lookup_omap, lookup_fmap.
  by destruct (jm !! k).
Qed.

(** A map is encoded as an object with the same keys, each value encoded. *)
Lemma Marshal_map_Ok (m : gmap string value) (j : json) :
  Marshal (VMap (Some m)) = Ok j ->
  ∃ jm, j = JObject jm ∧ Marshal <$> m = Ok <$> jm.
Proof.
  simpl. destruct (sequence_map _) as [jm|e] eqn:E; [|done].
  intros [= <-]. exists jm. split; [done|]. by apply sequence_map_Ok.
Qed.

Lemma Marshal_map_lookup (m : gmap string value) (jm : gmap string json) (k : string) :
  Marshal <$> m = Ok <$> jm ->
  match m !! k with
  | Some v => ∃ j, Marshal v = Ok j ∧ jm !! k = Some j
  | None => jm !! k = None
  end.
Proof.
  intros H. assert (Hk := f_equal (fun x => x !! k) H). simpl in Hk.
  rewrite !lookup_fmap in Hk.
  destruct (m !! k) as [v|], (jm !! k) as [j|]; simplify_eq/=; eauto.
Qed.

Lemma Marshal_map_intro (m : gmap string value) (jm : gmap string json) :
  Marshal <$> m = Ok <$> jm -> Marshal (VMap (Some m)) = Ok (JObject jm).
Proof. intros H. simpl. by rewrite H, sequence_map_fmap_Ok. Qed.

End MarshalFacts.

(** ** Stepping through a body *)

Section Stepping.

Context {R A B : Type}.

Lemma bind_eq (m : M R A) (k : A -> M R B) (t : list event) :
  (m ≫= k) t =
  match m t with
  | (inl r, t') => (inl r, t')
  | (inr a, t') => k a t'
  end.
Proof. reflexivity. Qed.

Lemma bind_return (m : M R A) (k : A -> M R B) t r t' :
  m t = (inl r, t') -> (m ≫= k) t = (inl r, t').
Proof. intros H. by rewrite bind_eq, H. Qed.

Lemma bind_continue (m : M R A) (k : A -> M R B) t a t' :
  m t = (inr a, t') -> (m ≫= k) t = k a t'.
Proof. intros H. by rewrite bind_eq, H. Qed.

End Stepping.

Lemma exec_bind_eq {R A} (m : M R A) (k : A -> M R R) (t : list event) :
  exec (m ≫= k) t =
  match m t with
  | (inl r, t') => (r, t')
  | (inr a, t') => exec (k a) t'
  end.
Proof. unfold exec. rewrite bind_eq. by destruct (m t) as [[r|a] t']. Qed.

(** The calls recorded in a trace, piecewise. *)

Lemma backend_calls_app (t d : list event) :
  backend_calls (t ++ d) = backend_calls t ++ backend_calls d.
Proof. apply List.filter_app. Qed.

Lemma unmarshal_calls_app (t d : list event) :
  unmarshal_calls (t ++ d) = unmarshal_calls t ++ unmarshal_calls d.
Proof. apply List.filter_app. Qed.

(** ** The blocks of [handleSearch] *)

Section Blocks.

Variable Unmarshal : string -> outcome value.
Variable UnmarshalMap : string -> outcome gomap.

Lemma require_index_eq (request : CallToolRequest) (t : list event) :
  require_index request t =
  match RequireString request "index" with
  | Err err => (inl (NewToolResultError "Missing 'index' parameter"),
                t ++ [Log ErrorLevel [ErrField err] "Missing index parameter"])
  | Ok index => (inr index, t)
  end.
Proof. unfold require_index. by destruct (RequireString _ _). Qed.

Lemma validate_size_from_eq (size from : Z) (t : list event) :
  validate_size_from size from t =
  if rejected size from then (inl (NewToolResultError (size_from_error size from)), t)
  else (inr tt, t).
Proof.
  unfold validate_size_from, rejected, size_from_error.
  unfold mbind, M_bind, when, return_, mret, M_ret.
  destruct ((size <? 0) || (size >? 10000)); [done|].
  destruct (from <? 0); [done|].
  by destruct (int_add from size >? 10000).
Qed.

Lemma parse_query_eq (queryString : string) (t : list event) :
  parse_query UnmarshalMap queryString t =
  if query_decoded queryString then
    match UnmarshalMap queryString with
    | Err err =>
        (inl (NewToolResultError ("Invalid query JSON: " +:+ err)),
         t ++ [JSONUnmarshal queryString;
               Log ErrorLevel [ErrField err; Str "query" queryString] "Invalid query JSON"])
    | Ok query =>
        (inr (if len_map query =? 0 then match_all else query),
         t ++ [JSONUnmarshal queryString])
    end
  else (inr match_all, t).
Proof.
  unfold parse_query, query_decoded.
  destruct (bool_decide _ || bool_decide _); simpl; [done|].
  unfold unmarshal_map, mbind, M_bind, emit, mret, M_ret, return_; simpl.
  destruct (UnmarshalMap queryString) as [q|e]; simpl.
  - by destruct (len_map q =? 0).
  - by rewrite <- app_assoc.
Qed.

Lemma add_sort_eq (s : string) (sr : gmap string value) (t : list event) :
  add_sort Unmarshal s sr t =
  if decoded s then
    match Unmarshal s with
    | Err err =>
        (inl (NewToolResultError ("Invalid sort JSON: " +:+ err)),
         t ++ [JSONUnmarshal s; Log ErrorLevel [ErrField err; Str "sort" s] "Invalid sort JSON"])
    | Ok v => (inr (<["sort" := v]> sr), t ++ [JSONUnmarshal s])
    end
  else (inr sr, t).
Proof.
  unfold add_sort, decoded. destruct (negb _); [|done].
  unfold unmarshal_any, mbind, M_bind, emit, mret, M_ret, return_; simpl.
  destruct (Unmarshal s); simpl; [done|]. by rewrite <- app_assoc.
Qed.

Lemma add_aggs_eq (s : string) (sr : gmap string value) (t : list event) :
  add_aggs UnmarshalMap s sr t =
  if decoded s then
    match UnmarshalMap s with
    | Err err =>
        (inl (NewToolResultError ("Invalid aggregations JSON: " +:+ err)),
         t ++ [JSONUnmarshal s;
               Log ErrorLevel [ErrField err; Str "aggs" s] "Invalid aggregations JSON"])
    | Ok v => (inr (<["aggs" := VMap v]> sr), t ++ [JSONUnmarshal s])
    end
  else (inr sr, t).
Proof.
  unfold add_aggs, decoded. destruct (negb _); [|done].
  unfold unmarshal_map, mbind, M_bind, emit, mret, M_ret, return_; simpl.
  destruct (UnmarshalMap s); simpl; [done|]. by rewrite <- app_assoc.
Qed.

Lemma add_source_eq (s : string) (sr : gmap string value) (t : list event) :
  add_source Unmarshal s sr t =
  if decoded s then
    match Unmarshal s with
    | Err err =>
        (inl (NewToolResultError ("Invalid _source JSON: " +:+ err)),
         t ++ [JSONUnmarshal s;
               Log ErrorLevel [ErrField err; Str "_source" s] "Invalid _source JSON"])
    | Ok v => (inr (<["_source" := v]> sr), t ++ [JSONUnmarshal s])
    end
  else (inr sr, t).
Proof.
  unfold add_source, decoded. destruct (negb _); [|done].
  unfold unmarshal_any, mbind, M_bind, emit, mret, M_ret, return_; simpl.
  destruct (Unmarshal s); simpl; [done|]. by rewrite <- app_assoc.
Qed.

Lemma add_highlight_eq (s : string) (sr : gmap string value) (t : list event) :
  add_highlight UnmarshalMap s sr t =
  if decoded s then
    match UnmarshalMap s with
    | Err err =>
        (inl (NewToolResultError ("Invalid highlight JSON: " +:+ err)),
         t ++ [JSONUnmarshal s;
               Log ErrorLevel [ErrField err; Str "highlight" s] "Invalid highlight JSON"])
    | Ok v => (inr (<["highlight" := VMap v]> sr), t ++ [JSONUnmarshal s])
    end
  else (inr sr, t).
Proof.
  unfold add_highlight, decoded. destruct (negb _); [|done].
  unfold unmarshal_map, mbind, M_bind, emit, mret, M_ret, return_; simpl.
  destruct (UnmarshalMap s); simpl; [done|]. by rewrite <- app_assoc.
Qed.

End Blocks.

(** ** The (assembled Unmarshal UnmarshalMap request) search request *)

Lemma lookup_insert_opt (k k' : string) (o : option value) (m : gmap string value) :
  insert_opt k o m !! k' =
  if decide (k = k') then match o with Some v => Some v | None => m !! k' end
  else m !! k'.
Proof.
  destruct o as [v|]; simpl.
  - rewrite lookup_insert. by destruct (decide (k = k')).
  - by destruct (decide (k = k')).
Qed.

Section Assembly.

Variable Unmarshal : string -> outcome value.
Variable UnmarshalMap : string -> outcome gomap.
Variable h : ElasticsearchHandler.
Variable request : CallToolRequest.

Let queryString := GetString request "query" "{}".
Let size := GetInt request "size" 10.
Let from := GetInt request "from" 0.
Let sortString := GetString request "sort" EmptyString.
Let aggsString := GetString request "aggs" EmptyString.
Let sourceString := GetString request "_source" EmptyString.
Let highlightString := GetString request "highlight" EmptyString.
Let trackTotalHits := GetBool request "track_total_hits" true.
Let timeout := GetString request "timeout" EmptyString.

Lemma field_ok_quiet (k s : string) (r : outcome value) (sr : gmap string value)
    (t : list event) (bad : string -> CallToolResult * list event) :
  (∀ e, ∃ msg d, bad e = (NewToolResultError msg, d) ∧ backend_calls d = []) ->
  ∃ d, backend_calls d = []
       ∧ ((∃ msg, (if decoded s
                   then match r with
                        | Err err => (inl (bad err).1, t ++ (bad err).2)
                        | Ok v => (inr (<[k := v]> sr), t ++ [JSONUnmarshal s])
                        end
                   else (inr sr, t)) = (inl (NewToolResultError msg), t ++ d))
          ∨ (∃ a, (if decoded s
                   then match r with
                        | Err err => (inl (bad err).1, t ++ (bad err).2)
                        | Ok v => (inr (<[k := v]> sr), t ++ [JSONUnmarshal s])
                        end
                   else (inr sr, t)) = (inr a, t ++ d)
                  ∧ ∃ o, field_ok s r o ∧ a = insert_opt k o sr)).
Proof.
  intros Hbad. unfold field_ok. destruct (decoded s).
  - destruct r as [v|e].
    + exists [JSONUnmarshal s]. split; [done|]. right. eexists. split; [done|].
      exists (Some v). eauto.
    + destruct (Hbad e) as (msg & d & E & Hd). rewrite E. simpl.
      exists d. split; [done|]. left. eauto.
  - exists []. split; [done|]. right. rewrite app_nil_r.
    eexists. split; [done|]. by exists None.
Qed.

Lemma parse_query_quiet t : quiet (parse_query UnmarshalMap queryString) t (query_ok UnmarshalMap request).
Proof.
  unfold quiet, query_ok. fold queryString. rewrite parse_query_eq. destruct (query_decoded queryString).
  - destruct (UnmarshalMap queryString) as [q0|e].
    + exists [JSONUnmarshal queryString]. split; [done|]. right. eauto.
    + exists [JSONUnmarshal queryString;
              Log ErrorLevel [ErrField e; Str "query" queryString] "Invalid query JSON"].
      split; [done|]. left. eauto.
  - exists []. rewrite app_nil_r. split; [done|]. right. eauto.
Qed.

Lemma add_sort_quiet sr t :
  quiet (add_sort Unmarshal sortString sr) t
    (fun sr' => ∃ o, field_ok sortString (Unmarshal sortString) o
                     ∧ sr' = insert_opt "sort" o sr).
Proof.
  unfold quiet. rewrite add_sort_eq.
  apply (field_ok_quiet "sort" sortString (Unmarshal sortString) sr t
           (fun err => (NewToolResultError ("Invalid sort JSON: " +:+ err),
                        [JSONUnmarshal sortString;
                         Log ErrorLevel [ErrField err; Str "sort" sortString]
                           "Invalid sort JSON"]))).
  intros e. by eexists _, _.
Qed.

Lemma add_source_quiet sr t :
  quiet (add_source Unmarshal sourceString sr) t
    (fun sr' => ∃ o, field_ok sourceString (Unmarshal sourceString) o
                     ∧ sr' = insert_opt "_source" o sr).
Proof.
  unfold quiet. rewrite add_source_eq.
  apply (field_ok_quiet "_source" sourceString (Unmarshal sourceString) sr t
           (fun err => (NewToolResultError ("Invalid _source JSON: " +:+ err),
                        [JSONUnmarshal sourceString;
                         Log ErrorLevel [ErrField err; Str "_source" sourceString]
                           "Invalid _source JSON"]))).
  intros e. by eexists _, _.
Qed.

Lemma add_aggs_quiet sr t :
  quiet (add_aggs UnmarshalMap aggsString sr) t
    (fun sr' => ∃ o, field_ok aggsString (outcome_map VMap (UnmarshalMap aggsString)) o
                     ∧ sr' = insert_opt "aggs" o sr).
Proof.
  unfold quiet. rewrite add_aggs_eq.
  destruct (field_ok_quiet "aggs" aggsString (outcome_map VMap (UnmarshalMap aggsString)) sr t
           (fun err => (NewToolResultError ("Invalid aggregations JSON: " +:+ err),
                        [JSONUnmarshal aggsString;
                         Log ErrorLevel [ErrField err; Str "aggs" aggsString]
                           "Invalid aggregations JSON"]))) as (d & Hd & H).
  { intros e. by eexists _, _. }
  exists d. split; [done|]. revert H.
  destruct (decoded aggsString). 2:{ done. }
  by destruct (UnmarshalMap aggsString).
Qed.

Lemma add_highlight_quiet sr t :
  quiet (add_highlight UnmarshalMap highlightString sr) t
    (fun sr' => ∃ o, field_ok highlightString
                       (outcome_map VMap (UnmarshalMap highlightString)) o
                     ∧ sr' = insert_opt "highlight" o sr).
Proof.
  unfold quiet. rewrite add_highlight_eq.
  destruct (field_ok_quiet "highlight" highlightString
              (outcome_map VMap (UnmarshalMap highlightString)) sr t
           (fun err => (NewToolResultError ("Invalid highlight JSON: " +:+ err),
                        [JSONUnmarshal highlightString;
                         Log ErrorLevel [ErrField err; Str "highlight" highlightString]
                           "Invalid highlight JSON"]))) as (d & Hd & H).
  { intros e. by eexists _, _. }
  exists d. split; [done|]. revert H.
  destruct (decoded highlightString); [|done].
  by destruct (UnmarshalMap highlightString).
Qed.

Lemma build_response_eq index searchResponse t :
  ∃ d, build_response index searchResponse from size t
       = (inr (response_of request index searchResponse), t ++ d)
       ∧ backend_calls d = [] ∧ unmarshal_calls d = [].
Proof.
  unfold build_response, response_of. fold from size.
  destruct (negb _ && _).
  - exists [Log DebugLevel [Int "agg_count" (len_map (Aggregations searchResponse))]
              "Aggregations found in response"]. by split.
  - exists []. by rewrite app_nil_r.
Qed.

Lemma validate_size_from_quiet t :
  quiet (validate_size_from size from) t (fun _ => rejected size from = false).
Proof.
  unfold quiet. rewrite validate_size_from_eq. exists []. rewrite app_nil_r.
  split; [done|]. destruct (rejected size from); [left|right]; eauto.
Qed.

(** A quiet block in a body: the body returns the block's error, or goes
    on after the block from a trace with the same backend calls. *)
Lemma exec_bind_quiet {A} (m : M CallToolResult A) (k : A -> M CallToolResult CallToolResult)
    (P : A -> Prop) (t : list event) (r : CallToolResult) (t' : list event) :
  quiet m t P ->
  exec (m ≫= k) t = (r, t') ->
  (backend_calls t' = backend_calls t ∧ ∃ msg, r = NewToolResultError msg)
  ∨ ∃ a t1, backend_calls t1 = backend_calls t ∧ P a ∧ exec (k a) t1 = (r, t').
Proof.
  intros (d & Hd & [[msg E]|(a & E & Ha)]); unfold exec; rewrite bind_eq, E.
  - intros [= <- <-]. left. rewrite backend_calls_app, Hd, app_nil_r. eauto.
  - intros H. right. exists a, (t ++ d).
    by rewrite backend_calls_app, Hd, app_nil_r.
Qed.

(** "Convert to JSON" to the decoded reply: the request is encoded and
    dispatched once, unless it cannot be encoded. *)
Lemma execute_search_cases (index : string) (sr : gmap string value) (t : list event) :
  ∃ x t1, execute_search h index sr trackTotalHits timeout t = (x, t1)
    ∧ ((backend_calls t1 = backend_calls t ∧ ∃ msg, x = inl (NewToolResultError msg))
       ∨ ∃ body, Marshal (VMap (Some sr)) = Ok body
           ∧ backend_calls t1
             = backend_calls t ++ [ESSearch index body trackTotalHits true (timeoutOption request)]
           ∧ ((∃ msg, x = inl (NewToolResultError msg))
              ∨ ∃ res reply,
                  Search (client h) index body trackTotalHits (timeoutOption request) = Ok res
                  ∧ res_IsError res = false
                  ∧ res_Body res = Ok reply
                  ∧ x = inr reply)).
Proof.
  unfold execute_search.
  cbv beta iota zeta delta [mbind M_bind mret M_ret emit return_ when].
  change (if negb (bool_decide (timeout = EmptyString)) then Some timeout else None) with (timeoutOption request).
  destruct (Marshal (VMap (Some sr))) as [body|e] eqn:Hm.
  2:{ eexists _, _. split; [reflexivity|]. left.
      rewrite backend_calls_app. simpl. rewrite app_nil_r. eauto. }
  assert (Hcalls : ∀ d, backend_calls d = [] ->
            backend_calls
              (((t ++ [Log DebugLevel [RawJSON "search_body" body] "Search request body"])
                ++ [ESSearch index body trackTotalHits true (timeoutOption request)]) ++ d)
            = backend_calls t ++ [ESSearch index body trackTotalHits true (timeoutOption request)]).
  { intros d Hd. rewrite !backend_calls_app, Hd. simpl. by rewrite !app_nil_r. }
  destruct (Search (client h) index body trackTotalHits (timeoutOption request)) as [res|e] eqn:Hs.
  2:{ eexists _, _. split; [reflexivity|]. right. exists body. split; [done|].
      split; [by apply Hcalls|eauto]. }
  destruct (res_IsError res) eqn:He.
  { eexists _, _. split; [reflexivity|]. right. exists body. split; [done|].
    split; [by apply Hcalls|eauto]. }
  destruct (res_Body res) as [reply|e] eqn:Hb.
  - eexists _, _. split; [reflexivity|]. right. exists body. split; [done|].
    split; [|right; eauto 10]. rewrite <- (app_nil_r (_ ++ [ESSearch _ _ _ _ _])).
    by apply Hcalls.
  - eexists _, _. split; [reflexivity|]. right. exists body. split; [done|].
    split; [by apply Hcalls|eauto].
Qed.

(** The end of the handler makes no backend call and returns the encoding
    of the response map, unless that cannot be encoded. *)
Lemma respond_cases (index : string) (reply : SearchResponse) (t : list event) :
  ∃ r t1, exec (respond index reply from size) t = (r, t1)
    ∧ backend_calls t1 = backend_calls t
    ∧ ((∃ msg, r = NewToolResultError msg)
       ∨ ∃ doc, Marshal (VMap (Some (response_of request index reply))) = Ok doc
                ∧ r = NewToolResultText doc).
Proof.
  unfold exec, respond. rewrite bind_eq.
  destruct (build_response_eq index reply t) as (d & -> & Hd & _).
  cbv beta iota zeta delta [mbind M_bind mret M_ret emit return_ when].
  destruct (Marshal (VMap (Some (response_of request index reply)))) as [doc|e].
  - eexists _, _. split; [reflexivity|]. split; [|eauto].
    rewrite !backend_calls_app, Hd. simpl. by rewrite !app_nil_r.
  - eexists _, _. split; [reflexivity|]. split; [|eauto].
    rewrite !backend_calls_app, Hd. simpl. by rewrite !app_nil_r.
Qed.

(** What a run of [handleSearch] can be: it returns an error before any
    backend call; or it has (assembled Unmarshal UnmarshalMap request) a request, encoded it and dispatched
    it once, and then either returns an error or the encoding of the
    response built from the decoded reply. *)
Lemma handleSearch_outcomes (r : CallToolResult) (t : list event) :
  execute (handleSearch Unmarshal UnmarshalMap h request) = (r, t) ->
  (backend_calls t = [] ∧ ∃ msg, r = NewToolResultError msg)
  ∨ ∃ index searchRequest body,
      RequireString request "index" = Ok index
      ∧ rejected size from = false
      ∧ (assembled Unmarshal UnmarshalMap request) searchRequest
      ∧ Marshal (VMap (Some searchRequest)) = Ok body
      ∧ backend_calls t = [ESSearch index body trackTotalHits true (timeoutOption request)]
      ∧ ((∃ msg, r = NewToolResultError msg)
         ∨ ∃ res reply doc,
             Search (client h) index body trackTotalHits (timeoutOption request) = Ok res
             ∧ res_IsError res = false
             ∧ res_Body res = Ok reply
             ∧ Marshal (VMap (Some (response_of request index reply))) = Ok doc
             ∧ r = NewToolResultText doc).
Proof.
  unfold execute, handleSearch.
  rewrite exec_bind_eq, require_index_eq.
  destruct (RequireString request "index") as [index|e] eqn:Hindex.
  2:{ intros [= <- <-]. left. split; [done|eauto]. }
  fold queryString size from sortString aggsString sourceString highlightString
    trackTotalHits timeout.
  rewrite exec_bind_eq. unfold emit at 1. simpl app.
  set (t0 := [Log InfoLevel _ "Executing search"]).
  assert (H0 : backend_calls t0 = []) by done. clearbody t0.
  intros H.
  eapply exec_bind_quiet in H; [|apply validate_size_from_quiet].
  destruct H as [[H ?]|(_ & t1 & H1 & Hrej & H)]; [left; split; [congruence|done]|].
  eapply exec_bind_quiet in H; [|apply parse_query_quiet].
  destruct H as [[H ?]|(q & t2 & H2 & Hq & H)]; [left; split; [congruence|done]|].
  eapply exec_bind_quiet in H; [|apply add_sort_quiet].
  destruct H as [[H ?]|(sr1 & t3 & H3 & (o1 & Ho1 & ->) & H)];
    [left; split; [congruence|done]|].
  eapply exec_bind_quiet in H; [|apply add_aggs_quiet].
  destruct H as [[H ?]|(sr2 & t4 & H4 & (o2 & Ho2 & ->) & H)];
    [left; split; [congruence|done]|].
  eapply exec_bind_quiet in H; [|apply add_source_quiet].
  destruct H as [[H ?]|(sr3 & t5 & H5 & (o3 & Ho3 & ->) & H)];
    [left; split; [congruence|done]|].
  eapply exec_bind_quiet in H; [|apply add_highlight_quiet].
  destruct H as [[H ?]|(sr4 & t6 & H6 & (o4 & Ho4 & ->) & H)];
    [left; split; [congruence|done]|].
  assert (Ht6 : backend_calls t6 = []) by congruence.
  rewrite exec_bind_eq in H.
  destruct (execute_search_cases index
              (insert_opt "highlight" o4 (insert_opt "_source" o3 (insert_opt "aggs" o2
                 (insert_opt "sort" o1
                    (build_search_request q size from trackTotalHits timeout))))) t6)
    as (x & t7 & E & Hx).
  rewrite E in H.
  destruct Hx as [[Ht7 [msg ->]]|(body & Hbody & Ht7 & Hx)].
  { injection H as <- <-. left. split; [congruence|eauto]. }
  rewrite Ht6 in Ht7. simpl in Ht7.
  right. eexists index, _, body.
  split; [done|]. split; [done|].
  split; [by exists q, o1, o2, o3, o4|]. split; [done|].
  destruct Hx as [[msg ->]|(res & reply & Hs & He & Hb & ->)].
  { injection H as <- <-. split; [done|]. left. eauto. }
  destruct (respond_cases index reply t7) as (r' & t8 & E' & Ht8 & Hr).
  rewrite E' in H. injection H as <- <-.
  split; [congruence|].
  destruct Hr as [[msg ->]|(doc & Hdoc & ->)]; [left; eauto|].
  right. exists res, reply, doc. done.
Qed.

End Assembly.

(** ** Validation of [size] and [from] *)

(** Where [from + size] does not overflow, the three guards reject exactly
    the pairs outside the bounds. *)
Lemma rejected_without_overflow (size from : Z) :
  in_range (from + size) ->
  rejected size from = false <-> (0 <= size <= 10000 ∧ 0 <= from ∧ from + size <= 10000).
Proof.
  unfold in_range, min_int, max_int, rejected, int_add, wrap. intros Hr.
  rewrite !orb_false_iff, !Z.ltb_ge, !Z.gtb_ltb, !Z.ltb_ge.
  assert ((from + size + 2 ^ 63) mod 2 ^ 64 - 2 ^ 63 = from + size) as ->.
  { rewrite Z.mod_small; lia. }
  lia.
Qed.

(** A rejected pair ends the call at once: the error names the guard, and
    neither the decoder nor the backend has been called. *)
Lemma rejected_fails_fast (Unmarshal : string -> outcome value)
    (UnmarshalMap : string -> outcome gomap) (h : ElasticsearchHandler)
    (request : CallToolRequest) (index : string) :
  RequireString request "index" = Ok index ->
  rejected (GetInt request "size" 10) (GetInt request "from" 0) = true ->
  execute (handleSearch Unmarshal UnmarshalMap h request)
  = (NewToolResultError
       (size_from_error (GetInt request "size" 10) (GetInt request "from" 0)),
     [executing_search request index]).
Proof.
  intros Hindex Hrej. unfold execute, handleSearch.
  rewrite exec_bind_eq, require_index_eq, Hindex.
  rewrite exec_bind_eq. unfold emit at 1. simpl app.
  rewrite exec_bind_eq, validate_size_from_eq, Hrej. reflexivity.
Qed.

(** C1, at the pair [from = 2^63 - 1024], [size = 10000]: both are within
    their own bounds and their sum exceeds 10000, but the sum the handler
    computes has wrapped around to a negative [int]; no guard fires and the
    search is dispatched with that offset. *)
Theorem C1_from_plus_size_wraps :
  let size := GetInt Examples.far_offset "size" 10 in
  let from := GetInt Examples.far_offset "from" 0 in
  size = 10000 ∧ from = 9223372036854774784
  ∧ 10000 < from + size
  ∧ int_add from size = -9223372036854766832
  ∧ rejected size from = false
  ∧ ∃ body m,
      backend_calls (execute (Examples.search Examples.handler Examples.far_offset)).2
      = [ESSearch "logs-*" body true true None]
      ∧ body = JObject m
      ∧ m !! "from" = Some (JInt 9223372036854774784)
      ∧ m !! "size" = Some (JInt 10000).
Proof.
  cbv zeta. repeat split; try (vm_compute; reflexivity).
  eexists _, _. split; [vm_compute; reflexivity|].
  split; [reflexivity|]. split; vm_compute; reflexivity.
Qed.

(** ** The dispatched request *)

Section Dispatch.

Variable Unmarshal : string -> outcome value.
Variable UnmarshalMap : string -> outcome gomap.
Variable h : ElasticsearchHandler.
Variable request : CallToolRequest.

(** A search event in the trace of [handleSearch] carries the encoding of
    the assembled request. *)
Lemma dispatched_request index body trackTotalHits pretty timeout :
  In (ESSearch index body trackTotalHits pretty timeout)
     (execute (handleSearch Unmarshal UnmarshalMap h request)).2 ->
  ∃ searchRequest,
    assembled Unmarshal UnmarshalMap request searchRequest
    ∧ Marshal (VMap (Some searchRequest)) = Ok body
    ∧ RequireString request "index" = Ok index
    ∧ rejected (GetInt request "size" 10) (GetInt request "from" 0) = false
    ∧ trackTotalHits = GetBool request "track_total_hits" true
    ∧ pretty = true
    ∧ timeout = timeoutOption request.
Proof.
  destruct (execute _) as [r t] eqn:E. simpl. intros Hin.
  assert (Hin' : In (ESSearch index body trackTotalHits pretty timeout) (backend_calls t)).
  { apply filter_In. by split. }
  apply handleSearch_outcomes in E
    as [[Hnone _]|(index' & sr & body' & Hi & Hrej & Hsr & Hm & Hcalls & _)].
  - rewrite Hnone in Hin'. destruct Hin'.
  - rewrite Hcalls in Hin'. destruct Hin' as [[= <- <- <- <- <-]|[]].
    exists sr. done.
Qed.

Lemma build_search_request_query q size from tth timeout :
  build_search_request q size from tth timeout !! "query" = Some (VMap q).
Proof.
  unfold build_search_request.
  destruct tth, (negb (bool_decide (timeout = EmptyString))); by simplify_map_eq.
Qed.

Lemma build_search_request_size q size from tth timeout :
  build_search_request q size from tth timeout !! "size" = Some (VInt size).
Proof.
  unfold build_search_request.
  destruct tth, (negb (bool_decide (timeout = EmptyString))); by simplify_map_eq.
Qed.

Lemma build_search_request_from q size from tth timeout :
  build_search_request q size from tth timeout !! "from" = Some (VInt from).
Proof.
  unfold build_search_request.
  destruct tth, (negb (bool_decide (timeout = EmptyString))); by simplify_map_eq.
Qed.

Lemma build_search_request_timeout q size from tth timeout :
  build_search_request q size from tth timeout !! "timeout"
  = if decoded timeout then Some (VString timeout) else None.
Proof.
  unfold build_search_request, decoded.
  destruct tth, (negb (bool_decide (timeout = EmptyString))); by simplify_map_eq.
Qed.

Lemma build_search_request_track_total_hits q size from tth timeout :
  build_search_request q size from tth timeout !! "track_total_hits"
  = if tth then Some (VBool true) else None.
Proof.
  unfold build_search_request.
  destruct tth, (negb (bool_decide (timeout = EmptyString))); by simplify_map_eq.
Qed.

(** The request has no other key before the optional fields are added. *)
Lemma build_search_request_other q size from tth timeout k :
  k ≠ "query" -> k ≠ "size" -> k ≠ "from" -> k ≠ "track_total_hits" -> k ≠ "timeout" ->
  build_search_request q size from tth timeout !! k = None.
Proof.
  intros ? ? ? ? ?. unfold build_search_request.
  destruct tth, (negb (bool_decide (timeout = EmptyString)));
    rewrite ?lookup_insert_ne by done; apply lookup_empty.
Qed.

(** The keys of an assembled request. *)
Lemma assembled_lookup (sr : gmap string value) :
  assembled Unmarshal UnmarshalMap request sr ->
  ∃ q sort aggs source highlight,
    query_ok UnmarshalMap request q
    ∧ field_ok (GetString request "sort" EmptyString)
        (Unmarshal (GetString request "sort" EmptyString)) sort
    ∧ field_ok (GetString request "aggs" EmptyString)
        (outcome_map VMap (UnmarshalMap (GetString request "aggs" EmptyString))) aggs
    ∧ field_ok (GetString request "_source" EmptyString)
        (Unmarshal (GetString request "_source" EmptyString)) source
    ∧ field_ok (GetString request "highlight" EmptyString)
        (outcome_map VMap (UnmarshalMap (GetString request "highlight" EmptyString)))
        highlight
    ∧ sr !! "query" = Some (VMap q)
    ∧ sr !! "size" = Some (VInt (GetInt request "size" 10))
    ∧ sr !! "from" = Some (VInt (GetInt request "from" 0))
    ∧ sr !! "track_total_hits"
      = (if GetBool request "track_total_hits" true then Some (VBool true) else None)
    ∧ sr !! "timeout"
      = (if decoded (GetString request "timeout" EmptyString)
         then Some (VString (GetString request "timeout" EmptyString)) else None)
    ∧ sr !! "sort" = sort
    ∧ sr !! "aggs" = aggs
    ∧ sr !! "_source" = source
    ∧ sr !! "highlight" = highlight.
Proof.
  intros (q & o1 & o2 & o3 & o4 & Hq & H1 & H2 & H3 & H4 & ->).
  exists q, o1, o2, o3, o4. do 5 (split; [done|]).
  rewrite !lookup_insert_opt. simpl.
  rewrite build_search_request_query, build_search_request_size,
    build_search_request_from, build_search_request_track_total_hits,
    build_search_request_timeout.
  do 5 (split; [done|]).
  rewrite !build_search_request_other by done.
  repeat split; by destruct o1, o2, o3, o4.
Qed.

End Dispatch.

Lemma Marshal_match_all :
  Marshal (VMap match_all) = Ok (JObject {[ "match_all" := JObject ∅ ]}).
Proof. vm_compute. reflexivity. Qed.

(** C2: when the query text is empty, is [{}], or decodes to an empty
    object, the document dispatched to the backend has, under its key
    [query], exactly the clause [{"match_all": {}}]. *)
Theorem C2_empty_query_is_match_all (Unmarshal : string -> outcome value)
    (UnmarshalMap : string -> outcome gomap) (h : ElasticsearchHandler)
    (request : CallToolRequest) index body trackTotalHits pretty timeout :
  GetString request "query" "{}" = EmptyString
  ∨ GetString request "query" "{}" = "{}"
  ∨ UnmarshalMap (GetString request "query" "{}") = Ok (Some ∅) ->
  In (ESSearch index body trackTotalHits pretty timeout)
     (execute (handleSearch Unmarshal UnmarshalMap h request)).2 ->
  ∃ m, body = JObject m
       ∧ m !! "query" = Some (JObject {[ "match_all" := JObject ∅ ]}).
Proof.
  intros Hquery Hin.
  apply dispatched_request in Hin as (sr & Hsr & Hm & _).
  apply assembled_lookup in Hsr
    as (q & _ & _ & _ & _ & Hq & _ & _ & _ & _ & Hlookup & _).
  apply Marshal_map_Ok in Hm as (m & -> & Hm).
  exists m. split; [done|].
  assert (q = match_all) as ->.
  { unfold query_ok, query_decoded in Hq.
    destruct Hquery as [E|[E|E]].
    - rewrite E in Hq. exact Hq.
    - rewrite E in Hq. exact Hq.
    - destruct (negb _); [|done]. destruct Hq as (q0 & E' & ->).
      rewrite E in E'. by injection E' as <-. }
  pose proof (Marshal_map_lookup sr m "query" Hm) as Hk.
  rewrite Hlookup in Hk. destruct Hk as (j & Hj & ->).
  rewrite Marshal_match_all in Hj. by injection Hj as <-.
Qed.

(** C2 on the call [{index: "logs-*", query: " { } "}]: the text is neither
    empty nor [{}], it decodes to the empty object. *)
Lemma C2_empty_query_witness :
  encoding_json.UnmarshalMap (GetString Examples.blank_query "query" "{}") = Ok (Some ∅)
  ∧ ∃ body,
      In (ESSearch "logs-*" body true true None)
         (execute (Examples.search Examples.handler Examples.blank_query)).2
      ∧ ∃ m, body = JObject m
             ∧ m !! "query" = Some (JObject {[ "match_all" := JObject ∅ ]}).
Proof.
  split; [vm_compute; reflexivity|].
  eexists. split.
  - vm_compute. do 3 right. left. reflexivity.
  - eapply (C2_empty_query_is_match_all encoding_json.Unmarshal encoding_json.UnmarshalMap
              Examples.handler Examples.blank_query "logs-*" _ true true None).
    + right. right. vm_compute. reflexivity.
    + vm_compute. do 3 right. left. reflexivity.
Defined.

(** ** Malformed JSON fields *)

Section Malformed.

Variable Unmarshal : string -> outcome value.
Variable UnmarshalMap : string -> outcome gomap.
Variable h : ElasticsearchHandler.
Variable request : CallToolRequest.


End Malformed.



(** ** Optional keys of the dispatched document *)

Lemma Marshal_map_is_Some (m : gmap string value) (jm : gmap string json) (k : string) :
  Marshal <$> m = Ok <$> jm -> is_Some (jm !! k) <-> is_Some (m !! k).
Proof.
  intros H. pose proof (Marshal_map_lookup m jm k H) as Hk.
  destruct (m !! k) as [v|].
  - destruct Hk as (j & _ & ->). split; eauto.
  - rewrite Hk. split; intros [? ?]; done.
Qed.

Lemma field_ok_is_Some (s : string) (r : outcome value) (o : option value) :
  field_ok s r o -> is_Some o <-> s ≠ EmptyString.
Proof.
  unfold field_ok, decoded. destruct (decide (s = EmptyString)) as [->|Hs].
  - rewrite bool_decide_true by done. simpl. intros ->. split; [intros [? ?]|]; done.
  - rewrite bool_decide_false by done. simpl. intros (v & _ & ->). split; eauto.
Qed.

(** C4: the document dispatched to the backend has each of the keys [sort],
    [aggs], [_source], [highlight] and [timeout] exactly when the text
    supplied for it is not empty; and the call [{index: "logs-*", query:
    {"match":{"a":1}}, size: 5}] dispatches a document whose [query] is the
    decoded text and whose [size] is 5, with no [sort], [aggs] or
    [highlight]. *)
Theorem C4_optional_keys :
  (∀ (Unmarshal : string -> outcome value) (UnmarshalMap : string -> outcome gomap)
     (h : ElasticsearchHandler) (request : CallToolRequest)
     index body trackTotalHits pretty timeout,
     In (ESSearch index body trackTotalHits pretty timeout)
        (execute (handleSearch Unmarshal UnmarshalMap h request)).2 ->
     ∃ m, body = JObject m
          ∧ ∀ k, In k ["sort"; "aggs"; "_source"; "highlight"; "timeout"] ->
                 is_Some (m !! k) <-> GetString request k EmptyString ≠ EmptyString)
  ∧ ∃ body m q j,
      backend_calls (execute (Examples.search Examples.handler Examples.round_trip)).2
      = [ESSearch "logs-*" body true true None]
      ∧ body = JObject m
      ∧ encoding_json.UnmarshalMap Examples.match_a_1 = Ok q
      ∧ Marshal (VMap q) = Ok j
      ∧ m !! "query" = Some j
      ∧ j = JObject {[ "match" := JObject {[ "a" := JFloat (GoFloat.of_Z 1) ]} ]}
      ∧ m !! "size" = Some (JInt 5)
      ∧ m !! "sort" = None ∧ m !! "aggs" = None ∧ m !! "highlight" = None.
Proof.
  split.
  - intros Unmarshal UnmarshalMap h request index body tth pretty timeout Hin.
    apply dispatched_request in Hin as (sr & Hsr & Hm & _).
    apply assembled_lookup in Hsr
      as (q & o1 & o2 & o3 & o4 & _ & H1 & H2 & H3 & H4 & _ & _ & _ & _
          & Ht & Hl1 & Hl2 & Hl3 & Hl4).
    apply Marshal_map_Ok in Hm as (m & -> & Hm).
    exists m. split; [done|].
    intros k Hk. rewrite (Marshal_map_is_Some sr m k Hm).
    destruct Hk as [<-|[<-|[<-|[<-|[<-|[]]]]]].
    + rewrite Hl1. by apply field_ok_is_Some in H1.
    + rewrite Hl2. by apply field_ok_is_Some in H2.
    + rewrite Hl3. by apply field_ok_is_Some in H3.
    + rewrite Hl4. by apply field_ok_is_Some in H4.
    + rewrite Ht. unfold decoded.
      destruct (decide (GetString request "timeout" EmptyString = EmptyString)) as [E|E].
      * rewrite bool_decide_true by done. simpl. split; [intros [? ?]|]; done.
      * rewrite bool_decide_false by done. simpl. split; eauto.
  - eexists _, _, _, _. split; [vm_compute; reflexivity|].
    split; [reflexivity|]. repeat split; vm_compute; reflexivity.
Qed.

(** C4 on the call of the round trip: the search is dispatched, and of the
    five optional keys none is in the document. *)
Lemma C4_optional_keys_witness :
  ∃ body,
    In (ESSearch "logs-*" body true true None)
       (execute (Examples.search Examples.handler Examples.round_trip)).2
    ∧ ∃ m, body = JObject m
           ∧ ∀ k, In k ["sort"; "aggs"; "_source"; "highlight"; "timeout"] ->
                  is_Some (m !! k)
                  <-> GetString Examples.round_trip k EmptyString ≠ EmptyString.
Proof.
  eexists. split.
  - vm_compute. do 3 right. left. reflexivity.
  - apply (proj1 C4_optional_keys encoding_json.Unmarshal encoding_json.UnmarshalMap
             Examples.handler Examples.round_trip "logs-*" _ true true None).
    vm_compute. do 3 right. left. reflexivity.
Defined.

(** ** The normalised search result *)

Section Normalised.

Variable Unmarshal : string -> outcome value.
Variable UnmarshalMap : string -> outcome gomap.
Variable h : ElasticsearchHandler.
Variable request : CallToolRequest.

(** A returned text is the encoding of the response map built from the
    reply to the search the trace shows. *)
Lemma normalised_reply doc t index body trackTotalHits pretty timeout res reply :
  execute (handleSearch Unmarshal UnmarshalMap h request) = (NewToolResultText doc, t) ->
  In (ESSearch index body trackTotalHits pretty timeout) t ->
  Search (client h) index body trackTotalHits timeout = Ok res ->
  res_Body res = Ok reply ->
  Marshal (VMap (Some (response_of request index reply))) = Ok doc.
Proof.
  intros E Hin Hs Hb.
  assert (Hin' : In (ESSearch index body trackTotalHits pretty timeout) (backend_calls t)).
  { apply filter_In. by split. }
  apply handleSearch_outcomes in E
    as [[_ [msg [=]]]|(index' & sr & body' & _ & _ & _ & _ & Hcalls & Hr)].
  rewrite Hcalls in Hin'. destruct Hin' as [[= <- <- <- <- <-]|[]].
  destruct Hr as [[msg [=]]|(res' & reply' & doc' & Hs' & _ & Hb' & Hdoc & [= <-])].
  rewrite Hs in Hs'. injection Hs' as <-.
  rewrite Hb in Hb'. by injection Hb' as <-.
Qed.

Lemma response_of_aggregations index reply :
  response_of request index reply !! "aggregations"
  = if 0 <? len_map (Aggregations reply) then Some (VMap (Aggregations reply)) else None.
Proof.
  unfold response_of. rewrite Z.gtb_ltb.
  destruct (Aggregations reply) as [a|]; simpl.
  - destruct (0 <? Z.of_nat (size a)); by simplify_map_eq.
  - by simplify_map_eq.
Qed.

Lemma response_of_other index reply k :
  k ≠ "aggregations" ->
  response_of request index reply !! k
  = (<["index" := VString index]>
     (<["took" := VInt (Took reply)]>
     (<["timed_out" := VBool (TimedOut reply)]>
     (<["total_hits" := VInt (Value (Total (Hits reply)))]>
     (<["max_score" := VFloatPtr (MaxScore (Hits reply))]>
     (<["hits" := of_hits (Hits_Hits (Hits reply))]>
     (<["shards" := VMap (Shards reply)]>
     (<["from" := VInt (GetInt request "from" 0)]>
     (<["size" := VInt (GetInt request "size" 10)]> (∅ : gmap string value)))))))))) !! k.
Proof.
  intros Hk. unfold response_of.
  destruct (negb _ && _); [|done]. by rewrite lookup_insert_ne.
Qed.

End Normalised.

(** C5: the returned document has the key [aggregations] exactly when the
    decoded reply has at least one aggregation entry, and its value is then
    the encoding of the reply's aggregations. *)
Theorem C5_aggregations_only_when_present
    (Unmarshal : string -> outcome value) (UnmarshalMap : string -> outcome gomap)
    (h : ElasticsearchHandler) (request : CallToolRequest)
    doc t index body trackTotalHits pretty timeout res reply :
  execute (handleSearch Unmarshal UnmarshalMap h request) = (NewToolResultText doc, t) ->
  In (ESSearch index body trackTotalHits pretty timeout) t ->
  Search (client h) index body trackTotalHits timeout = Ok res ->
  res_Body res = Ok reply ->
  ∃ m, doc = JObject m
       ∧ (is_Some (m !! "aggregations") <-> 0 < len_map (Aggregations reply))
       ∧ (0 < len_map (Aggregations reply) ->
          ∃ j, Marshal (VMap (Aggregations reply)) = Ok j
               ∧ m !! "aggregations" = Some j).
Proof.
  intros E Hin Hs Hb.
  pose proof (normalised_reply _ _ _ _ _ _ _ _ _ _ _ _ _ E Hin Hs Hb) as Hdoc.
  apply Marshal_map_Ok in Hdoc as (m & -> & Hm).
  exists m. split; [done|].
  pose proof (Marshal_map_lookup _ m "aggregations" Hm) as Hk.
  rewrite response_of_aggregations in Hk.
  destruct (0 <? len_map (Aggregations reply)) eqn:Hlen.
  - apply Z.ltb_lt in Hlen. destruct Hk as (j & Hj & Hmj).
    split; [rewrite Hmj; split; eauto|]. intros _. eauto.
  - apply Z.ltb_ge in Hlen. rewrite Hk.
    split; [split; [intros [? ?]; done|lia]|lia].
Qed.

(** C5 on the round-trip call answered by a reply with one aggregation. *)
Lemma C5_aggregations_witness :
  ∃ doc t body res,
    execute (Examples.search Examples.replying_handler Examples.round_trip)
    = (NewToolResultText doc, t)
    ∧ In (ESSearch "logs-*" body true true None) t
    ∧ Search (client Examples.replying_handler) "logs-*" body true None = Ok res
    ∧ res_Body res = Ok Examples.reply_with_aggregation
    ∧ ∃ m, doc = JObject m
           ∧ (is_Some (m !! "aggregations")
              <-> 0 < len_map (Aggregations Examples.reply_with_aggregation))
           ∧ (0 < len_map (Aggregations Examples.reply_with_aggregation) ->
              ∃ j, Marshal (VMap (Aggregations Examples.reply_with_aggregation)) = Ok j
                   ∧ m !! "aggregations" = Some j).
Proof.
  assert (E : ∃ doc t, execute (Examples.search Examples.replying_handler Examples.round_trip)
                       = (NewToolResultText doc, t)
                       ∧ ∃ body, In (ESSearch "logs-*" body true true None) t).
  { eexists _, _. split; [vm_compute; reflexivity|].
    eexists. do 3 right. left. reflexivity. }
  destruct E as (doc & t & E & body & Hin).
  exists doc, t, body, {| res_IsError := false; res_String := "[200 OK]";
                          res_Body := Ok Examples.reply_with_aggregation |}.
  split; [exact E|]. split; [exact Hin|]. split; [reflexivity|]. split; [reflexivity|].
  exact (C5_aggregations_only_when_present encoding_json.Unmarshal
           encoding_json.UnmarshalMap Examples.replying_handler Examples.round_trip
           doc t "logs-*" body true true None _ _ E Hin eq_refl eq_refl).
Defined.

Lemma sequence_list_Forall2 (vs : list value) (js : list json) :
  sequence_list (map Marshal vs) = Ok js ->
  Forall2 (fun v j => Marshal v = Ok j) vs js.
Proof.
  intros H. apply sequence_list_Ok in H.
  revert js H. induction vs as [|v vs IH]; intros [|j js] H; simplify_eq/=;
    constructor; auto.
Qed.

(** The encoding of the hits: [null] for the nil slice, else the array of
    the encodings of the records, in their order. *)
Lemma Marshal_of_hits (hits : slice gomap) (j : json) :
  Marshal (of_hits hits) = Ok j ->
  match hits with
  | None => j = JNull
  | Some l => ∃ js, j = JArray js
                    ∧ Forall2 (fun hit j => Marshal (VMap hit) = Ok j) l js
  end.
Proof.
  destruct hits as [l|]; simpl.
  - destruct (sequence_list _) as [js|e] eqn:E; [|done].
    intros [= <-]. exists js. split; [done|].
    apply sequence_list_Forall2 in E. by apply Forall2_fmap_l in E.
  - by intros [= <-].
Qed.

(** C6: the hits of the returned document are the encodings of the reply's
    hit records, one for one and in the reply's order; [max_score] is [null]
    exactly when the reply has no score; [from] and [size] are the values
    the call was validated with. *)
Theorem C6_hits_score_and_paging
    (Unmarshal : string -> outcome value) (UnmarshalMap : string -> outcome gomap)
    (h : ElasticsearchHandler) (request : CallToolRequest)
    doc t index body trackTotalHits pretty timeout res reply :
  execute (handleSearch Unmarshal UnmarshalMap h request) = (NewToolResultText doc, t) ->
  In (ESSearch index body trackTotalHits pretty timeout) t ->
  Search (client h) index body trackTotalHits timeout = Ok res ->
  res_Body res = Ok reply ->
  ∃ m, doc = JObject m
       ∧ match Hits_Hits (Hits reply) with
         | None => m !! "hits" = Some JNull
         | Some l => ∃ js, m !! "hits" = Some (JArray js)
                           ∧ Forall2 (fun hit j => Marshal (VMap hit) = Ok j) l js
         end
       ∧ (m !! "max_score" = Some JNull <-> MaxScore (Hits reply) = None)
       ∧ (∀ score, MaxScore (Hits reply) = Some score ->
                   m !! "max_score" = Some (JFloat score))
       ∧ m !! "from" = Some (JInt (GetInt request "from" 0))
       ∧ m !! "size" = Some (JInt (GetInt request "size" 10)).
Proof.
  intros E Hin Hs Hb.
  pose proof (normalised_reply _ _ _ _ _ _ _ _ _ _ _ _ _ E Hin Hs Hb) as Hdoc.
  apply Marshal_map_Ok in Hdoc as (m & -> & Hm).
  exists m. split; [done|].
  pose proof (Marshal_map_lookup _ m "hits" Hm) as Hhits.
  pose proof (Marshal_map_lookup _ m "max_score" Hm) as Hscore.
  pose proof (Marshal_map_lookup _ m "from" Hm) as Hfrom.
  pose proof (Marshal_map_lookup _ m "size" Hm) as Hsize.
  rewrite response_of_other in Hhits, Hscore, Hfrom, Hsize by done.
  simplify_map_eq.
  destruct Hhits as (jh & Hjh & Hmh), Hscore as (js & Hjs & Hms),
    Hfrom as (jf & [= <-] & Hmf), Hsize as (jz & [= <-] & Hmz).
  split.
  { apply Marshal_of_hits in Hjh. destruct (Hits_Hits (Hits reply)).
    - destruct Hjh as (l' & -> & Hall). eauto.
    - by subst. }
  split.
  { rewrite Hms. destruct (MaxScore (Hits reply)) as [f|]; simpl in Hjs.
    - unfold marshal_float in Hjs. destruct (GoFloat.is_finite f); [|done].
      injection Hjs as <-. split; [intros [=]|done].
    - injection Hjs as <-. done. }
  split.
  { intros f Hf. rewrite Hf in Hjs. simpl in Hjs. unfold marshal_float in Hjs.
    destruct (GoFloat.is_finite f); [|done]. by injection Hjs as <-. }
  done.
Qed.

(** C6 on the round-trip call answered by a reply with two hits and no
    score. *)
Lemma C6_hits_score_and_paging_witness :
  ∃ doc t body res,
    execute (Examples.search Examples.replying_handler Examples.round_trip)
    = (NewToolResultText doc, t)
    ∧ In (ESSearch "logs-*" body true true None) t
    ∧ Search (client Examples.replying_handler) "logs-*" body true None = Ok res
    ∧ res_Body res = Ok Examples.reply_with_aggregation
    ∧ ∃ m, doc = JObject m
           ∧ (∃ js, m !! "hits" = Some (JArray js)
                    ∧ Forall2 (fun hit j => Marshal (VMap hit) = Ok j)
                        [Examples.hit "b"; Examples.hit "a"] js)
           ∧ (m !! "max_score" = Some JNull
              <-> MaxScore (Hits Examples.reply_with_aggregation) = None)
           ∧ (∀ score, MaxScore (Hits Examples.reply_with_aggregation) = Some score ->
                       m !! "max_score" = Some (JFloat score))
           ∧ m !! "from" = Some (JInt (GetInt Examples.round_trip "from" 0))
           ∧ m !! "size" = Some (JInt (GetInt Examples.round_trip "size" 10)).
Proof.
  assert (E : ∃ doc t, execute (Examples.search Examples.replying_handler Examples.round_trip)
                       = (NewToolResultText doc, t)
                       ∧ ∃ body, In (ESSearch "logs-*" body true true None) t).
  { eexists _, _. split; [vm_compute; reflexivity|].
    eexists. do 3 right. left. reflexivity. }
  destruct E as (doc & t & E & body & Hin).
  exists doc, t, body, {| res_IsError := false; res_String := "[200 OK]";
                          res_Body := Ok Examples.reply_with_aggregation |}.
  split; [exact E|]. split; [exact Hin|]. split; [reflexivity|]. split; [reflexivity|].
  exact (C6_hits_score_and_paging encoding_json.Unmarshal
           encoding_json.UnmarshalMap Examples.replying_handler Examples.round_trip
           doc t "logs-*" body true true None _ _ E Hin eq_refl eq_refl).
Defined.

(** ** The listing of collections *)

Lemma list_result_eq (indices : slice IndexInfo) :
  list_result indices
  = match range indices with
    | [] => None
    | l => Some (index_entry <$> l)
    end.
Proof.
  unfold list_result.
  assert (H : ∀ l acc,
             foldl (fun result idx => append result (index_entry idx)) (Some acc) l
             = Some (acc ++ (index_entry <$> l))).
  { induction l as [|idx l IH]; intros acc; simpl.
    - by rewrite app_nil_r.
    - rewrite IH. by rewrite <- app_assoc. }
  destruct (range indices) as [|idx l]; [done|].
  simpl. by rewrite H.
Qed.

Lemma len_list_result (indices : slice IndexInfo) :
  len_slice (list_result indices) = Z.of_nat (length (range indices)).
Proof.
  rewrite list_result_eq. destruct (range indices) as [|idx l]; [done|].
  simpl. by rewrite length_fmap.
Qed.

Lemma Marshal_index_entry (idx : IndexInfo) :
  Marshal (index_entry idx) = Ok (index_entry_json idx).
Proof.
  unfold index_entry, index_entry_json. apply Marshal_map_intro.
  rewrite !fmap_insert, !fmap_empty. reflexivity.
Qed.

Lemma sequence_list_cons {A} (r : outcome A) (l : list (outcome A)) :
  sequence_list (r :: l)
  = match r with
    | Err e => Err e
    | Ok a => outcome_map (cons a) (sequence_list l)
    end.
Proof. reflexivity. Qed.

Lemma Marshal_list_result (indices : slice IndexInfo) :
  Marshal (VSlice (list_result indices))
  = Ok match range indices with
       | [] => JNull
       | l => JArray (index_entry_json <$> l)
       end.
Proof.
  rewrite list_result_eq.
  assert (H : ∀ l : list IndexInfo,
             sequence_list (map Marshal (index_entry <$> l)) = Ok (index_entry_json <$> l)).
  { induction l as [|idx l IH]; [done|].
    rewrite fmap_cons, map_cons, sequence_list_cons, Marshal_index_entry, IH.
    reflexivity. }
  destruct (range indices) as [|idx l]; [done|].
  change (Marshal (VSlice (Some (index_entry <$> idx :: l))))
    with (outcome_map JArray (sequence_list (map Marshal (index_entry <$> idx :: l)))).
  by rewrite H.
Qed.

Lemma Marshal_list_response (pattern : string) (indices : slice IndexInfo) :
  Marshal (VMap (Some (list_response pattern indices))) = Ok (list_document pattern indices).
Proof.
  unfold list_response, list_document. apply Marshal_map_intro.
  rewrite !fmap_insert, !fmap_empty.
  rewrite Marshal_list_result, len_list_result. reflexivity.
Qed.

(** What a run of the listing can be. *)
Lemma handleListIndices_eq (h : ElasticsearchHandler) (request : CallToolRequest) :
  let pattern := GetString request "pattern" "*" in
  let t0 := [Log InfoLevel [Str "pattern" pattern] "Listing indices";
             ESCatIndices pattern "json" cat_columns] in
  execute (handleListIndices h request)
  = match Cat_Indices (client h) pattern with
    | Err err =>
        (NewToolResultError ("Failed to list indices: " +:+ err),
         t0 ++ [Log ErrorLevel [ErrField err; Str "pattern" pattern] "Failed to list indices"])
    | Ok res =>
        if res_IsError res then
          (NewToolResultError ("Elasticsearch error: " +:+ res_String res),
           t0 ++ [Log ErrorLevel [Str "response" (res_String res)]
                    "Elasticsearch error listing indices"])
        else
          match res_Body res with
          | Err err =>
              (NewToolResultError ("Failed to decode response: " +:+ err),
               t0 ++ [Log ErrorLevel [ErrField err] "Failed to decode indices response"])
          | Ok indices =>
              (NewToolResultText (list_document pattern indices),
               t0 ++ [Log InfoLevel
                        [Int "count" (Z.of_nat (length (range indices)));
                         Str "pattern" pattern]
                        "Listed indices successfully"])
          end
    end.
Proof.
  intros pattern t0. unfold execute, exec, handleListIndices.
  fold pattern.
  cbv beta iota zeta delta [mbind M_bind mret M_ret emit return_ when].
  destruct (Cat_Indices (client h) pattern) as [res|e]; [|done].
  destruct (res_IsError res); [done|].
  destruct (res_Body res) as [indices|e]; [|done].
  change (foldl _ None (range indices)) with (list_result indices).
  change (<["total_indices" := _]> _) with (list_response pattern indices).
  rewrite Marshal_list_response, len_list_result. reflexivity.
Qed.

(** C7: in every document the listing returns, [total_indices] is the
    number of entries of [indices] (the entries of the backend's reply, in
    its order) and [pattern] is the pattern of the call, [*] when the call
    has none; and listing [logs-*] on a backend that holds [logs-a],
    [logs-b] and [metrics-a] returns the two [logs-*] entries and
    [total_indices = 2]. *)
Theorem C7_listing_counts_its_entries :
  (∀ (h : ElasticsearchHandler) (request : CallToolRequest) doc t,
     execute (handleListIndices h request) = (NewToolResultText doc, t) ->
     ∃ m res indices,
       doc = JObject m
       ∧ Cat_Indices (client h) (GetString request "pattern" "*") = Ok res
       ∧ res_Body res = Ok indices
       ∧ m !! "pattern" = Some (JString (GetString request "pattern" "*"))
       ∧ m !! "total_indices" = Some (JInt (Z.of_nat (length (range indices))))
       ∧ ((range indices = [] ∧ m !! "indices" = Some JNull)
          ∨ ∃ entries, m !! "indices" = Some (JArray entries)
                       ∧ entries = index_entry_json <$> range indices
                       ∧ length entries = length (range indices)))
  ∧ ∃ m e1 e2,
      (execute (handleListIndices Examples.handler Examples.list_logs)).1
      = NewToolResultText (JObject m)
      ∧ m !! "total_indices" = Some (JInt 2)
      ∧ m !! "pattern" = Some (JString "logs-*")
      ∧ m !! "indices" = Some (JArray [JObject e1; JObject e2])
      ∧ e1 !! "name" = Some (JString "logs-a")
      ∧ e2 !! "name" = Some (JString "logs-b").
Proof.
  split.
  - intros h request doc t E.
    pose proof (handleListIndices_eq h request) as H. cbv zeta in H.
    rewrite E in H.
    destruct (Cat_Indices (client h) (GetString request "pattern" "*")) as [res|e];
      [|done].
    destruct (res_IsError res); [done|].
    destruct (res_Body res) as [indices|e] eqn:Hb; [|done].
    injection H as -> _.
    eexists _, res, indices. split; [reflexivity|]. split; [done|]. split; [done|].
    split; [by simplify_map_eq|]. split; [by simplify_map_eq|].
    destruct (range indices) as [|idx l] eqn:Hr.
    + left. split; [done|]. by simplify_map_eq.
    + right. eexists. split; [by simplify_map_eq|]. split; [done|].
      simpl. by rewrite length_fmap.
  - eexists _, _, _. split; [vm_compute; reflexivity|].
    repeat split; vm_compute; reflexivity.
Qed.

(** C7 on the listing of [logs-*]. *)
Lemma C7_listing_witness :
  ∃ doc t,
    execute (handleListIndices Examples.handler Examples.list_logs)
    = (NewToolResultText doc, t)
    ∧ ∃ m res indices,
        doc = JObject m
        ∧ Cat_Indices (client Examples.handler) (GetString Examples.list_logs "pattern" "*")
          = Ok res
        ∧ res_Body res = Ok indices
        ∧ m !! "pattern" = Some (JString (GetString Examples.list_logs "pattern" "*"))
        ∧ m !! "total_indices" = Some (JInt (Z.of_nat (length (range indices))))
        ∧ ((range indices = [] ∧ m !! "indices" = Some JNull)
           ∨ ∃ entries, m !! "indices" = Some (JArray entries)
                        ∧ entries = index_entry_json <$> range indices
                        ∧ length entries = length (range indices)).
Proof.
  assert (E : ∃ doc t, execute (handleListIndices Examples.handler Examples.list_logs)
                       = (NewToolResultText doc, t)).
  { eexists _, _. vm_compute. reflexivity. }
  destruct E as (doc & t & E). exists doc, t. split; [exact E|].
  exact (proj1 C7_listing_counts_its_entries Examples.handler Examples.list_logs doc t E).
Defined.

(** C10: when the backend's reply decodes to no entry (the nil slice or the
    empty one), the listing returns a document with [total_indices = 0]
    whose [indices] is [null]: the handler's slice is still nil, and a nil
    slice is encoded as [null], not as the empty array. *)
Theorem C10_empty_listing_is_null
    (h : ElasticsearchHandler) (request : CallToolRequest) res indices :
  Cat_Indices (client h) (GetString request "pattern" "*") = Ok res ->
  res_IsError res = false ->
  res_Body res = Ok indices ->
  range indices = [] ->
  ∃ m t,
    execute (handleListIndices h request) = (NewToolResultText (JObject m), t)
    ∧ m !! "total_indices" = Some (JInt 0)
    ∧ m !! "indices" = Some JNull
    ∧ list_result indices = None
    ∧ Marshal (VSlice None) = Ok JNull
    ∧ Marshal (VSlice (Some [])) = Ok (JArray [])
    ∧ JNull ≠ JArray [].
Proof.
  intros Hc He Hb Hr.
  pose proof (handleListIndices_eq h request) as H. cbv zeta in H.
  rewrite Hc, He, Hb in H. unfold list_document in H. rewrite Hr in H.
  eexists _, _. split; [exact H|].
  split; [by simplify_map_eq|]. split; [by simplify_map_eq|].
  split; [by rewrite list_result_eq, Hr|]. done.
Qed.

(** C10 on the listing of [traces-*], which matches no collection: the
    reply decodes to the empty slice. *)
Lemma C10_empty_listing_witness :
  ∃ res,
    Cat_Indices (client Examples.handler) (GetString Examples.list_traces "pattern" "*")
    = Ok res
    ∧ res_IsError res = false
    ∧ res_Body res = Ok (Some [])
    ∧ ∃ m t,
        execute (handleListIndices Examples.handler Examples.list_traces)
        = (NewToolResultText (JObject m), t)
        ∧ m !! "total_indices" = Some (JInt 0)
        ∧ m !! "indices" = Some JNull
        ∧ list_result (Some []) = None
        ∧ Marshal (VSlice None) = Ok JNull
        ∧ Marshal (VSlice (Some [])) = Ok (JArray [])
        ∧ JNull ≠ JArray [].
Proof.
  exists {| res_IsError := false; res_String := "[200 OK]"; res_Body := Ok (Some []) |}.
  split; [vm_compute; reflexivity|]. split; [reflexivity|]. split; [reflexivity|].
  apply (C10_empty_listing_is_null Examples.handler Examples.list_traces
           {| res_IsError := false; res_String := "[200 OK]"; res_Body := Ok (Some []) |}
           (Some [])); [vm_compute; reflexivity|reflexivity|reflexivity|reflexivity].
Defined.

(** ** The index parameter *)

(** C9, as the code has it: whatever the reason [RequireString] fails for,
    a missing argument or one that is not a string, the schema retrieval
    and the search return the same error, [Missing 'index' parameter],
    without calling the backend; the reason goes to the logger only. *)
Theorem C9_one_error_for_the_index
    (Unmarshal : string -> outcome value) (UnmarshalMap : string -> outcome gomap)
    (h : ElasticsearchHandler) (request : CallToolRequest) (e : string) :
  RequireString request "index" = Err e ->
  execute (handleSearch Unmarshal UnmarshalMap h request)
  = (NewToolResultError "Missing 'index' parameter",
     [Log ErrorLevel [ErrField e] "Missing index parameter"])
  ∧ execute (handleGetMappings h request)
    = (NewToolResultError "Missing 'index' parameter",
       [Log ErrorLevel [ErrField e] "Missing index parameter"])
  ∧ e = match Arguments request !! "index" with
        | None => "required argument " +:+ quoted "index" +:+ " not found"
        | Some _ => "argument " +:+ quoted "index" +:+ " is not a string"
        end.
Proof.
  intros H. split; [|split].
  - unfold execute, handleSearch. by rewrite exec_bind_eq, require_index_eq, H.
  - unfold execute, exec, handleGetMappings. by rewrite bind_eq, H.
  - unfold RequireString in H.
    destruct (Arguments request !! "index") as [[]|]; by simplify_eq.
Qed.

(** C9 on the call without arguments. *)
Lemma C9_one_error_witness :
  RequireString Examples.no_index "index"
  = Err ("required argument " +:+ quoted "index" +:+ " not found")
  ∧ execute (Examples.search Examples.handler Examples.no_index)
    = (NewToolResultError "Missing 'index' parameter",
       [Log ErrorLevel [ErrField ("required argument " +:+ quoted "index" +:+ " not found")]
          "Missing index parameter"])
  ∧ execute (handleGetMappings Examples.handler Examples.no_index)
    = (NewToolResultError "Missing 'index' parameter",
       [Log ErrorLevel [ErrField ("required argument " +:+ quoted "index" +:+ " not found")]
          "Missing index parameter"]).
Proof.
  assert (H : RequireString Examples.no_index "index"
              = Err ("required argument " +:+ quoted "index" +:+ " not found"))
    by reflexivity.
  split; [exact H|].
  pose proof (C9_one_error_for_the_index encoding_json.Unmarshal encoding_json.UnmarshalMap
                Examples.handler Examples.no_index _ H) as (H1 & H2 & _).
  split; [exact H1|exact H2].
Defined.

(** C9 as stated fails: the call without an index and the call whose index
    is the number 42 get the same error from the search, and the same from
    the schema retrieval. *)
Lemma C9_counterexample :
  Arguments Examples.no_index !! "index" = None
  ∧ Arguments Examples.numeric_index !! "index" = Some (Examples.number 42)
  ∧ (execute (Examples.search Examples.handler Examples.no_index)).1
    = (execute (Examples.search Examples.handler Examples.numeric_index)).1
  ∧ (execute (handleGetMappings Examples.handler Examples.no_index)).1
    = (execute (handleGetMappings Examples.handler Examples.numeric_index)).1
  ∧ (execute (Examples.search Examples.handler Examples.numeric_index)).1
    = NewToolResultError "Missing 'index' parameter".
Proof. repeat split; vm_compute; reflexivity. Qed.

(** ** Construction of the handler *)


Section ConstructionFacts.

Variable NewClient : esConfig -> outcome Client.
Variable newLogger : LoggingConfig -> outcome unit.


End ConstructionFacts.

Section RunFacts.

Variable NewClient : esConfig -> outcome Client.
Variable newLogger : LoggingConfig -> outcome unit.

Lemma validateConfig_credentials (config : Config) :
  validateConfig config = Ok tt ->
  URL (Elasticsearch config) ≠ EmptyString
  ∧ (APIKey (Elasticsearch config) ≠ EmptyString
     ∨ (Username (Elasticsearch config) ≠ EmptyString
        ∧ Password (Elasticsearch config) ≠ EmptyString)).
Proof.
  unfold validateConfig.
  destruct (decide (URL (Elasticsearch config) = EmptyString)) as [E|E].
  { by rewrite bool_decide_true. }
  rewrite bool_decide_false by done.
  destruct (decide (APIKey (Elasticsearch config) = EmptyString)) as [Ek|Ek].
  - rewrite (bool_decide_true _ Ek).
    destruct (decide (Username (Elasticsearch config) = EmptyString)) as [Eu|Eu].
    { by rewrite (bool_decide_true _ Eu). }
    destruct (decide (Password (Elasticsearch config) = EmptyString)) as [Ep|Ep].
    { rewrite (bool_decide_true _ Ep). by rewrite orb_true_r. }
    intros _. eauto.
  - intros _. eauto.
Qed.


(** Without credentials the configuration is not valid. *)
Lemma validateConfig_no_credentials (config : Config) :
  APIKey (Elasticsearch config) = EmptyString ->
  Username (Elasticsearch config) = EmptyString
  ∨ Password (Elasticsearch config) = EmptyString ->
  ∃ e, validateConfig config = Err e.
Proof.
  intros Hk Hup. destruct (validateConfig config) as [[]|e] eqn:E; [|eauto].
  apply validateConfig_credentials in E as (_ & [?|[? ?]]); [done|].
  by destruct Hup.
Qed.



End RunFacts.


(** ** The search, from the assembled request to the result *)

Lemma backend_calls_calls (used : bool) (s : string) : backend_calls (calls used s) = [].
Proof. by destruct used. Qed.

Lemma backend_calls_decoder_calls (request : CallToolRequest) :
  backend_calls (decoder_calls request) = [].
Proof.
  unfold decoder_calls. simpl. by rewrite !backend_calls_app, !backend_calls_calls.
Qed.

Section Dispatching.

Variable Unmarshal : string -> outcome value.
Variable UnmarshalMap : string -> outcome gomap.
Variable h : ElasticsearchHandler.
Variable request : CallToolRequest.

(** "Convert to JSON" to the decoded reply, case by case. *)
Lemma execute_search_eq (index : string) (sr : gmap string value) (tth : bool)
    (timeout : string) (t : list event) :
  execute_search h index sr tth timeout t =
  match Marshal (VMap (Some sr)) with
  | Err err =>
      (inl (NewToolResultError "Failed to create search request"),
       t ++ [Log ErrorLevel [ErrField err] "Failed to marshal search request"])
  | Ok body =>
      let option := if decoded timeout then Some timeout else None in
      let t1 := t ++ [Log DebugLevel [RawJSON "search_body" body] "Search request body";
                      ESSearch index body tth true option] in
      match Search (client h) index body tth option with
      | Err err =>
          (inl (NewToolResultError ("Failed to execute search: " +:+ err)),
           t1 ++ [Log ErrorLevel [ErrField err; Str "index" index] "Failed to execute search"])
      | Ok res =>
          if res_IsError res then
            (inl (NewToolResultError ("Elasticsearch search error: " +:+ res_String res)),
             t1 ++ [Log ErrorLevel [Str "response" (res_String res)]
                      "Elasticsearch search error"])
          else
            match res_Body res with
            | Err err =>
                (inl (NewToolResultError ("Failed to decode response: " +:+ err)),
                 t1 ++ [Log ErrorLevel [ErrField err] "Failed to decode search response"])
            | Ok reply => (inr reply, t1)
            end
      end
  end.
Proof.
  unfold execute_search, decoded.
  cbv beta iota zeta delta [mbind M_bind mret M_ret emit return_ when].
  destruct (Marshal (VMap (Some sr))) as [body|e]; [|done].
  destruct (Search _ _ _ _ _) as [res|e]; [|by rewrite <- !app_assoc].
  destruct (res_IsError res); [by rewrite <- !app_assoc|].
  destruct (res_Body res); by rewrite <- !app_assoc.
Qed.

(** The end of the handler: the result is the encoding of the response map,
    or the fixed error when it cannot be encoded; neither the backend nor
    the decoder is called. *)
Lemma respond_result (index : string) (reply : SearchResponse) (t : list event) :
  ∃ d,
    exec (respond index reply (GetInt request "from" 0) (GetInt request "size" 10)) t
    = (match Marshal (VMap (Some (response_of request index reply))) with
       | Err _ => NewToolResultError "Failed to marshal result to JSON"
       | Ok doc => NewToolResultText doc
       end, t ++ d)
    ∧ backend_calls d = [] ∧ unmarshal_calls d = [].
Proof.
  unfold exec, respond. rewrite bind_eq.
  destruct (build_response_eq request index reply t) as (d & -> & Hd & Hu).
  cbv beta iota zeta delta [mbind M_bind mret M_ret emit return_ when].
  destruct (Marshal (VMap (Some (response_of request index reply)))) as [doc|e];
    eexists (d ++ [_]); rewrite app_assoc; (split; [reflexivity|]);
    rewrite backend_calls_app, unmarshal_calls_app, Hd, Hu; done.
Qed.

(** The optional fields, when their text decodes. *)
Lemma add_sort_ok s sr o t :
  field_ok s (Unmarshal s) o ->
  add_sort Unmarshal s sr t = (inr (insert_opt "sort" o sr), t ++ calls (decoded s) s).
Proof.
  rewrite add_sort_eq. unfold field_ok. destruct (decoded s).
  - by intros (v & -> & ->).
  - intros ->. by rewrite app_nil_r.
Qed.

Lemma add_source_ok s sr o t :
  field_ok s (Unmarshal s) o ->
  add_source Unmarshal s sr t = (inr (insert_opt "_source" o sr), t ++ calls (decoded s) s).
Proof.
  rewrite add_source_eq. unfold field_ok. destruct (decoded s).
  - by intros (v & -> & ->).
  - intros ->. by rewrite app_nil_r.
Qed.

Lemma add_aggs_ok s sr o t :
  field_ok s (outcome_map VMap (UnmarshalMap s)) o ->
  add_aggs UnmarshalMap s sr t = (inr (insert_opt "aggs" o sr), t ++ calls (decoded s) s).
Proof.
  rewrite add_aggs_eq. unfold field_ok. destruct (decoded s).
  - destruct (UnmarshalMap s); intros (v & [=] & ->); by subst.
  - intros ->. by rewrite app_nil_r.
Qed.

Lemma add_highlight_ok s sr o t :
  field_ok s (outcome_map VMap (UnmarshalMap s)) o ->
  add_highlight UnmarshalMap s sr t
  = (inr (insert_opt "highlight" o sr), t ++ calls (decoded s) s).
Proof.
  rewrite add_highlight_eq. unfold field_ok. destruct (decoded s).
  - destruct (UnmarshalMap s); intros (v & [=] & ->); by subst.
  - intros ->. by rewrite app_nil_r.
Qed.

Lemma parse_query_ok s q t :
  (if query_decoded s
   then ∃ q0, UnmarshalMap s = Ok q0 ∧ q = if len_map q0 =? 0 then match_all else q0
   else q = match_all) ->
  parse_query UnmarshalMap s t = (inr q, t ++ calls (query_decoded s) s).
Proof.
  rewrite parse_query_eq. destruct (query_decoded s).
  - by intros (q0 & -> & ->).
  - intros ->. by rewrite app_nil_r.
Qed.

(** A field that is not rejected has a value, or is left out. *)
Lemma field_ok_of_no_error (s : string) (r : outcome value) :
  (if decoded s then error_of r else None) = None -> ∃ o, field_ok s r o.
Proof.
  unfold field_ok. destruct (decoded s); [|by exists None].
  destruct r as [v|e]; [|done]. exists (Some v). eauto.
Qed.

Lemma error_of_outcome_map {A B} (f : A -> B) (r : outcome A) :
  error_of (outcome_map f r) = error_of r.
Proof. by destruct r. Qed.

(** When no field is rejected, a request is assembled. *)
Lemma assembled_of_no_error :
  (∀ f, decode_error Unmarshal UnmarshalMap request f = None) ->
  ∃ sr, assembled Unmarshal UnmarshalMap request sr.
Proof.
  intros Hdec.
  assert (Hq : ∃ q, query_ok UnmarshalMap request q).
  { specialize (Hdec QueryField). unfold decode_error, handed, text in Hdec.
    simpl in Hdec. unfold query_ok.
    destruct (query_decoded (GetString request "query" "{}")); [|eauto].
    destruct (UnmarshalMap (GetString request "query" "{}")) as [q0|e]; [|done]. eauto. }
  destruct Hq as [q Hq].
  destruct (field_ok_of_no_error (GetString request "sort" EmptyString)
              (Unmarshal (GetString request "sort" EmptyString))) as [o1 H1].
  { exact (Hdec SortField). }
  destruct (field_ok_of_no_error (GetString request "aggs" EmptyString)
              (outcome_map VMap (UnmarshalMap (GetString request "aggs" EmptyString))))
    as [o2 H2].
  { rewrite error_of_outcome_map. exact (Hdec AggsField). }
  destruct (field_ok_of_no_error (GetString request "_source" EmptyString)
              (Unmarshal (GetString request "_source" EmptyString))) as [o3 H3].
  { exact (Hdec SourceField). }
  destruct (field_ok_of_no_error (GetString request "highlight" EmptyString)
              (outcome_map VMap (UnmarshalMap (GetString request "highlight" EmptyString))))
    as [o4 H4].
  { rewrite error_of_outcome_map. exact (Hdec HighlightField). }
  eexists. exists q, o1, o2, o3, o4. done.
Qed.

(** An assembled request means that no field was rejected. *)
Lemma no_error_of_assembled (sr : gmap string value) :
  assembled Unmarshal UnmarshalMap request sr ->
  ∀ f, decode_error Unmarshal UnmarshalMap request f = None.
Proof.
  intros (q & o1 & o2 & o3 & o4 & Hq & H1 & H2 & H3 & H4 & _) f.
  unfold decode_error, handed, text.
  destruct f; cbn [param].
  - unfold query_ok in Hq. destruct (query_decoded _); [|done].
    by destruct Hq as (q0 & -> & _).
  - unfold field_ok in H1. destruct (decoded _); [|done].
    by destruct H1 as (v & -> & _).
  - unfold field_ok in H2. destruct (decoded _); [|done].
    destruct H2 as (v & E & _). revert E.
    by destruct (UnmarshalMap (GetString request "aggs" EmptyString)).
  - unfold field_ok in H3. destruct (decoded _); [|done].
    by destruct H3 as (v & -> & _).
  - unfold field_ok in H4. destruct (decoded _); [|done].
    destruct H4 as (v & E & _). revert E.
    by destruct (UnmarshalMap (GetString request "highlight" EmptyString)).
Qed.

(** With its index, its bounds and its fields accepted, the handler reaches
    "Convert to JSON" with the assembled request, having called the decoder
    on the fields in order and nothing else. *)
Lemma handleSearch_reaches_dispatch (index : string) (sr : gmap string value) :
  RequireString request "index" = Ok index ->
  rejected (GetInt request "size" 10) (GetInt request "from" 0) = false ->
  assembled Unmarshal UnmarshalMap request sr ->
  execute (handleSearch Unmarshal UnmarshalMap h request)
  = exec (execute_search h index sr (GetBool request "track_total_hits" true)
            (GetString request "timeout" EmptyString)
          ≫= fun reply => respond index reply (GetInt request "from" 0)
                            (GetInt request "size" 10))
      (executing_search request index :: decoder_calls request).
Proof.
  intros Hindex Hrej (q & o1 & o2 & o3 & o4 & Hq & H1 & H2 & H3 & H4 & ->).
  unfold execute, handleSearch.
  rewrite exec_bind_eq, require_index_eq, Hindex.
  rewrite exec_bind_eq. unfold emit at 1. simpl app.
  rewrite exec_bind_eq, validate_size_from_eq, Hrej.
  rewrite exec_bind_eq, (parse_query_ok _ q) by exact Hq.
  rewrite exec_bind_eq, (add_sort_ok _ _ o1) by exact H1.
  rewrite exec_bind_eq, (add_aggs_ok _ _ o2) by exact H2.
  rewrite exec_bind_eq, (add_source_ok _ _ o3) by exact H3.
  rewrite exec_bind_eq, (add_highlight_ok _ _ o4) by exact H4.
  unfold decoder_calls, executing_search, handed, text. simpl flat_map.
  rewrite app_nil_r, <- !app_assoc. reflexivity.
Qed.

(** The run of a search whose request is assembled: the encoding of the
    request decides whether it is dispatched, and the backend's answer
    decides the result. *)
Lemma handleSearch_dispatch_eq (index : string) (sr : gmap string value) :
  RequireString request "index" = Ok index ->
  rejected (GetInt request "size" 10) (GetInt request "from" 0) = false ->
  assembled Unmarshal UnmarshalMap request sr ->
  match Marshal (VMap (Some sr)) with
  | Err err =>
      execute (handleSearch Unmarshal UnmarshalMap h request)
      = (NewToolResultError "Failed to create search request",
         executing_search request index :: decoder_calls request
         ++ [Log ErrorLevel [ErrField err] "Failed to marshal search request"])
  | Ok body =>
      ∃ d,
        execute (handleSearch Unmarshal UnmarshalMap h request)
        = (result_of_reply request index
             (Search (client h) index body (GetBool request "track_total_hits" true)
                (timeoutOption request)),
           executing_search request index :: decoder_calls request
           ++ [Log DebugLevel [RawJSON "search_body" body] "Search request body";
               ESSearch index body (GetBool request "track_total_hits" true) true
                 (timeoutOption request)] ++ d)
        ∧ backend_calls d = [] ∧ unmarshal_calls d = []
  end.
Proof.
  intros Hindex Hrej Hsr.
  rewrite (handleSearch_reaches_dispatch index sr Hindex Hrej Hsr).
  rewrite exec_bind_eq, execute_search_eq.
  change (if decoded (GetString request "timeout" EmptyString)
          then Some (GetString request "timeout" EmptyString) else None)
    with (timeoutOption request).
  destruct (Marshal (VMap (Some sr))) as [body|e]; [|done].
  cbv zeta. unfold result_of_reply.
  destruct (Search _ _ _ _ _) as [res|e].
  2:{ eexists [_]. split; [simpl; rewrite <- ?app_assoc; reflexivity|done]. }
  destruct (res_IsError res).
  { eexists [_]. split; [simpl; rewrite <- ?app_assoc; reflexivity|done]. }
  destruct (res_Body res) as [reply|e].
  2:{ eexists [_]. split; [simpl; rewrite <- ?app_assoc; reflexivity|done]. }
  match goal with |- context [exec _ ?t1] =>
    destruct (respond_result index reply t1) as (d & E & Hb & Hu) end.
  rewrite E. exists d. split; [simpl; rewrite <- ?app_assoc; reflexivity|done].
Qed.

(** The calls a dispatched search has made. *)
Lemma dispatched_calls (index : string) (body : json) (d : list event) :
  backend_calls d = [] -> unmarshal_calls d = [] ->
  backend_calls
    (executing_search request index :: decoder_calls request
     ++ [Log DebugLevel [RawJSON "search_body" body] "Search request body";
         ESSearch index body (GetBool request "track_total_hits" true) true
           (timeoutOption request)] ++ d)
  = [ESSearch index body (GetBool request "track_total_hits" true) true
       (timeoutOption request)]
  ∧ unmarshal_calls
      (executing_search request index :: decoder_calls request
       ++ [Log DebugLevel [RawJSON "search_body" body] "Search request body";
           ESSearch index body (GetBool request "track_total_hits" true) true
             (timeoutOption request)] ++ d)
    = decoder_calls request.
Proof.
  intros Hd Hu. split.
  - change (backend_calls (?e :: ?l)) with (backend_calls ([e] ++ l)).
    rewrite !backend_calls_app, backend_calls_decoder_calls, Hd. done.
  - change (unmarshal_calls (?e :: ?l)) with (unmarshal_calls ([e] ++ l)).
    rewrite !unmarshal_calls_app, Hu. simpl. rewrite app_nil_r.
    unfold decoder_calls. simpl. rewrite !unmarshal_calls_app.
    assert (Hc : ∀ b s, unmarshal_calls (calls b s) = calls b s) by (by intros []).
    by rewrite !Hc.
Qed.

End Dispatching.

(** ** Properties of [handleSearch] *)

(** X1: a search calls the backend at most once, and only its search
    operation, on the index of the request, with the [track_total_hits]
    flag and the timeout of the request and with pretty printing; a search
    that ends without a backend call returns an error. *)
Theorem search_calls_the_backend_at_most_once
    (Unmarshal : string -> outcome value) (UnmarshalMap : string -> outcome gomap)
    (h : ElasticsearchHandler) (request : CallToolRequest) :
  (backend_calls (execute (handleSearch Unmarshal UnmarshalMap h request)).2 = []
   ∧ ∃ msg, (execute (handleSearch Unmarshal UnmarshalMap h request)).1
            = NewToolResultError msg)
  ∨ ∃ index body,
      RequireString request "index" = Ok index
      ∧ backend_calls (execute (handleSearch Unmarshal UnmarshalMap h request)).2
        = [ESSearch index body (GetBool request "track_total_hits" true) true
             (timeoutOption request)].
Proof.
  destruct (execute _) as [r t] eqn:E. simpl.
  apply handleSearch_outcomes in E
    as [[Hnone Hr]|(index & sr & body & Hi & _ & _ & _ & Hcalls & _)].
  - by left.
  - right. by exists index, body.
Qed.

(** X2: once a search is dispatched, its result is read off the backend's
    answer: a transport failure, an error status, a reply that cannot be
    decoded and a response that cannot be encoded each give their own
    error, and a text is returned in no other case. *)
Theorem search_result_follows_the_reply
    (Unmarshal : string -> outcome value) (UnmarshalMap : string -> outcome gomap)
    (h : ElasticsearchHandler) (request : CallToolRequest)
    (index : string) (body : json) (trackTotalHits pretty : bool) (timeout : option string) :
  In (ESSearch index body trackTotalHits pretty timeout)
     (execute (handleSearch Unmarshal UnmarshalMap h request)).2 ->
  (execute (handleSearch Unmarshal UnmarshalMap h request)).1
  = result_of_reply request index (Search (client h) index body trackTotalHits timeout).
Proof.
  intros Hin.
  apply dispatched_request in Hin as (sr & Hsr & Hm & Hi & Hrej & -> & -> & ->).
  pose proof (handleSearch_dispatch_eq Unmarshal UnmarshalMap h request index sr
                Hi Hrej Hsr) as H.
  rewrite Hm in H. destruct H as (d & -> & _). reflexivity.
Qed.

(** X2 on a backend that answers every call with an error status. *)
Lemma search_result_follows_the_reply_witness :
  ∃ body,
    In (ESSearch "logs-*" body true true None)
       (execute (Examples.search Cases.rejecting_handler Cases.only_index)).2
    ∧ (execute (Examples.search Cases.rejecting_handler Cases.only_index)).1
      = NewToolResultError "Elasticsearch search error: [404 Not Found]".
Proof.
  assert (Hin : ∃ body,
             In (ESSearch "logs-*" body true true None)
                (execute (Examples.search Cases.rejecting_handler Cases.only_index)).2).
  { eexists. vm_compute. do 2 right. left. reflexivity. }
  destruct Hin as [body Hin]. exists body. split; [exact Hin|].
  exact (search_result_follows_the_reply encoding_json.Unmarshal encoding_json.UnmarshalMap
           Cases.rejecting_handler Cases.only_index "logs-*" body true true None Hin).
Defined.

(** X3: a search whose index is a string, whose [size] and [from] pass
    the guards and whose JSON fields all decode is dispatched exactly once,
    after the decoder has been called on the supplied fields in the order
    query, sort, aggs, _source, highlight and on nothing else; the only way
    out before the dispatch is a request that cannot be encoded. *)
Theorem valid_search_is_dispatched
    (Unmarshal : string -> outcome value) (UnmarshalMap : string -> outcome gomap)
    (h : ElasticsearchHandler) (request : CallToolRequest) (index : string) :
  RequireString request "index" = Ok index ->
  rejected (GetInt request "size" 10) (GetInt request "from" 0) = false ->
  (∀ f, decode_error Unmarshal UnmarshalMap request f = None) ->
  ∃ searchRequest,
    assembled Unmarshal UnmarshalMap request searchRequest
    ∧ unmarshal_calls (execute (handleSearch Unmarshal UnmarshalMap h request)).2
      = decoder_calls request
    ∧ match Marshal (VMap (Some searchRequest)) with
      | Ok body =>
          backend_calls (execute (handleSearch Unmarshal UnmarshalMap h request)).2
          = [ESSearch index body (GetBool request "track_total_hits" true) true
               (timeoutOption request)]
      | Err err =>
          execute (handleSearch Unmarshal UnmarshalMap h request)
          = (NewToolResultError "Failed to create search request",
             executing_search request index :: decoder_calls request
             ++ [Log ErrorLevel [ErrField err] "Failed to marshal search request"])
      end.
Proof.
  intros Hi Hrej Hdec.
  destruct (assembled_of_no_error Unmarshal UnmarshalMap request Hdec) as [sr Hsr].
  exists sr. split; [done|].
  pose proof (handleSearch_dispatch_eq Unmarshal UnmarshalMap h request index sr
                Hi Hrej Hsr) as H.
  destruct (Marshal (VMap (Some sr))) as [body|e].
  - destruct H as (d & -> & Hd & Hu). simpl.
    destruct (dispatched_calls request index body d Hd Hu) as [Hb Hc]. done.
  - rewrite H. split; [|done]. simpl.
    change (unmarshal_calls (?e :: ?l)) with (unmarshal_calls ([e] ++ l)).
    rewrite !unmarshal_calls_app. simpl. rewrite app_nil_r.
    unfold decoder_calls. simpl. rewrite !unmarshal_calls_app.
    assert (Hc : ∀ b s, unmarshal_calls (calls b s) = calls b s) by (by intros []).
    by rewrite !Hc.
Qed.

(** X3 on a search with every optional field set: the decoder is called
    five times, the backend once. *)
Lemma valid_search_is_dispatched_witness :
  ∃ searchRequest body,
    assembled encoding_json.Unmarshal encoding_json.UnmarshalMap Cases.full searchRequest
    ∧ unmarshal_calls (execute (Examples.search Examples.handler Cases.full)).2
      = [JSONUnmarshal Examples.match_a_1; JSONUnmarshal "[]"; JSONUnmarshal "{}";
         JSONUnmarshal "false"; JSONUnmarshal "{}"]
    ∧ Marshal (VMap (Some searchRequest)) = Ok body
    ∧ backend_calls (execute (Examples.search Examples.handler Cases.full)).2
      = [ESSearch "logs-*" body false true (Some "5s")].
Proof.
  assert (Hi : RequireString Cases.full "index" = Ok "logs-*") by reflexivity.
  assert (Hrej : rejected (GetInt Cases.full "size" 10) (GetInt Cases.full "from" 0) = false)
    by (vm_compute; reflexivity).
  assert (Hdec : ∀ f, decode_error encoding_json.Unmarshal encoding_json.UnmarshalMap
                        Cases.full f = None)
    by (intros []; vm_compute; reflexivity).
  destruct (valid_search_is_dispatched encoding_json.Unmarshal encoding_json.UnmarshalMap
              Examples.handler Cases.full "logs-*" Hi Hrej Hdec) as (sr & Hsr & Hu & Hb).
  destruct (Marshal (VMap (Some sr))) as [body|e] eqn:Hm.
  - exists sr, body. split; [exact Hsr|]. split; [exact Hu|]. split; [exact Hm|exact Hb].
  - exfalso. apply (f_equal fst) in Hb. vm_compute in Hb. discriminate Hb.
Defined.

(** The encoding of a key of the request that is there. *)
Lemma Marshal_lookup_Some (sr : gmap string value) (m : gmap string json)
    (k : string) (v : value) :
  Marshal <$> sr = Ok <$> m -> sr !! k = Some v ->
  ∃ j, Marshal v = Ok j ∧ m !! k = Some j.
Proof.
  intros Hm Hk. pose proof (Marshal_map_lookup sr m k Hm) as H. by rewrite Hk in H.
Qed.

Lemma Marshal_lookup_None (sr : gmap string value) (m : gmap string json) (k : string) :
  Marshal <$> sr = Ok <$> m -> sr !! k = None -> m !! k = None.
Proof.
  intros Hm Hk. pose proof (Marshal_map_lookup sr m k Hm) as H. by rewrite Hk in H.
Qed.

(** X4: the search the backend receives has, in its body, the [size] and
    the [from] of the request, with [0 <= size <= 10000] and [0 <= from];
    their sum is at most 10000 unless it exceeds the largest [int]. *)
Theorem dispatched_search_is_within_bounds
    (Unmarshal : string -> outcome value) (UnmarshalMap : string -> outcome gomap)
    (h : ElasticsearchHandler) (request : CallToolRequest)
    (index : string) (body : json) (trackTotalHits pretty : bool) (timeout : option string) :
  In (ESSearch index body trackTotalHits pretty timeout)
     (execute (handleSearch Unmarshal UnmarshalMap h request)).2 ->
  ∃ m, body = JObject m
       ∧ m !! "size" = Some (JInt (GetInt request "size" 10))
       ∧ m !! "from" = Some (JInt (GetInt request "from" 0))
       ∧ 0 <= GetInt request "size" 10 <= 10000
       ∧ 0 <= GetInt request "from" 0
       ∧ (GetInt request "from" 0 + GetInt request "size" 10 <= 10000
          ∨ max_int < GetInt request "from" 0 + GetInt request "size" 10).
Proof.
  intros Hin.
  apply dispatched_request in Hin as (sr & Hsr & Hm & _ & Hrej & _).
  apply assembled_lookup in Hsr
    as (q & o1 & o2 & o3 & o4 & _ & _ & _ & _ & _ & _ & Hsize & Hfrom & _).
  apply Marshal_map_Ok in Hm as (m & -> & Hm).
  exists m. split; [done|].
  destruct (Marshal_lookup_Some _ _ _ _ Hm Hsize) as (j1 & [= <-] & ->).
  destruct (Marshal_lookup_Some _ _ _ _ Hm Hfrom) as (j2 & [= <-] & ->).
  do 2 (split; [done|]).
  unfold rejected in Hrej.
  rewrite !orb_false_iff, !Z.ltb_ge, !Z.gtb_ltb, !Z.ltb_ge in Hrej.
  destruct Hrej as [[[Hs1 Hs2] Hf] Hsum].
  split; [lia|]. split; [lia|].
  destruct (decide (GetInt request "from" 0 + GetInt request "size" 10 <= max_int))
    as [Hle|Hgt]; [left|right; lia].
  unfold int_add, wrap in Hsum. unfold max_int in Hle.
  rewrite Z.mod_small in Hsum; lia.
Qed.

(** X4 on the search of the round trip. *)
Lemma dispatched_search_is_within_bounds_witness :
  ∃ body m,
    In (ESSearch "logs-*" body true true None)
       (execute (Examples.search Examples.handler Examples.round_trip)).2
    ∧ body = JObject m
    ∧ m !! "size" = Some (JInt 5)
    ∧ m !! "from" = Some (JInt 0).
Proof.
  assert (Hin : ∃ body,
             In (ESSearch "logs-*" body true true None)
                (execute (Examples.search Examples.handler Examples.round_trip)).2).
  { eexists. vm_compute. do 3 right. left. reflexivity. }
  destruct Hin as [body Hin].
  destruct (dispatched_search_is_within_bounds encoding_json.Unmarshal
              encoding_json.UnmarshalMap Examples.handler Examples.round_trip
              "logs-*" body true true None Hin) as (m & Hb & Hs & Hf & _).
  exists body, m. split; [exact Hin|]. split; [exact Hb|]. split; [exact Hs|exact Hf].
Defined.

(** X5: what the handler passes to the search as options agrees with the
    body: [track_total_hits] is in the body exactly when the option is set,
    and then it is [true]; the timeout is in the body exactly when the
    timeout option is set, with the same text; pretty printing is always
    asked for. *)
Theorem search_options_agree_with_the_body
    (Unmarshal : string -> outcome value) (UnmarshalMap : string -> outcome gomap)
    (h : ElasticsearchHandler) (request : CallToolRequest)
    (index : string) (body : json) (trackTotalHits pretty : bool) (timeout : option string) :
  In (ESSearch index body trackTotalHits pretty timeout)
     (execute (handleSearch Unmarshal UnmarshalMap h request)).2 ->
  pretty = true
  ∧ trackTotalHits = GetBool request "track_total_hits" true
  ∧ (timeout = None <-> GetString request "timeout" EmptyString = EmptyString)
  ∧ ∃ m, body = JObject m
         ∧ m !! "track_total_hits" = (if trackTotalHits then Some (JBool true) else None)
         ∧ m !! "timeout" = JString <$> timeout.
Proof.
  intros Hin.
  apply dispatched_request in Hin as (sr & Hsr & Hm & _ & _ & -> & -> & ->).
  apply assembled_lookup in Hsr
    as (q & o1 & o2 & o3 & o4 & _ & _ & _ & _ & _ & _ & _ & _ & Htth & Hto & _).
  apply Marshal_map_Ok in Hm as (m & -> & Hm).
  do 2 (split; [done|]).
  unfold timeoutOption, decoded in *.
  split.
  { destruct (decide (GetString request "timeout" EmptyString = EmptyString)) as [E|E].
    - by rewrite bool_decide_true.
    - rewrite bool_decide_false by done. simpl. split; [done|]. intros; done. }
  exists m. split; [done|]. split.
  - destruct (GetBool request "track_total_hits" true).
    + by destruct (Marshal_lookup_Some _ _ _ _ Hm Htth) as (j & [= <-] & ->).
    + by apply (Marshal_lookup_None _ _ _ Hm).
  - destruct (negb (bool_decide (GetString request "timeout" EmptyString = EmptyString))).
    + by destruct (Marshal_lookup_Some _ _ _ _ Hm Hto) as (j & [= <-] & ->).
    + by apply (Marshal_lookup_None _ _ _ Hm).
Qed.

(** X5 on the search with every optional field set. *)
Lemma search_options_agree_with_the_body_witness :
  ∃ body m,
    In (ESSearch "logs-*" body false true (Some "5s"))
       (execute (Examples.search Examples.handler Cases.full)).2
    ∧ body = JObject m
    ∧ m !! "track_total_hits" = None
    ∧ m !! "timeout" = Some (JString "5s").
Proof.
  assert (Hin : ∃ body,
             In (ESSearch "logs-*" body false true (Some "5s"))
                (execute (Examples.search Examples.handler Cases.full)).2).
  { eexists. vm_compute. do 7 right. left. reflexivity. }
  destruct Hin as [body Hin].
  destruct (search_options_agree_with_the_body encoding_json.Unmarshal
              encoding_json.UnmarshalMap Examples.handler Cases.full
              "logs-*" body false true (Some "5s") Hin)
    as (_ & _ & _ & m & Hb & Ht & Hto).
  exists body, m. split; [exact Hin|]. split; [exact Hb|]. split; [exact Ht|exact Hto].
Defined.

(** X6: what the decoder made of a supplied field is what the backend
    receives under the field's key: the sort, the aggregations, the source
    filter and the highlight as decoded, the query as decoded unless it
    decodes to a map without entries. *)
Theorem decoded_fields_pass_through
    (Unmarshal : string -> outcome value) (UnmarshalMap : string -> outcome gomap)
    (h : ElasticsearchHandler) (request : CallToolRequest)
    (index : string) (body : json) (trackTotalHits pretty : bool) (timeout : option string) :
  In (ESSearch index body trackTotalHits pretty timeout)
     (execute (handleSearch Unmarshal UnmarshalMap h request)).2 ->
  ∃ m, body = JObject m
       ∧ (∀ f, f ≠ QueryField -> handed request f = true ->
            ∃ v j, decoded_value Unmarshal UnmarshalMap request f = Ok v
                   ∧ Marshal v = Ok j
                   ∧ m !! param f = Some j)
       ∧ (handed request QueryField = true ->
            ∃ q j, UnmarshalMap (text request QueryField) = Ok q
                   ∧ Marshal (VMap (if len_map q =? 0 then match_all else q)) = Ok j
                   ∧ m !! "query" = Some j).
Proof.
  intros Hin.
  apply dispatched_request in Hin as (sr & Hsr & Hm & _).
  apply assembled_lookup in Hsr
    as (q & o1 & o2 & o3 & o4 & Hq & H1 & H2 & H3 & H4 & Hquery & _ & _ & _ & _
        & Hl1 & Hl2 & Hl3 & Hl4).
  apply Marshal_map_Ok in Hm as (m & -> & Hm).
  exists m. split; [done|]. split.
  - intros f Hf Hh. unfold handed, text in Hh. unfold decoded_value, text.
    destruct f; [done| | | |]; cbn [param] in *.
    + unfold field_ok in H1. rewrite Hh in H1. destruct H1 as (v & Hv & ->).
      destruct (Marshal_lookup_Some _ _ _ _ Hm Hl1) as (j & Hj & Hk). eauto.
    + unfold field_ok in H2. rewrite Hh in H2. destruct H2 as (v & Hv & ->).
      destruct (Marshal_lookup_Some _ _ _ _ Hm Hl2) as (j & Hj & Hk). eauto.
    + unfold field_ok in H3. rewrite Hh in H3. destruct H3 as (v & Hv & ->).
      destruct (Marshal_lookup_Some _ _ _ _ Hm Hl3) as (j & Hj & Hk). eauto.
    + unfold field_ok in H4. rewrite Hh in H4. destruct H4 as (v & Hv & ->).
      destruct (Marshal_lookup_Some _ _ _ _ Hm Hl4) as (j & Hj & Hk). eauto.
  - intros Hh. unfold handed, text in Hh. cbn [param] in Hh.
    unfold query_ok in Hq. rewrite Hh in Hq. destruct Hq as (q0 & Hq0 & ->).
    destruct (Marshal_lookup_Some _ _ _ _ Hm Hquery) as (j & Hj & Hk).
    exists q0, j. done.
Qed.

(** X6 on the search with every optional field set: the source filter
    [false] arrives as [false]. *)
Lemma decoded_fields_pass_through_witness :
  ∃ body m,
    In (ESSearch "logs-*" body false true (Some "5s"))
       (execute (Examples.search Examples.handler Cases.full)).2
    ∧ body = JObject m
    ∧ m !! "_source" = Some (JBool false).
Proof.
  assert (Hin : ∃ body,
             In (ESSearch "logs-*" body false true (Some "5s"))
                (execute (Examples.search Examples.handler Cases.full)).2).
  { eexists. vm_compute. do 7 right. left. reflexivity. }
  destruct Hin as [body Hin].
  destruct (decoded_fields_pass_through encoding_json.Unmarshal
              encoding_json.UnmarshalMap Examples.handler Cases.full
              "logs-*" body false true (Some "5s") Hin) as (m & Hb & Hf & _).
  exists body, m. split; [exact Hin|]. split; [exact Hb|].
  destruct (Hf SourceField) as (v & j & Hv & Hj & Hk); [discriminate|reflexivity|].
  vm_compute in Hv. injection Hv as <-. vm_compute in Hj. injection Hj as <-.
  exact Hk.
Defined.

(** ** The handlers and the declarations of their tools *)

(** The handlers read a request through its accessors only. *)
Lemma handleSearch_ext (Unmarshal : string -> outcome value)
    (UnmarshalMap : string -> outcome gomap) (h : ElasticsearchHandler)
    (r1 r2 : CallToolRequest) :
  RequireString r1 "index" = RequireString r2 "index" ->
  GetString r1 "query" "{}" = GetString r2 "query" "{}" ->
  GetInt r1 "size" 10 = GetInt r2 "size" 10 ->
  GetInt r1 "from" 0 = GetInt r2 "from" 0 ->
  GetString r1 "sort" EmptyString = GetString r2 "sort" EmptyString ->
  GetString r1 "aggs" EmptyString = GetString r2 "aggs" EmptyString ->
  GetString r1 "_source" EmptyString = GetString r2 "_source" EmptyString ->
  GetString r1 "highlight" EmptyString = GetString r2 "highlight" EmptyString ->
  GetBool r1 "track_total_hits" true = GetBool r2 "track_total_hits" true ->
  GetString r1 "timeout" EmptyString = GetString r2 "timeout" EmptyString ->
  handleSearch Unmarshal UnmarshalMap h r1 = handleSearch Unmarshal UnmarshalMap h r2.
Proof.
  intros H1 H2 H3 H4 H5 H6 H7 H8 H9 H10. unfold handleSearch, require_index.
  by rewrite H1, H2, H3, H4, H5, H6, H7, H8, H9, H10.
Qed.

Lemma handleListIndices_ext (h : ElasticsearchHandler) (r1 r2 : CallToolRequest) :
  GetString r1 "pattern" "*" = GetString r2 "pattern" "*" ->
  handleListIndices h r1 = handleListIndices h r2.
Proof. intros H. unfold handleListIndices. by rewrite H. Qed.

Lemma handleGetMappings_ext (h : ElasticsearchHandler) (r1 r2 : CallToolRequest) :
  RequireString r1 "index" = RequireString r2 "index" ->
  handleGetMappings h r1 = handleGetMappings h r2.
Proof. intros H. unfold handleGetMappings. by rewrite H. Qed.

(** The accessors read one key. *)
Lemma RequireString_lookup (r1 r2 : CallToolRequest) (k : string) :
  Arguments r1 !! k = Arguments r2 !! k -> RequireString r1 k = RequireString r2 k.
Proof. unfold RequireString. by intros ->. Qed.

Lemma GetString_lookup (r1 r2 : CallToolRequest) (k d : string) :
  Arguments r1 !! k = Arguments r2 !! k -> GetString r1 k d = GetString r2 k d.
Proof. unfold GetString. by intros ->. Qed.

Lemma GetInt_lookup (r1 r2 : CallToolRequest) (k : string) (d : Z) :
  Arguments r1 !! k = Arguments r2 !! k -> GetInt r1 k d = GetInt r2 k d.
Proof. unfold GetInt. by intros ->. Qed.

Lemma GetBool_lookup (r1 r2 : CallToolRequest) (k : string) (d : bool) :
  Arguments r1 !! k = Arguments r2 !! k -> GetBool r1 k d = GetBool r2 k d.
Proof. unfold GetBool. by intros ->. Qed.

Lemma with_argument_other (name k : string) (v : value) (request : CallToolRequest) :
  name ≠ k ->
  Arguments (with_argument name v request) !! k = Arguments request !! k.
Proof. intros H. unfold with_argument. simpl. by rewrite lookup_insert_ne. Qed.

Lemma with_argument_same (name : string) (v : value) (request : CallToolRequest) :
  Arguments (with_argument name v request) !! name = Some v.
Proof. unfold with_argument. simpl. by simplify_map_eq. Qed.

(** X7: a search depends on its request through the nine parameters its
    tool declares and through [timeout], which the tool does not declare:
    two requests that agree on these ten arguments run alike, whatever else
    they carry. *)
Theorem search_reads_ten_arguments :
  ¬ In "timeout" (declared_parameters searchTool)
  ∧ ∀ (Unmarshal : string -> outcome value) (UnmarshalMap : string -> outcome gomap)
      (h : ElasticsearchHandler) (r1 r2 : CallToolRequest),
      (∀ k, In k (declared_parameters searchTool ++ ["timeout"]) ->
            Arguments r1 !! k = Arguments r2 !! k) ->
      ∀ t, handleSearch Unmarshal UnmarshalMap h r1 t
           = handleSearch Unmarshal UnmarshalMap h r2 t.
Proof.
  split.
  { vm_compute. intros H. repeat (destruct H as [H|H]; [discriminate H|]). exact H. }
  intros Unmarshal UnmarshalMap h r1 r2 H t.
  assert (Hk : ∀ k, In k ["index"; "query"; "size"; "from"; "sort"; "aggs"; "_source";
                          "highlight"; "track_total_hits"; "timeout"] ->
                    Arguments r1 !! k = Arguments r2 !! k) by exact H.
  rewrite (handleSearch_ext Unmarshal UnmarshalMap h r1 r2); [reflexivity|..];
    first [apply RequireString_lookup | apply GetString_lookup
          | apply GetInt_lookup | apply GetBool_lookup];
    apply Hk; simpl; tauto.
Qed.

(** X7 on a request with an argument the handler does not know. *)
Lemma search_reads_ten_arguments_witness :
  (∀ k, In k (declared_parameters searchTool ++ ["timeout"]) ->
        Arguments (with_argument "explain" (VBool true) Cases.only_index) !! k
        = Arguments Cases.only_index !! k)
  ∧ execute (Examples.search Examples.handler
               (with_argument "explain" (VBool true) Cases.only_index))
    = execute (Examples.search Examples.handler Cases.only_index).
Proof.
  assert (H : ∀ k, In k (declared_parameters searchTool ++ ["timeout"]) ->
                   Arguments (with_argument "explain" (VBool true) Cases.only_index) !! k
                   = Arguments Cases.only_index !! k).
  { intros k Hk. apply with_argument_other. intros <-.
    vm_compute in Hk. repeat (destruct Hk as [Hk|Hk]; [discriminate Hk|]). exact Hk. }
  split; [exact H|].
  unfold execute, exec, Examples.search.
  rewrite (proj2 search_reads_ten_arguments encoding_json.Unmarshal
             encoding_json.UnmarshalMap Examples.handler _ _ H []).
  reflexivity.
Defined.

(** X8: the defaults the tools declare are the defaults the handlers apply:
    for each registered tool, sending the declared default of a parameter
    (a JSON string, number or boolean) is the same as leaving the parameter
    out. *)
Theorem declared_defaults_are_applied
    (Unmarshal : string -> outcome value) (UnmarshalMap : string -> outcome gomap)
    (esHandler : ElasticsearchHandler)
    (tool : Tool) (handle : CallToolRequest -> M CallToolResult CallToolResult)
    (name : string) (v : value) (request : CallToolRequest) :
  In (tool, handle) (registered_tools Unmarshal UnmarshalMap esHandler) ->
  In (name, v) (declared_defaults tool) ->
  Arguments request !! name = None ->
  handle (with_argument name v request) = handle request.
Proof.
  intros Htool Hdef Hnone.
  assert (Hget : ∀ k d, GetString (with_argument name v request) k d
                        = if decide (name = k)
                          then match v with VString s => s | _ => d end
                          else GetString request k d).
  { intros k d. unfold GetString. destruct (decide (name = k)) as [<-|Hk].
    - by rewrite with_argument_same.
    - by rewrite with_argument_other. }
  assert (Hint : ∀ k d, name ≠ k -> GetInt (with_argument name v request) k d
                                    = GetInt request k d).
  { intros k d Hk. apply GetInt_lookup. by apply with_argument_other. }
  assert (Hbool : ∀ k d, name ≠ k -> GetBool (with_argument name v request) k d
                                     = GetBool request k d).
  { intros k d Hk. apply GetBool_lookup. by apply with_argument_other. }
  assert (Hreq : ∀ k, name ≠ k -> RequireString (with_argument name v request) k
                                  = RequireString request k).
  { intros k Hk. apply RequireString_lookup. by apply with_argument_other. }
  assert (Hdflt : ∀ d, GetString request name d = d).
  { intros d. unfold GetString. by rewrite Hnone. }
  destruct Htool as [[= <- <-]|[[= <- <-]|[[= <- <-]|[]]]].
  - (* list_indices *)
    destruct Hdef as [[= <- <-]|[]].
    apply handleListIndices_ext. rewrite Hget. simpl. by rewrite Hdflt.
  - (* get_index_mappings declares no default *)
    destruct Hdef.
  - (* search *)
    vm_compute in Hdef.
    destruct Hdef as [[= <- <-]|[[= <- <-]|[[= <- <-]|[[= <- <-]|[[= <- <-]|[[= <- <-]|
                     [[= <- <-]|[[= <- <-]|[]]]]]]]]];
      apply handleSearch_ext;
      rewrite ?Hget, ?Hint, ?Hbool, ?Hreq by done; simpl;
      rewrite ?Hdflt; try reflexivity.
    + (* size *)
      unfold GetInt. rewrite with_argument_same, Hnone. vm_compute. reflexivity.
    + (* from *)
      unfold GetInt. rewrite with_argument_same, Hnone. vm_compute. reflexivity.
    + (* track_total_hits *)
      unfold GetBool. rewrite with_argument_same, Hnone. reflexivity.
Qed.

(** X8 on a search without a size: sending the declared size 10 changes
    nothing. *)
Lemma declared_defaults_are_applied_witness :
  In ("size", Examples.number 10) (declared_defaults searchTool)
  ∧ Arguments Cases.only_index !! "size" = None
  ∧ execute (Examples.search Examples.handler
               (with_argument "size" (Examples.number 10) Cases.only_index))
    = execute (Examples.search Examples.handler Cases.only_index).
Proof.
  assert (Hdef : In ("size", Examples.number 10) (declared_defaults searchTool)).
  { vm_compute. right. left. reflexivity. }
  assert (Hnone : Arguments Cases.only_index !! "size" = None) by reflexivity.
  split; [exact Hdef|]. split; [exact Hnone|].
  unfold Examples.search.
  rewrite (declared_defaults_are_applied encoding_json.Unmarshal encoding_json.UnmarshalMap
             Examples.handler searchTool
             (handleSearch encoding_json.Unmarshal encoding_json.UnmarshalMap Examples.handler)
             "size" (Examples.number 10) Cases.only_index);
    [reflexivity| |exact Hdef|exact Hnone].
  simpl. right. right. left. reflexivity.
Defined.

(** X9: the parameters the tools declare as required are the ones the
    handlers insist on: for each registered tool, a call without a required
    parameter is answered with the error that names the parameter, before
    any backend call. *)
Theorem required_parameters_are_enforced
    (Unmarshal : string -> outcome value) (UnmarshalMap : string -> outcome gomap)
    (esHandler : ElasticsearchHandler)
    (tool : Tool) (handle : CallToolRequest -> M CallToolResult CallToolResult)
    (name : string) (request : CallToolRequest) :
  In (tool, handle) (registered_tools Unmarshal UnmarshalMap esHandler) ->
  In name (required_parameters tool) ->
  Arguments request !! name = None ->
  execute (handle request)
  = (NewToolResultError ("Missing '" +:+ name +:+ "' parameter"),
     [Log ErrorLevel [ErrField ("required argument " +:+ quoted name +:+ " not found")]
        "Missing index parameter"]).
Proof.
  intros Htool Hreq Hnone.
  destruct Htool as [[= <- <-]|[[= <- <-]|[[= <- <-]|[]]]]; vm_compute in Hreq.
  - destruct Hreq.
  - destruct Hreq as [<-|[]].
    unfold execute, exec, handleGetMappings. rewrite bind_eq.
    unfold RequireString. by rewrite Hnone.
  - destruct Hreq as [<-|[]].
    unfold execute, handleSearch. rewrite exec_bind_eq, require_index_eq.
    unfold RequireString. by rewrite Hnone.
Qed.

(** X9 on a schema retrieval without arguments. *)
Lemma required_parameters_are_enforced_witness :
  In "index" (required_parameters getMappingsTool)
  ∧ execute (handleGetMappings Examples.handler Examples.no_index)
    = (NewToolResultError "Missing 'index' parameter",
       [Log ErrorLevel [ErrField ("required argument " +:+ quoted "index" +:+ " not found")]
          "Missing index parameter"]).
Proof.
  assert (Hreq : In "index" (required_parameters getMappingsTool)).
  { left. reflexivity. }
  split; [exact Hreq|].
  apply (required_parameters_are_enforced encoding_json.Unmarshal encoding_json.UnmarshalMap
           Examples.handler getMappingsTool (handleGetMappings Examples.handler)
           "index" Examples.no_index).
  - right. left. reflexivity.
  - exact Hreq.
  - reflexivity.
Defined.

(** ** Schema retrieval and listing *)

(** The response of the schema retrieval is encoded key by key. *)
Lemma Marshal_mappings_response (index : string) (mappings : gomap) :
  match Marshal (VMap mappings) with
  | Ok j =>
      Marshal (VMap (Some (<["index" := VString index]> (<["mappings" := VMap mappings]> ∅))))
      = Ok (JObject (<["index" := JString index]> (<["mappings" := j]> ∅)))
  | Err _ =>
      ∃ e, Marshal (VMap (Some (<["index" := VString index]>
                                (<["mappings" := VMap mappings]> ∅)))) = Err e
  end.
Proof.
  destruct (Marshal (VMap mappings)) as [j|e] eqn:E.
  - apply Marshal_map_intro. rewrite !fmap_insert, !fmap_empty. by rewrite E.
  - set (resp := <["index" := VString index]> (<["mappings" := VMap mappings]> ∅)).
    destruct (Marshal (VMap (Some resp))) as [j|e'] eqn:E'; [exfalso|by eexists].
    apply Marshal_map_Ok in E' as (jm & _ & E').
    pose proof (Marshal_map_lookup _ jm "mappings" E') as H.
    unfold resp in H. rewrite lookup_insert_ne in H by done.
    rewrite lookup_insert_eq in H.
    destruct H as (j' & Hj & _). congruence.
Qed.

(** The run of [handleGetMappings] on a request with its index. *)
Lemma handleGetMappings_eq (h : ElasticsearchHandler) (request : CallToolRequest)
    (index : string) :
  RequireString request "index" = Ok index ->
  ∃ e, execute (handleGetMappings h request)
       = (mappings_of_reply index (Indices_GetMapping (client h) index),
          [Log InfoLevel [Str "index" index] "Getting index mappings";
           ESGetMapping index; e])
       ∧ is_log e = true.
Proof.
  intros Hi. unfold execute, exec, handleGetMappings, mappings_of_reply.
  rewrite Hi.
  cbv beta iota zeta delta [mbind M_bind mret M_ret emit return_ when].
  destruct (Indices_GetMapping (client h) index) as [res|e];
    [|eexists; split; reflexivity].
  destruct (res_IsError res); [eexists; split; reflexivity|].
  destruct (res_Body res) as [mappings|e]; [|eexists; split; reflexivity].
  pose proof (Marshal_mappings_response index mappings) as Hm.
  destruct (Marshal (VMap mappings)) as [j|e].
  - rewrite Hm. eexists; split; reflexivity.
  - destruct Hm as [e' ->]. eexists; split; reflexivity.
Qed.

(** X10: a schema retrieval with its index calls the backend exactly once,
    for the mappings of that index, and its result is read off the answer:
    a transport failure, an error status and a reply that cannot be decoded
    each give their own error; otherwise the text has the index and, under
    [mappings], the encoding of the decoded reply. *)
Theorem schema_retrieval_follows_the_reply
    (h : ElasticsearchHandler) (request : CallToolRequest) (index : string) :
  RequireString request "index" = Ok index ->
  (execute (handleGetMappings h request)).1
  = mappings_of_reply index (Indices_GetMapping (client h) index)
  ∧ backend_calls (execute (handleGetMappings h request)).2 = [ESGetMapping index].
Proof.
  intros Hi. destruct (handleGetMappings_eq h request index Hi) as (e & -> & He).
  split; [done|]. destruct e; done.
Qed.

(** X10 on the simulated cluster, whose mappings are empty. *)
Lemma schema_retrieval_follows_the_reply_witness :
  (execute (handleGetMappings Examples.handler Cases.only_index)).1
  = NewToolResultText
      (JObject (<["index" := JString "logs-*"]> (<["mappings" := JObject ∅]> ∅)))
  ∧ backend_calls (execute (handleGetMappings Examples.handler Cases.only_index)).2
    = [ESGetMapping "logs-*"].
Proof.
  assert (Hi : RequireString Cases.only_index "index" = Ok "logs-*") by reflexivity.
  pose proof (schema_retrieval_follows_the_reply Examples.handler Cases.only_index
                "logs-*" Hi) as [H1 H2].
  split; [|exact H2]. rewrite H1. vm_compute. reflexivity.
Defined.

(** X11: a listing never turns a request down: whatever the arguments, it
    calls the backend exactly once, for the pattern of the request ([*] when
    there is none or it is not a string) in JSON with the fixed columns; its
    result is read off the answer, and its response can always be
    encoded. *)
Theorem listing_follows_the_reply (h : ElasticsearchHandler) (request : CallToolRequest) :
  backend_calls (execute (handleListIndices h request)).2
  = [ESCatIndices (GetString request "pattern" "*") "json" cat_columns]
  ∧ (execute (handleListIndices h request)).1
    = match Cat_Indices (client h) (GetString request "pattern" "*") with
      | Err err => NewToolResultError ("Failed to list indices: " +:+ err)
      | Ok res =>
          if res_IsError res
          then NewToolResultError ("Elasticsearch error: " +:+ res_String res)
          else
            match res_Body res with
            | Err err => NewToolResultError ("Failed to decode response: " +:+ err)
            | Ok indices =>
                NewToolResultText (list_document (GetString request "pattern" "*") indices)
            end
      end
  ∧ ∀ fields, ¬ In (Log ErrorLevel fields "Failed to marshal indices response")
                   (execute (handleListIndices h request)).2.
Proof.
  rewrite handleListIndices_eq. cbv zeta.
  destruct (Cat_Indices (client h) (GetString request "pattern" "*")) as [res|e].
  2:{ split; [done|]. split; [done|]. intros fields [H|[H|[H|[]]]]; discriminate H. }
  destruct (res_IsError res).
  { split; [done|]. split; [done|]. intros fields [H|[H|[H|[]]]]; discriminate H. }
  destruct (res_Body res) as [indices|e];
    (split; [done|]; split; [done|]; intros fields [H|[H|[H|[]]]]; discriminate H).
Qed.

(** ** The configuration *)

Lemma valid_log_level (l : string) :
  default false (validLogLevels !! l) = true <-> In l log_levels.
Proof.
  unfold validLogLevels, log_levels.
  destruct (decide (l = "debug")) as [->|H1]; [by split; [left|]|].
  destruct (decide (l = "info")) as [->|H2]; [by split; [right; left|]|].
  destruct (decide (l = "warn")) as [->|H3]; [by split; [do 2 right; left|]|].
  destruct (decide (l = "error")) as [->|H4]; [by split; [do 3 right; left|]|].
  destruct (decide (l = "fatal")) as [->|H5]; [by split; [do 4 right; left|]|].
  rewrite !lookup_insert_ne, lookup_empty by done. simpl.
  split; [done|]. intros [?|[?|[?|[?|[?|[]]]]]]; congruence.
Qed.

Lemma has_credentials_check (cfg : ElasticsearchConfig) :
  bool_decide (APIKey cfg = EmptyString)
  && (bool_decide (Username cfg = EmptyString) || bool_decide (Password cfg = EmptyString))
  = false <-> has_credentials cfg.
Proof.
  unfold has_credentials. repeat case_bool_decide; simpl; naive_solver.
Qed.

(** [getEnv] never returns the empty text when its default is not empty. *)
Lemma getEnv_not_empty (env : gmap string string) (key d : string) :
  d ≠ EmptyString -> getEnv env key d ≠ EmptyString.
Proof.
  intros Hd. unfold getEnv.
  destruct (decide (Getenv env key = EmptyString)) as [E|E].
  - by rewrite bool_decide_true.
  - by rewrite bool_decide_false.
Qed.

(** X12: [validateConfig] accepts a configuration exactly when its URL is
    not empty, it carries an API key or both a username and a password, and
    its log level is one of debug, info, warn, error and fatal; it checks in
    this order and reports the first check that fails. *)
Theorem validateConfig_accepts (config : Config) :
  (validateConfig config = Ok tt
   <-> URL (Elasticsearch config) ≠ EmptyString
       ∧ has_credentials (Elasticsearch config)
       ∧ In (Level (Logging config)) log_levels)
  ∧ (URL (Elasticsearch config) = EmptyString ->
     validateConfig config = Err "ES_URL environment variable is required")
  ∧ (URL (Elasticsearch config) ≠ EmptyString ->
     ¬ has_credentials (Elasticsearch config) ->
     validateConfig config
     = Err "either ES_API_KEY or ES_USERNAME+ES_PASSWORD must be provided")
  ∧ (URL (Elasticsearch config) ≠ EmptyString ->
     has_credentials (Elasticsearch config) ->
     ¬ In (Level (Logging config)) log_levels ->
     validateConfig config = Err ("invalid log level: " +:+ Level (Logging config))).
Proof.
  unfold validateConfig.
  pose proof (has_credentials_check (Elasticsearch config)) as Hc.
  pose proof (valid_log_level (Level (Logging config))) as Hl.
  destruct (decide (URL (Elasticsearch config) = EmptyString)) as [Eu|Eu].
  { rewrite (bool_decide_true _ Eu). split; [split; [done|tauto]|]. repeat split; intros; try done; exfalso; eauto. }
  rewrite (bool_decide_false _ Eu).
  destruct (bool_decide (APIKey (Elasticsearch config) = EmptyString)
            && (bool_decide (Username (Elasticsearch config) = EmptyString)
                || bool_decide (Password (Elasticsearch config) = EmptyString))).
  { assert (¬ has_credentials (Elasticsearch config)) by (intros H; by apply Hc in H).
    split; [split; [done|tauto]|]. repeat split; intros; try done; exfalso; eauto. }
  assert (has_credentials (Elasticsearch config)) by (by apply Hc).
  destruct (default false (validLogLevels !! Level (Logging config))); cbn [negb].
  - assert (In (Level (Logging config)) log_levels) by (by apply Hl).
    split; [split; [intros _; tauto|done]|]. repeat split; intros; try done; exfalso; eauto.
  - assert (¬ In (Level (Logging config)) log_levels).
    { intros Hin. apply Hl in Hin. done. }
    split; [split; [done|tauto]|]. repeat split; intros; try done; exfalso; eauto.
Qed.

Lemma validateConfig_config_of (env : gmap string string) (version : string) :
  validateConfig (config_of env version) = Ok tt
  <-> has_credentials (elasticsearch_of env)
      ∧ In (getEnv env "MCP_ES_LOG_LEVEL" "info") log_levels.
Proof.
  assert (Hurl : URL (elasticsearch_of env) ≠ EmptyString).
  { simpl. by apply getEnv_not_empty. }
  unfold validateConfig.
  pose proof (has_credentials_check (elasticsearch_of env)) as Hc.
  pose proof (valid_log_level (getEnv env "MCP_ES_LOG_LEVEL" "info")) as Hl.
  change (Elasticsearch (config_of env version)) with (elasticsearch_of env).
  change (Level (Logging (config_of env version)))
    with (getEnv env "MCP_ES_LOG_LEVEL" "info").
  rewrite (bool_decide_false _ Hurl).
  destruct (bool_decide (APIKey (elasticsearch_of env) = EmptyString)
            && (bool_decide (Username (elasticsearch_of env) = EmptyString)
                || bool_decide (Password (elasticsearch_of env) = EmptyString))).
  { split; [done|]. intros [H _]. apply Hc in H. done. }
  destruct (default false (validLogLevels !! getEnv env "MCP_ES_LOG_LEVEL" "info"));
    cbn [negb].
  - split; [|done]. intros _. split; [by apply Hc|by apply Hl].
  - split; [done|]. intros [_ H]. apply Hl in H. done.
Qed.

Lemma loadConfig_eq (env : gmap string string) (version : string) :
  loadConfig env version
  = match validateConfig (config_of env version) with
    | Err err => Err ("invalid configuration: " +:+ err)
    | Ok _ => Ok (config_of env version)
    end.
Proof. reflexivity. Qed.

Lemma loadConfig_Ok_iff (env : gmap string string) (version : string) (cfg : Config) :
  loadConfig env version = Ok cfg
  <-> cfg = config_of env version
      ∧ has_credentials (elasticsearch_of env)
      ∧ In (getEnv env "MCP_ES_LOG_LEVEL" "info") log_levels.
Proof.
  rewrite loadConfig_eq. pose proof (validateConfig_config_of env version) as Hv.
  destruct (validateConfig (config_of env version)) as [[]|e] eqn:E.
  - split.
    + intros [= <-]. split; [done|]. by apply Hv.
    + by intros [-> _].
  - split; [done|]. intros (_ & H1 & H2).
    assert (Err e = Ok tt) as Habs by (by apply Hv). done.
Qed.

(** X13: [loadConfig] succeeds exactly when the environment has an API key
    or both a username and a password, and a log level that is unset, empty
    or one of the five levels; the configuration it returns takes every
    setting from the environment, an empty or unset variable giving the
    default.  It never fails for the URL, which is never empty. *)
Theorem loadConfig_from_the_environment (env : gmap string string) (version : string) :
  (∀ cfg, loadConfig env version = Ok cfg
          <-> cfg = config_of env version
              ∧ has_credentials (elasticsearch_of env)
              ∧ In (getEnv env "MCP_ES_LOG_LEVEL" "info") log_levels)
  ∧ URL (elasticsearch_of env) ≠ EmptyString
  ∧ loadConfig env version
    ≠ Err "invalid configuration: ES_URL environment variable is required"
  ∧ (∀ key d, default EmptyString (env !! key) = EmptyString -> getEnv env key d = d)
  ∧ (∀ key d, default EmptyString (env !! key) ≠ EmptyString ->
              getEnv env key d = default EmptyString (env !! key)).
Proof.
  assert (Hurl : URL (elasticsearch_of env) ≠ EmptyString).
  { simpl. by apply getEnv_not_empty. }
  split; [|split; [done|split; [|split]]].
  - intros cfg. apply loadConfig_Ok_iff.
  - rewrite loadConfig_eq. unfold validateConfig.
    change (Elasticsearch (config_of env version)) with (elasticsearch_of env).
    rewrite (bool_decide_false _ Hurl).
    destruct (_ && _); [done|]. by destruct (negb _).
  - intros key d H. unfold getEnv, Getenv. by rewrite bool_decide_true.
  - intros key d H. unfold getEnv, Getenv. by rewrite bool_decide_false.
Qed.

(** ** The start-up *)

Lemma logged_app (t d : list event) : logged (t ++ d) = logged t ++ logged d.
Proof. apply List.filter_app. Qed.

Section StartUp.

Variable NewClient : esConfig -> outcome Client.
Variable newLogger : LoggingConfig -> outcome unit.

(** The run of [newElasticsearchHandler], case by case. *)
Lemma newElasticsearchHandler_eq (cfg : ElasticsearchConfig) (t0 : list event) :
  exec (newElasticsearchHandler NewClient cfg) t0 =
  let t1 := t0 ++ [Log InfoLevel [Str "url" (URL cfg)] "Creating Elasticsearch client"]
               ++ authentication_log cfg ++ [ESNewClient (selected_config cfg)] in
  match NewClient (selected_config cfg) with
  | Err err =>
      (Err ("error creating elasticsearch client: " +:+ err),
       t1 ++ [Log ErrorLevel [ErrField err] "Failed to create Elasticsearch client"])
  | Ok client =>
      let t2 := t1 ++ [Log DebugLevel [] "Testing Elasticsearch connection"; ESInfo] in
      match Info client with
      | Err err =>
          (Err ("error connecting to elasticsearch: " +:+ err),
           t2 ++ [Log ErrorLevel [ErrField err] "Failed to connect to Elasticsearch"])
      | Ok res =>
          if res_IsError res then
            (Err ("elasticsearch connection error: " +:+ res_String res),
             t2 ++ [Log ErrorLevel [Str "response" (res_String res)]
                      "Elasticsearch connection error"])
          else
            (Ok {| client := client |},
             t2 ++ [Log InfoLevel [] "Elasticsearch connection successful"])
      end
  end.
Proof.
  unfold exec, newElasticsearchHandler, selected_config, authentication_log.
  cbv beta iota zeta delta [mbind M_bind mret M_ret emit return_ when].
  destruct (negb (bool_decide (APIKey cfg = EmptyString)));
    [|destruct (negb (bool_decide (Username cfg = EmptyString))
                && negb (bool_decide (Password cfg = EmptyString)))];
    cbv beta iota; cbn [Addresses esAPIKey esUsername esPassword];
    (match goal with |- context [NewClient ?c] =>
       destruct (NewClient c) as [client|e] end;
     [destruct (Info client) as [res|e]; [destruct (res_IsError res)|]|]);
    rewrite <- ?app_assoc; reflexivity.
Qed.

(** The run of [run], stage by stage. *)
Lemma run_eq (env : gmap string string) (version : string) :
  execute (run NewClient newLogger env version) =
  match loadConfig env version with
  | Err err => (Err ("failed to load configuration: " +:+ err), [])
  | Ok cfg =>
      match newLogger (Logging cfg) with
      | Err err => (Err ("failed to initialize logger: " +:+ err), [])
      | Ok _ =>
          (match (exec (newElasticsearchHandler NewClient (Elasticsearch cfg))
                    [configuration_loaded cfg]).1 with
           | Err err => Err ("failed to initialize Elasticsearch handler: " +:+ err)
           | Ok esHandler => Ok esHandler
           end,
           (exec (newElasticsearchHandler NewClient (Elasticsearch cfg))
              [configuration_loaded cfg]).2)
      end
  end.
Proof.
  unfold execute, run. rewrite exec_bind_eq.
  destruct (loadConfig env version) as [cfg|e]; [|done].
  unfold mret at 1, M_ret at 1. rewrite exec_bind_eq.
  destruct (newLogger (Logging cfg)) as [[]|e]; [|done].
  unfold mret at 1, M_ret at 1. rewrite exec_bind_eq.
  unfold emit at 1. simpl app. rewrite exec_bind_eq. unfold call.
  fold (configuration_loaded cfg).
  destruct (exec (newElasticsearchHandler NewClient (Elasticsearch cfg))
              [configuration_loaded cfg]) as [[esHandler|e] t]; reflexivity.
Qed.

End StartUp.

(** X14: the start-up returns a handler exactly when the environment has
    credentials and a valid log level, the logger can be built, the client
    can be created from the selected credentials, and the one liveness
    check is answered without an error; the handler holds that client. *)
Theorem start_up_succeeds_exactly_when
    (NewClient : esConfig -> outcome Client) (newLogger : LoggingConfig -> outcome unit)
    (env : gmap string string) (version : string) (esHandler : ElasticsearchHandler) :
  (execute (run NewClient newLogger env version)).1 = Ok esHandler
  <-> has_credentials (elasticsearch_of env)
      ∧ In (getEnv env "MCP_ES_LOG_LEVEL" "info") log_levels
      ∧ (∃ log, newLogger (Logging (config_of env version)) = Ok log)
      ∧ NewClient (selected_config (elasticsearch_of env)) = Ok (client esHandler)
      ∧ ∃ res, Info (client esHandler) = Ok res ∧ res_IsError res = false.
Proof.
  rewrite run_eq. pose proof (loadConfig_Ok_iff env version) as Hload.
  destruct (loadConfig env version) as [cfg|e].
  2:{ split; [done|]. intros (Hc & Hl & _).
      assert (Err e = Ok (config_of env version)) as Habs by (by apply Hload). done. }
  destruct (proj1 (Hload cfg) eq_refl) as (-> & Hc & Hl).
  destruct (newLogger (Logging (config_of env version))) as [log|e].
  2:{ split; [done|]. by intros (_ & _ & [log Hlog] & _). }
  rewrite newElasticsearchHandler_eq. cbv zeta.
  change (Elasticsearch (config_of env version)) with (elasticsearch_of env).
  destruct esHandler as [c]. simpl.
  destruct (NewClient (selected_config (elasticsearch_of env))) as [c'|e].
  2:{ split; [done|]. by intros (_ & _ & _ & ? & _). }
  destruct (Info c') as [res|e] eqn:Hi.
  2:{ simpl. split; [done|]. intros (_ & _ & _ & [= ->] & res & Hres & _). congruence. }
  destruct (res_IsError res) eqn:He; simpl.
  { split; [done|]. intros (_ & _ & _ & [= ->] & res' & Hres & He'). congruence. }
  split.
  - intros [= ->]. eauto 10.
  - by intros (_ & _ & _ & [= ->] & _).
Qed.



(** ** The secrets and the log *)

Lemma getEnv_ext (env1 env2 : gmap string string) (key d : string) :
  env1 !! key = env2 !! key -> getEnv env1 key d = getEnv env2 key d.
Proof. unfold getEnv, Getenv. by intros ->. Qed.

(** X16: the API key and the password reach the client library and nothing
    else: two environments that differ only in the values of [ES_API_KEY]
    and [ES_PASSWORD] (each set in both or in neither), and for which the
    client library answers alike, give the same result and hand the same
    events to the logger. *)
Theorem secrets_are_not_logged
    (NewClient : esConfig -> outcome Client) (newLogger : LoggingConfig -> outcome unit)
    (env1 env2 : gmap string string) (version : string) :
  (∀ key, key ≠ "ES_API_KEY" -> key ≠ "ES_PASSWORD" -> env1 !! key = env2 !! key) ->
  (getEnv env1 "ES_API_KEY" EmptyString = EmptyString
   <-> getEnv env2 "ES_API_KEY" EmptyString = EmptyString) ->
  (getEnv env1 "ES_PASSWORD" EmptyString = EmptyString
   <-> getEnv env2 "ES_PASSWORD" EmptyString = EmptyString) ->
  NewClient (selected_config (elasticsearch_of env1))
  = NewClient (selected_config (elasticsearch_of env2)) ->
  (execute (run NewClient newLogger env1 version)).1
  = (execute (run NewClient newLogger env2 version)).1
  ∧ logged (execute (run NewClient newLogger env1 version)).2
    = logged (execute (run NewClient newLogger env2 version)).2.
Proof.
  intros Henv Hkey Hpw Hnc.
  assert (Hget : ∀ key d, key ≠ "ES_API_KEY" -> key ≠ "ES_PASSWORD" ->
                          getEnv env1 key d = getEnv env2 key d).
  { intros key d H1 H2. apply getEnv_ext. by apply Henv. }
  assert (Hk : bool_decide (APIKey (elasticsearch_of env1) = EmptyString)
               = bool_decide (APIKey (elasticsearch_of env2) = EmptyString)).
  { by apply bool_decide_ext. }
  assert (Hp : bool_decide (Password (elasticsearch_of env1) = EmptyString)
               = bool_decide (Password (elasticsearch_of env2) = EmptyString)).
  { by apply bool_decide_ext. }
  assert (Hurl : URL (elasticsearch_of env1) = URL (elasticsearch_of env2)).
  { by apply Hget. }
  assert (Hu : Username (elasticsearch_of env1) = Username (elasticsearch_of env2)).
  { by apply Hget. }
  assert (Hserver : Server (config_of env1 version) = Server (config_of env2 version)).
  { simpl. by rewrite (Hget "MCP_ES_SERVER_NAME"). }
  assert (Hlogging : Logging (config_of env1 version) = Logging (config_of env2 version)).
  { simpl. by rewrite (Hget "MCP_ES_LOG_LEVEL"), (Hget "MCP_ES_LOG_FORMAT"),
      (Hget "MCP_ES_LOG_OUTPUT"). }
  assert (Hvalid : validateConfig (config_of env1 version)
                   = validateConfig (config_of env2 version)).
  { unfold validateConfig. rewrite Hlogging.
    change (Elasticsearch (config_of env1 version)) with (elasticsearch_of env1).
    change (Elasticsearch (config_of env2 version)) with (elasticsearch_of env2).
    by rewrite Hk, Hp, Hurl, Hu. }
  assert (Hloaded : configuration_loaded (config_of env1 version)
                    = configuration_loaded (config_of env2 version)).
  { unfold configuration_loaded. rewrite Hserver, Hlogging.
    change (Elasticsearch (config_of env1 version)) with (elasticsearch_of env1).
    change (Elasticsearch (config_of env2 version)) with (elasticsearch_of env2).
    by rewrite Hk, Hurl, Hu. }
  assert (Hauth : authentication_log (elasticsearch_of env1)
                  = authentication_log (elasticsearch_of env2)).
  { unfold authentication_log. by rewrite Hk, Hp, Hu. }
  rewrite !run_eq, !loadConfig_eq, Hvalid.
  destruct (validateConfig (config_of env2 version)) as [[]|e]; [|done].
  rewrite Hlogging.
  destruct (newLogger (Logging (config_of env2 version))) as [log|e]; [|done].
  rewrite !newElasticsearchHandler_eq. cbv zeta.
  change (Elasticsearch (config_of env1 version)) with (elasticsearch_of env1).
  change (Elasticsearch (config_of env2 version)) with (elasticsearch_of env2).
  rewrite Hnc, Hloaded, Hauth, Hurl.
  destruct (NewClient (selected_config (elasticsearch_of env2))) as [c|e].
  2:{ cbn [fst snd]. split; [done|]. by rewrite !logged_app. }
  destruct (Info c) as [res|e].
  2:{ cbn [fst snd]. split; [done|]. by rewrite !logged_app. }
  destruct (res_IsError res); cbn [fst snd]; (split; [done|]); by rewrite !logged_app.
Qed.

(** X16 on two environments with the same user and different passwords. *)
Lemma secrets_are_not_logged_witness :
  Cases.basic_auth !! "ES_PASSWORD" ≠ Cases.basic_auth' !! "ES_PASSWORD"
  ∧ logged (execute (run Examples.new_client Examples.new_logger Cases.basic_auth "dev")).2
    = logged (execute (run Examples.new_client Examples.new_logger Cases.basic_auth' "dev")).2.
Proof.
  split; [vm_compute; discriminate|].
  apply (secrets_are_not_logged Examples.new_client Examples.new_logger
           Cases.basic_auth Cases.basic_auth' "dev").
  - intros key H1 H2. unfold Cases.basic_auth, Cases.basic_auth'. simpl.
    destruct (decide (key = "ES_USERNAME")) as [->|H3].
    + reflexivity.
    + rewrite !lookup_insert_ne by done. reflexivity.
  - split; intros _; reflexivity.
  - split; intros H; vm_compute in H; discriminate H.
  - reflexivity.
Defined.

(** ** The reduced variant of the search *)

(** A map whose values can all be encoded can be encoded. *)
Lemma Marshal_map_all_Ok (sr : gmap string value) :
  (∀ k v, sr !! k = Some v -> ∃ j, Marshal v = Ok j) ->
  ∃ m, Marshal (VMap (Some sr)) = Ok (JObject m) ∧ Marshal <$> sr = Ok <$> m.
Proof.
  intros Hall.
  assert (H : Marshal <$> sr = Ok <$> omap (fun v => get_ok (Marshal v)) sr).
  { apply map_eq. intros k. rewrite !lookup_fmap, lookup_omap.
    destruct (sr !! k) as [v|] eqn:E; [|done]. simpl.
    destruct (Hall k v E) as [j ->]. done. }
  eexists. split; [|exact H]. by apply Marshal_map_intro.
Qed.

Section ReducedSearch.

Variable Unmarshal : string -> outcome value.
Variable UnmarshalMap : string -> outcome gomap.
Variable h : ElasticsearchHandler.
Variable request : CallToolRequest.

Lemma reduced_execute_search_calls (index : string) (sr : gmap string value) (tth : bool)
    (body : json) (t : list event) :
  Marshal (VMap (Some sr)) = Ok body ->
  ∃ x d, Reduced.execute_search h index sr tth t
         = (x, t ++ [Log DebugLevel [RawJSON "search_body" body] "Search request body";
                     ESSearch index body tth true None] ++ d)
         ∧ backend_calls d = [].
Proof.
  intros Hm. unfold Reduced.execute_search. rewrite Hm.
  cbv beta iota zeta delta [mbind M_bind mret M_ret emit return_ when].
  destruct (Search _ _ _ _ _) as [res|e];
    [|eexists _, [_]; split; [rewrite <- !app_assoc; reflexivity|done]].
  destruct (res_IsError res);
    [eexists _, [_]; split; [rewrite <- !app_assoc; reflexivity|done]|].
  destruct (res_Body res) as [reply|e].
  - eexists _, []. split; [rewrite <- !app_assoc; reflexivity|done].
  - eexists _, [_]. split; [rewrite <- !app_assoc; reflexivity|done].
Qed.

Lemma reduced_respond_calls (index : string) (reply : SearchResponse) (t : list event) :
  ∃ r d, exec (Reduced.respond index reply) t = (r, t ++ d) ∧ backend_calls d = [].
Proof.
  unfold exec, Reduced.respond.
  cbv beta iota zeta delta [mbind M_bind mret M_ret emit return_ when].
  destruct (Marshal _) as [doc|e]; eexists _, [_]; by split.
Qed.

(** The reduced variant dispatches a request whose index, size, query and
    sort are accepted. *)
Lemma reduced_handleSearch_dispatches (index : string) (q : gomap) (o : option value)
    (body : json) :
  RequireString request "index" = Ok index ->
  (GetInt request "size" 10 <? 0) || (GetInt request "size" 10 >? 10000) = false ->
  UnmarshalMap (GetString request "query" "{}") = Ok q ->
  field_ok (GetString request "sort" EmptyString)
    (Unmarshal (GetString request "sort" EmptyString)) o ->
  Marshal (VMap (Some (insert_opt "sort" o
                         (Reduced.build_search_request q (GetInt request "size" 10)
                            (GetBool request "track_total_hits" true))))) = Ok body ->
  backend_calls (execute (Reduced.handleSearch Unmarshal UnmarshalMap h request)).2
  = [ESSearch index body (GetBool request "track_total_hits" true) true None].
Proof.
  intros Hi Hsize Hq Ho Hm. unfold execute, Reduced.handleSearch.
  rewrite exec_bind_eq, require_index_eq, Hi.
  rewrite exec_bind_eq. unfold emit at 1. simpl app.
  rewrite exec_bind_eq. unfold Reduced.validate_size, when. rewrite Hsize.
  unfold mret at 1, M_ret at 1.
  rewrite exec_bind_eq. unfold Reduced.parse_query, unmarshal_map.
  rewrite !bind_eq. unfold emit at 1, mret at 1, M_ret at 1. rewrite Hq.
  unfold mret at 1, M_ret at 1.
  rewrite exec_bind_eq, (add_sort_ok Unmarshal _ _ o) by exact Ho.
  rewrite exec_bind_eq.
  match goal with |- context [Reduced.execute_search h index ?sr ?tth ?t] =>
    set (t0 := t);
    assert (Ht0 : backend_calls t0 = [])
      by (unfold t0; rewrite !backend_calls_app, backend_calls_calls; done);
    clearbody t0;
    destruct (reduced_execute_search_calls index sr tth body t0 Hm) as (x & d & -> & Hd)
  end.
  destruct x as [r|reply].
  - cbn [snd]. rewrite !backend_calls_app, Ht0, Hd. done.
  - match goal with |- context [exec (Reduced.respond index reply) ?t] =>
      destruct (reduced_respond_calls index reply t) as (r & d' & -> & Hd') end.
    cbn [snd]. rewrite !backend_calls_app, Ht0, Hd, Hd'. done.
Qed.

Lemma reduced_build_search_request_lookup (q : gomap) (size : Z) (tth : bool) (k : string) :
  Reduced.build_search_request q size tth !! k
  = if decide (k = "query") then Some (VMap q)
    else if decide (k = "size") then Some (VInt size)
    else if decide (k = "track_total_hits") then (if tth then Some (VBool true) else None)
    else None.
Proof.
  unfold Reduced.build_search_request.
  destruct (decide (k = "query")) as [->|H1]; [by destruct tth; simplify_map_eq|].
  destruct (decide (k = "size")) as [->|H2]; [by destruct tth; simplify_map_eq|].
  destruct (decide (k = "track_total_hits")) as [->|H3]; [by destruct tth; simplify_map_eq|].
  destruct tth; by rewrite ?lookup_insert_ne, lookup_empty by done.
Qed.

End ReducedSearch.

(** X17: the reduced variant of the search reads the index, the query, the
    size, the sort and [track_total_hits] and nothing else: two requests
    that agree on these five arguments run alike, so that [from], [aggs],
    [_source], [highlight] and [timeout] have no effect on it. *)
Theorem reduced_search_reads_five_arguments
    (Unmarshal : string -> outcome value) (UnmarshalMap : string -> outcome gomap)
    (h : ElasticsearchHandler) (r1 r2 : CallToolRequest) :
  (∀ k, In k ["index"; "query"; "size"; "sort"; "track_total_hits"] ->
        Arguments r1 !! k = Arguments r2 !! k) ->
  ∀ t, Reduced.handleSearch Unmarshal UnmarshalMap h r1 t
       = Reduced.handleSearch Unmarshal UnmarshalMap h r2 t.
Proof.
  intros H t. unfold Reduced.handleSearch, require_index.
  rewrite (RequireString_lookup r1 r2 "index") by (apply H; simpl; tauto).
  rewrite (GetString_lookup r1 r2 "query") by (apply H; simpl; tauto).
  rewrite (GetInt_lookup r1 r2 "size") by (apply H; simpl; tauto).
  rewrite (GetString_lookup r1 r2 "sort") by (apply H; simpl; tauto).
  rewrite (GetBool_lookup r1 r2 "track_total_hits") by (apply H; simpl; tauto).
  reflexivity.
Qed.

(** X17 on the search of the round trip, with and without an offset. *)
Lemma reduced_search_reads_five_arguments_witness :
  execute (Reduced.handleSearch encoding_json.Unmarshal encoding_json.UnmarshalMap
             Examples.handler
             (with_argument "from" (Examples.number 20) Examples.round_trip))
  = execute (Reduced.handleSearch encoding_json.Unmarshal encoding_json.UnmarshalMap
               Examples.handler Examples.round_trip)
  ∧ Arguments (with_argument "from" (Examples.number 20) Examples.round_trip) !! "from"
    ≠ Arguments Examples.round_trip !! "from".
Proof.
  split; [|vm_compute; discriminate].
  unfold execute, exec.
  rewrite (reduced_search_reads_five_arguments encoding_json.Unmarshal
             encoding_json.UnmarshalMap Examples.handler
             (with_argument "from" (Examples.number 20) Examples.round_trip)
             Examples.round_trip); [reflexivity|].
  intros k Hk. apply with_argument_other. intros <-.
  simpl in Hk. repeat (destruct Hk as [Hk|Hk]; [discriminate Hk|]). exact Hk.
Defined.

(** X18: the search extends its reduced variant: whenever the search
    dispatches a request whose query text is decoded to a map with entries,
    the reduced variant dispatches a request too, to the same index and
    with the same [track_total_hits], and its body is the body of the
    search cut down to the keys [query], [size], [track_total_hits] and
    [sort]. *)
Theorem search_extends_its_reduced_variant
    (Unmarshal : string -> outcome value) (UnmarshalMap : string -> outcome gomap)
    (h : ElasticsearchHandler) (request : CallToolRequest)
    (index : string) (body : json) (trackTotalHits pretty : bool) (timeout : option string) :
  In (ESSearch index body trackTotalHits pretty timeout)
     (execute (handleSearch Unmarshal UnmarshalMap h request)).2 ->
  handed request QueryField = true ->
  (∀ q, UnmarshalMap (text request QueryField) = Ok q -> len_map q ≠ 0) ->
  ∃ body' m m',
    backend_calls (execute (Reduced.handleSearch Unmarshal UnmarshalMap h request)).2
    = [ESSearch index body' trackTotalHits true None]
    ∧ body = JObject m
    ∧ body' = JObject m'
    ∧ (∀ k, In k common_keys -> m' !! k = m !! k)
    ∧ (∀ k, ¬ In k common_keys -> m' !! k = None).
Proof.
  intros Hin Hhanded Hlen.
  apply dispatched_request in Hin as (sr & Hsr & Hm & Hi & Hrej & -> & _ & _).
  destruct Hsr as (q0 & o1 & o2 & o3 & o4 & Hq & H1 & _ & _ & _ & Hsr).
  unfold handed, text in Hhanded. cbn [param] in Hhanded.
  unfold query_ok in Hq. rewrite Hhanded in Hq. destruct Hq as (q & Hq & ->).
  assert (Hne : (len_map q =? 0) = false).
  { apply Z.eqb_neq. apply Hlen. exact Hq. }
  rewrite Hne in Hsr.
  apply Marshal_map_Ok in Hm as (m & -> & Hm).
  set (sr' := insert_opt "sort" o1
                (Reduced.build_search_request q (GetInt request "size" 10)
                   (GetBool request "track_total_hits" true))).
  assert (Hlook : ∀ k, sr' !! k = if bool_decide (In k common_keys) then sr !! k else None).
  { intros k. unfold sr'. rewrite Hsr, !lookup_insert_opt.
    rewrite reduced_build_search_request_lookup.
    destruct (decide ("sort" = k)) as [<-|Hs].
    { rewrite bool_decide_true by (simpl; tauto).
      repeat (destruct (decide _) as [?|?]; [done|]).
      destruct o1; [done|].
      rewrite build_search_request_other by done. by repeat case_match. }
    repeat (destruct (decide (_ = k)) as [<-|?];
            [rewrite bool_decide_false; [by repeat case_match|simpl; intuition congruence]|]).
    destruct (decide (k = "query")) as [->|?].
    { rewrite bool_decide_true by (simpl; tauto). by rewrite build_search_request_query. }
    destruct (decide (k = "size")) as [->|?].
    { rewrite bool_decide_true by (simpl; tauto). by rewrite build_search_request_size. }
    destruct (decide (k = "track_total_hits")) as [->|?].
    { rewrite bool_decide_true by (simpl; tauto).
      by rewrite build_search_request_track_total_hits. }
    by rewrite bool_decide_false by (simpl; intuition congruence). }
  destruct (Marshal_map_all_Ok sr') as (m' & Hm' & Hm'').
  { intros k v Hk. rewrite Hlook in Hk. case_bool_decide; [|done].
    destruct (Marshal_lookup_Some _ _ _ _ Hm Hk) as (j & Hj & _). eauto. }
  exists (JObject m'), m, m'.
  split.
  { apply (reduced_handleSearch_dispatches Unmarshal UnmarshalMap h request index q o1).
    - exact Hi.
    - unfold rejected in Hrej. rewrite !orb_false_iff in Hrej.
      apply orb_false_iff. tauto.
    - exact Hq.
    - exact H1.
    - exact Hm'. }
  do 2 (split; [done|]). split.
  - intros k Hk. pose proof (Hlook k) as Hl. rewrite bool_decide_true in Hl by done.
    pose proof (Marshal_map_lookup _ _ k Hm) as Ha.
    pose proof (Marshal_map_lookup _ _ k Hm'') as Hb.
    rewrite Hl in Hb. destruct (sr !! k) as [v|].
    + destruct Ha as (j & Hj & ->). destruct Hb as (j' & Hj' & ->). congruence.
    + congruence.
  - intros k Hk. apply (Marshal_lookup_None _ _ _ Hm'').
    rewrite Hlook. by rewrite bool_decide_false.
Qed.

(** X18 on the search of the round trip. *)
Lemma search_extends_its_reduced_variant_witness :
  ∃ body body' m m',
    In (ESSearch "logs-*" body true true None)
       (execute (Examples.search Examples.handler Examples.round_trip)).2
    ∧ backend_calls (execute (Reduced.handleSearch encoding_json.Unmarshal
                                encoding_json.UnmarshalMap Examples.handler
                                Examples.round_trip)).2
      = [ESSearch "logs-*" body' true true None]
    ∧ body = JObject m ∧ body' = JObject m'
    ∧ m' !! "query" = m !! "query"
    ∧ m !! "from" = Some (JInt 0)
    ∧ m' !! "from" = None.
Proof.
  assert (Hin : ∃ body,
             In (ESSearch "logs-*" body true true None)
                (execute (Examples.search Examples.handler Examples.round_trip)).2
             ∧ ∃ m, body = JObject m ∧ m !! "from" = Some (JInt 0)).
  { eexists. split; [vm_compute; do 3 right; left; reflexivity|].
    eexists. split; [reflexivity|]. vm_compute. reflexivity. }
  destruct Hin as (body & Hin & m0 & Hb0 & Hfrom).
  destruct (search_extends_its_reduced_variant encoding_json.Unmarshal
              encoding_json.UnmarshalMap Examples.handler Examples.round_trip
              "logs-*" body true true None Hin) as (body' & m & m' & Hc & Hb & Hb' & Hk & Hn).
  { vm_compute. reflexivity. }
  { intros q Hq. vm_compute in Hq. injection Hq as <-. vm_compute. discriminate. }
  exists body, body', m, m'. split; [exact Hin|]. split; [exact Hc|].
  split; [exact Hb|]. split; [exact Hb'|].
  split; [apply Hk; left; reflexivity|].
  split.
  - rewrite Hb in Hb0. injection Hb0 as ->. exact Hfrom.
  - apply Hn. simpl. intros [H|[H|[H|[H|[]]]]]; discriminate H.
Defined.

(** X19: [size] and [from] are checked before any JSON field is looked
    at: when their sum does not overflow and the pair is outside the
    bounds [0 <= size <= 10000], [0 <= from], [from + size <= 10000], the
    search ends at once with the error of the first guard that fires (size,
    then from, then the sum); neither the decoder nor the backend is
    called. *)
Theorem size_and_from_are_checked_first
    (Unmarshal : string -> outcome value) (UnmarshalMap : string -> outcome gomap)
    (h : ElasticsearchHandler) (request : CallToolRequest) (index : string) :
  RequireString request "index" = Ok index ->
  in_range (GetInt request "from" 0 + GetInt request "size" 10) ->
  ¬ (0 <= GetInt request "size" 10 <= 10000
     ∧ 0 <= GetInt request "from" 0
     ∧ GetInt request "from" 0 + GetInt request "size" 10 <= 10000) ->
  execute (handleSearch Unmarshal UnmarshalMap h request)
  = (NewToolResultError
       (if (GetInt request "size" 10 <? 0) || (GetInt request "size" 10 >? 10000)
        then "Size parameter must be between 0 and 10000"
        else if GetInt request "from" 0 <? 0 then "From parameter must be >= 0"
        else "from + size must not exceed 10000"),
     [executing_search request index]).
Proof.
  intros Hi Hrange Hout.
  assert (Hrej : rejected (GetInt request "size" 10) (GetInt request "from" 0) = true).
  { destruct (rejected _ _) eqn:E; [done|].
    apply rejected_without_overflow in E; done. }
  exact (rejected_fails_fast Unmarshal UnmarshalMap h request index Hi Hrej).
Qed.

(** X19 on a search with a malformed query and a negative size: the size
    is reported. *)
Lemma size_and_from_are_checked_first_witness :
  execute (Examples.search Examples.handler Examples.truncated_query_negative_size)
  = (NewToolResultError "Size parameter must be between 0 and 10000",
     [executing_search Examples.truncated_query_negative_size "logs-*"]).
Proof.
  apply (size_and_from_are_checked_first encoding_json.Unmarshal encoding_json.UnmarshalMap
           Examples.handler Examples.truncated_query_negative_size "logs-*").
  - reflexivity.
  - vm_compute. split; discriminate.
  - vm_compute. intros [[H _] _]. apply H. reflexivity.
Defined.

(** ** Decoding, then encoding *)

(** Induction on a syntax tree, with the hypothesis for every member. *)
Lemma raw_induction (P : encoding_json.raw -> Prop) :
  P encoding_json.RNull ->
  (∀ b, P (encoding_json.RBool b)) ->
  (∀ lit, P (encoding_json.RNumber lit)) ->
  (∀ s, P (encoding_json.RString s)) ->
  (∀ l, Forall P l -> P (encoding_json.RArray l)) ->
  (∀ l, Forall (fun kv => P kv.2) l -> P (encoding_json.RObject l)) ->
  ∀ r, P r.
Proof.
  intros Hnull Hbool Hnum Hstr Harr Hobj.
  fix IH 1. intros [| b | lit | s | l | l].
  - exact Hnull.
  - apply Hbool.
  - apply Hnum.
  - apply Hstr.
  - apply Harr. induction l as [|r l IHl]; constructor; [apply IH|exact IHl].
  - apply Hobj. induction l as [|[k r] l IHl]; constructor; [apply IH|exact IHl].
Qed.

Lemma sequence_list_encodable (vs : list value) :
  Forall encodable vs -> ∃ js, sequence_list (map Marshal vs) = Ok js.
Proof.
  induction 1 as [|v vs [j Hj] _ [js Hjs]]; simpl; [by eexists|].
  rewrite Hj, Hjs. by eexists.
Qed.

Lemma collect_encodable (l : list (string * outcome value)) :
  Forall (fun kv => ∀ v, kv.2 = Ok v -> encodable v) l ->
  ∀ acc m : gmap string value,
    (∀ k v, acc !! k = Some v -> encodable v) ->
    foldl (fun (acc : outcome (gmap string value)) (kv : string * outcome value) =>
             match acc with
             | Err err => Err err
             | Ok m =>
                 match kv.2 with
                 | Err err => Err err
                 | Ok v => Ok (<[kv.1 := v]> m)
                 end
             end) (Ok acc) l = Ok m ->
    ∀ k v, m !! k = Some v -> encodable v.
Proof.
  induction 1 as [|[k0 r0] l Hr _ IH]; intros acc m Hacc; simpl.
  - by intros [= <-].
  - destruct r0 as [v0|e]; simpl.
    + apply IH. intros k v. destruct (decide (k0 = k)) as [<-|Hk].
      * rewrite lookup_insert_eq. intros [= <-]. by apply Hr.
      * rewrite lookup_insert_ne by done. apply Hacc.
    + intros H. exfalso. clear -H. induction l as [|kv l IHl]; simpl in H; [done|auto].
Qed.

(** What the decoder returns can be encoded: its numbers are finite. *)
Lemma valueInterface_encodable (r : encoding_json.raw) :
  ∀ v, encoding_json.valueInterface r = Ok v -> encodable v.
Proof.
  induction r as [| b | lit | s | l IH | l IH] using raw_induction; intros v; simpl.
  - intros [= <-]. by eexists.
  - intros [= <-]. by eexists.
  - unfold encoding_json.convertNumber.
    destruct (encoding_json.decimal_of lit) as [[neg d] k].
    destruct (GoFloat.is_finite _) eqn:E; [|done].
    intros [= <-]. unfold encodable. simpl. unfold marshal_float. rewrite E. by eexists.
  - intros [= <-]. by eexists.
  - destruct (sequence_list _) as [vs|e] eqn:E; [|done]. simpl. intros [= <-].
    apply sequence_list_Ok in E.
    assert (Hall : Forall encodable vs).
    { clear -IH E. revert vs E. induction IH as [|r l Hr _ IHl]; intros [|v vs] E;
        simpl in E; try done; try (by constructor).
      injection E as E1 E2. constructor; [by apply Hr|by apply IHl]. }
    destruct (sequence_list_encodable vs Hall) as [js Hjs].
    unfold encodable. simpl. rewrite Hjs. by eexists.
  - unfold encoding_json.collect.
    destruct (foldl _ _ _) as [m|e] eqn:E; [|done]. simpl. intros [= <-].
    destruct (Marshal_map_all_Ok m) as (jm & Hjm & _); [|by eexists].
    apply (collect_encodable
             (map (fun kv : string * encoding_json.raw =>
                     (kv.1, encoding_json.valueInterface kv.2)) l)) with (acc := ∅) (m := m);
      [|done|exact E].
    apply List.Forall_map. exact IH.
Qed.

Lemma Unmarshal_encodable (s : string) (v : value) :
  encoding_json.Unmarshal s = Ok v -> encodable v.
Proof.
  unfold encoding_json.Unmarshal. destruct (encoding_json.scan s) as [r|e]; [|done].
  apply valueInterface_encodable.
Qed.

Lemma UnmarshalMap_encodable (s : string) (q : gomap) :
  encoding_json.UnmarshalMap s = Ok q -> encodable (VMap q).
Proof.
  unfold encoding_json.UnmarshalMap.
  destruct (encoding_json.scan s) as [[| b | lit | str | l | l]|e]; try done.
  - intros [= <-]. by eexists.
  - intros H.
    assert (Hv : encoding_json.valueInterface (encoding_json.RObject l) = Ok (VMap q)).
    { simpl. revert H. destruct (encoding_json.collect _) as [m|e]; [|done].
      simpl. by intros [= <-]. }
    by apply valueInterface_encodable in Hv.
Qed.

Lemma encodable_insert (m : gmap string value) (i : string) (x : value) :
  encodable x ->
  (∀ k v, m !! k = Some v -> encodable v) ->
  ∀ k v, <[i := x]> m !! k = Some v -> encodable v.
Proof.
  intros Hx Hm k v. destruct (decide (i = k)) as [<-|Hk].
  - rewrite lookup_insert_eq. by intros [= <-].
  - rewrite lookup_insert_ne by done. apply Hm.
Qed.

Lemma encodable_insert_opt (m : gmap string value) (i : string) (o : option value) :
  (∀ x, o = Some x -> encodable x) ->
  (∀ k v, m !! k = Some v -> encodable v) ->
  ∀ k v, insert_opt i o m !! k = Some v -> encodable v.
Proof.
  intros Ho Hm. destruct o as [x|]; simpl; [|done].
  apply encodable_insert; [by apply Ho|done].
Qed.

Lemma encodable_build_search_request (q : gomap) (size from : Z) (tth : bool)
    (timeout : string) :
  encodable (VMap q) ->
  ∀ k v, build_search_request q size from tth timeout !! k = Some v -> encodable v.
Proof.
  intros Hq. unfold build_search_request.
  assert (H0 : ∀ k v, (<["query" := VMap q]>
                       (<["size" := VInt size]> (<["from" := VInt from]> ∅))
                       : gmap string value) !! k = Some v -> encodable v).
  { apply encodable_insert; [done|]. apply encodable_insert; [by eexists|].
    apply encodable_insert; [by eexists|]. intros k v. by rewrite lookup_empty. }
  assert (H1 : ∀ k v, (if tth
                       then <["track_total_hits" := VBool true]>
                              (<["query" := VMap q]>
                               (<["size" := VInt size]> (<["from" := VInt from]> ∅)))
                       else <["query" := VMap q]>
                              (<["size" := VInt size]> (<["from" := VInt from]> ∅))
                       : gmap string value) !! k = Some v -> encodable v).
  { destruct tth; [|done]. apply encodable_insert; [by eexists|done]. }
  destruct (negb _); [|done]. apply encodable_insert; [by eexists|done].
Qed.

(** With Go's decoder, an assembled request can be encoded. *)
Lemma assembled_can_be_encoded (request : CallToolRequest) (sr : gmap string value) :
  assembled encoding_json.Unmarshal encoding_json.UnmarshalMap request sr ->
  ∃ m, Marshal (VMap (Some sr)) = Ok (JObject m).
Proof.
  intros (q & o1 & o2 & o3 & o4 & Hq & H1 & H2 & H3 & H4 & ->).
  assert (Hfield : ∀ s r o, field_ok s r o -> (∀ v, r = Ok v -> encodable v) ->
                            ∀ x, o = Some x -> encodable x).
  { intros s r o Hf Hr x ->. unfold field_ok in Hf. destruct (decoded s); [|done].
    destruct Hf as (v & Hv & [= <-]). by apply Hr. }
  assert (HM : ∀ s v, outcome_map VMap (encoding_json.UnmarshalMap s) = Ok v -> encodable v).
  { intros s v. destruct (encoding_json.UnmarshalMap s) as [m|e] eqn:E; [|done].
    simpl. intros [= <-]. by apply (UnmarshalMap_encodable s). }
  assert (Hquery : encodable (VMap q)).
  { unfold query_ok in Hq. destruct (query_decoded _).
    - destruct Hq as (q0 & Hq0 & ->). destruct (len_map q0 =? 0).
      + eexists. apply Marshal_match_all.
      + by apply UnmarshalMap_encodable in Hq0.
    - subst q. eexists. apply Marshal_match_all. }
  destruct (Marshal_map_all_Ok
              (insert_opt "highlight" o4 (insert_opt "_source" o3 (insert_opt "aggs" o2
                 (insert_opt "sort" o1
                    (build_search_request q (GetInt request "size" 10)
                       (GetInt request "from" 0) (GetBool request "track_total_hits" true)
                       (GetString request "timeout" EmptyString)))))))
    as (m & Hm & _); [|by exists m].
  apply encodable_insert_opt; [apply (Hfield _ _ _ H4), HM|].
  apply encodable_insert_opt; [apply (Hfield _ _ _ H3), Unmarshal_encodable|].
  apply encodable_insert_opt; [apply (Hfield _ _ _ H2), HM|].
  apply encodable_insert_opt; [apply (Hfield _ _ _ H1), Unmarshal_encodable|].
  by apply encodable_build_search_request.
Qed.

(** X20: with Go's JSON decoder, what the handler assembles can always be
    encoded, so that a search with its index, with [size] and [from] within
    the guards and with fields that decode always reaches the backend, once. *)
Theorem valid_search_reaches_the_backend
    (h : ElasticsearchHandler) (request : CallToolRequest) (index : string) :
  RequireString request "index" = Ok index ->
  rejected (GetInt request "size" 10) (GetInt request "from" 0) = false ->
  (∀ f, decode_error encoding_json.Unmarshal encoding_json.UnmarshalMap request f = None) ->
  ∃ m,
    backend_calls
      (execute (handleSearch encoding_json.Unmarshal encoding_json.UnmarshalMap h request)).2
    = [ESSearch index (JObject m) (GetBool request "track_total_hits" true) true
         (timeoutOption request)]
    ∧ (execute (handleSearch encoding_json.Unmarshal encoding_json.UnmarshalMap h request)).1
      ≠ NewToolResultError "Failed to create search request".
Proof.
  intros Hi Hrej Hdec.
  destruct (assembled_of_no_error _ _ request Hdec) as [sr Hsr].
  destruct (assembled_can_be_encoded request sr Hsr) as [m Hm].
  pose proof (handleSearch_dispatch_eq encoding_json.Unmarshal encoding_json.UnmarshalMap
                h request index sr Hi Hrej Hsr) as H.
  rewrite Hm in H. destruct H as (d & -> & Hd & Hu).
  exists m. split.
  - by destruct (dispatched_calls request index (JObject m) d Hd Hu).
  - simpl. unfold result_of_reply. repeat case_match; discriminate.
Qed.

(** X20 on the search with every optional field set. *)
Lemma valid_search_reaches_the_backend_witness :
  ∃ m,
    backend_calls (execute (Examples.search Examples.handler Cases.full)).2
    = [ESSearch "logs-*" (JObject m) false true (Some "5s")].
Proof.
  destruct (valid_search_reaches_the_backend Examples.handler Cases.full "logs-*")
    as (m & Hm & _).
  - reflexivity.
  - vm_compute. reflexivity.
  - intros []; vm_compute; reflexivity.
  - exists m. exact Hm.
Defined.

(** ** The document and the log of a successful search *)

Section Success.

Variable Unmarshal : string -> outcome value.
Variable UnmarshalMap : string -> outcome gomap.
Variable h : ElasticsearchHandler.
Variable request : CallToolRequest.

(** The end of the handler, with what it logs. *)
Lemma respond_eq (index : string) (reply : SearchResponse) (t : list event) :
  exec (respond index reply (GetInt request "from" 0) (GetInt request "size" 10)) t
  = match Marshal (VMap (Some (response_of request index reply))) with
    | Err err =>
        (NewToolResultError "Failed to marshal result to JSON",
         t ++ aggregations_found reply
         ++ [Log ErrorLevel [ErrField err] "Failed to marshal search response"])
    | Ok doc =>
        (NewToolResultText doc,
         t ++ aggregations_found reply ++ [search_executed index reply])
    end.
Proof.
  unfold exec, respond, build_response, response_of, aggregations_found, search_executed.
  rewrite bind_eq.
  destruct (negb _ && _);
    cbv beta iota zeta delta [mbind M_bind mret M_ret emit return_ when];
    destruct (Marshal _); rewrite <- ?app_assoc; reflexivity.
Qed.

(** The run of a search that returns a text. *)
Lemma handleSearch_success (doc : json) (t : list event) :
  execute (handleSearch Unmarshal UnmarshalMap h request) = (NewToolResultText doc, t) ->
  ∃ index body res reply,
    RequireString request "index" = Ok index
    ∧ Search (client h) index body (GetBool request "track_total_hits" true)
        (timeoutOption request) = Ok res
    ∧ res_IsError res = false
    ∧ res_Body res = Ok reply
    ∧ Marshal (VMap (Some (response_of request index reply))) = Ok doc
    ∧ t = executing_search request index :: decoder_calls request
          ++ [Log DebugLevel [RawJSON "search_body" body] "Search request body";
              ESSearch index body (GetBool request "track_total_hits" true) true
                (timeoutOption request)]
          ++ aggregations_found reply ++ [search_executed index reply].
Proof.
  intros E. pose proof E as E0.
  apply handleSearch_outcomes in E0
    as [[_ [msg [=]]]|(index & sr & body & Hi & Hrej & Hsr & Hm & _ & _)].
  rewrite (handleSearch_reaches_dispatch Unmarshal UnmarshalMap h request index sr
             Hi Hrej Hsr) in E.
  rewrite exec_bind_eq, execute_search_eq, Hm in E. cbv zeta in E.
  change (if decoded (GetString request "timeout" EmptyString)
          then Some (GetString request "timeout" EmptyString) else None)
    with (timeoutOption request) in E.
  destruct (Search _ _ _ _ _) as [res|e] eqn:Hs; [|done].
  destruct (res_IsError res) eqn:He; [done|].
  destruct (res_Body res) as [reply|e] eqn:Hb; [|done].
  rewrite respond_eq in E.
  destruct (Marshal (VMap (Some (response_of request index reply)))) as [doc'|e] eqn:Hd;
    [|done].
  injection E as <- <-.
  exists index, body, res, reply. do 5 (split; [done|]).
  simpl. by rewrite <- !app_assoc.
Qed.

End Success.

(** X21: the document a search returns has the keys [index], [took],
    [timed_out], [total_hits], [max_score], [hits], [shards], [from] and
    [size], with [aggregations] at most, and no other key; [index] is the
    index of the request, and [took], [timed_out], [total_hits] and
    [shards] are those of the backend's reply. *)
Theorem search_result_document
    (Unmarshal : string -> outcome value) (UnmarshalMap : string -> outcome gomap)
    (h : ElasticsearchHandler) (request : CallToolRequest) (doc : json) (t : list event) :
  execute (handleSearch Unmarshal UnmarshalMap h request) = (NewToolResultText doc, t) ->
  ∃ index body res reply m,
    RequireString request "index" = Ok index
    ∧ In (ESSearch index body (GetBool request "track_total_hits" true) true
          (timeoutOption request)) t
    ∧ Search (client h) index body (GetBool request "track_total_hits" true)
        (timeoutOption request) = Ok res
    ∧ res_Body res = Ok reply
    ∧ doc = JObject m
    ∧ m !! "index" = Some (JString index)
    ∧ m !! "took" = Some (JInt (Took reply))
    ∧ m !! "timed_out" = Some (JBool (TimedOut reply))
    ∧ m !! "total_hits" = Some (JInt (Value (Total (Hits reply))))
    ∧ (∃ j, Marshal (VMap (Shards reply)) = Ok j ∧ m !! "shards" = Some j)
    ∧ (∀ k, In k result_keys -> k ≠ "aggregations" -> is_Some (m !! k))
    ∧ (∀ k, ¬ In k result_keys -> m !! k = None).
Proof.
  intros E.
  apply handleSearch_success in E
    as (index & body & res & reply & Hi & Hs & He & Hb & Hdoc & ->).
  apply Marshal_map_Ok in Hdoc as (m & -> & Hm).
  exists index, body, res, reply, m.
  split; [done|]. split.
  { right. apply in_or_app. right. right. left. reflexivity. }
  do 3 (split; [done|]).
  assert (Hget : ∀ k v,
            k ≠ "aggregations" ->
            (<["index" := VString index]>
             (<["took" := VInt (Took reply)]>
             (<["timed_out" := VBool (TimedOut reply)]>
             (<["total_hits" := VInt (Value (Total (Hits reply)))]>
             (<["max_score" := VFloatPtr (MaxScore (Hits reply))]>
             (<["hits" := of_hits (Hits_Hits (Hits reply))]>
             (<["shards" := VMap (Shards reply)]>
             (<["from" := VInt (GetInt request "from" 0)]>
             (<["size" := VInt (GetInt request "size" 10)]>
                (∅ : gmap string value)))))))))) !! k = Some v ->
            ∃ j, Marshal v = Ok j ∧ m !! k = Some j).
  { intros k v Hk Hv. apply (Marshal_lookup_Some _ _ _ _ Hm).
    by rewrite response_of_other. }
  destruct (Hget "index" (VString index)) as (j1 & [= <-] & H1); [done|done|].
  destruct (Hget "took" (VInt (Took reply))) as (j2 & [= <-] & H2); [done|done|].
  destruct (Hget "timed_out" (VBool (TimedOut reply))) as (j3 & [= <-] & H3); [done|done|].
  destruct (Hget "total_hits" (VInt (Value (Total (Hits reply)))))
    as (j4 & [= <-] & H4); [done|done|].
  destruct (Hget "shards" (VMap (Shards reply))) as (j5 & Hj5 & H5); [done|done|].
  do 4 (split; [done|]). split; [by exists j5|]. split.
  - intros k Hk Hne.
    assert (∃ v, (<["index" := VString index]>
             (<["took" := VInt (Took reply)]>
             (<["timed_out" := VBool (TimedOut reply)]>
             (<["total_hits" := VInt (Value (Total (Hits reply)))]>
             (<["max_score" := VFloatPtr (MaxScore (Hits reply))]>
             (<["hits" := of_hits (Hits_Hits (Hits reply))]>
             (<["shards" := VMap (Shards reply)]>
             (<["from" := VInt (GetInt request "from" 0)]>
             (<["size" := VInt (GetInt request "size" 10)]>
                (∅ : gmap string value)))))))))) !! k = Some v) as [v Hv].
    { simpl in Hk.
      destruct Hk as [<-|[<-|[<-|[<-|[<-|[<-|[<-|[<-|[<-|[<-|[]]]]]]]]]]];
        try done; by eexists. }
    destruct (Hget k v Hne Hv) as (j & _ & ->). by eexists.
  - intros k Hk. apply (Marshal_lookup_None _ _ _ Hm).
    assert (k ≠ "aggregations") by (intros ->; apply Hk; simpl; tauto).
    rewrite response_of_other by done.
    rewrite !lookup_insert_ne, lookup_empty; [done|..];
      intros <-; apply Hk; simpl; tauto.
Qed.

(** X21 on the simulated cluster, which finds nothing. *)
Lemma search_result_document_witness :
  ∃ doc t m,
    execute (Examples.search Examples.handler Cases.only_index) = (NewToolResultText doc, t)
    ∧ doc = JObject m
    ∧ m !! "index" = Some (JString "logs-*")
    ∧ m !! "total_hits" = Some (JInt 0)
    ∧ m !! "relation" = None.
Proof.
  assert (E : ∃ doc t, execute (Examples.search Examples.handler Cases.only_index)
                       = (NewToolResultText doc, t)).
  { eexists _, _. vm_compute. reflexivity. }
  destruct E as (doc & t & E).
  destruct (search_result_document encoding_json.Unmarshal encoding_json.UnmarshalMap
              Examples.handler Cases.only_index doc t E)
    as (index & body & res & reply & m & Hreq & _ & Hs & Hb & Hdoc & Hi & _ & _ & Ht & _
        & _ & Hn).
  exists doc, t, m. split; [exact E|]. split; [exact Hdoc|].
  vm_compute in Hreq. injection Hreq as <-.
  vm_compute in Hs. injection Hs as <-. vm_compute in Hb. injection Hb as <-.
  split; [exact Hi|]. split; [exact Ht|].
  apply Hn. simpl. intros H.
  repeat (destruct H as [H|H]; [discriminate H|]). exact H.
Defined.

Lemma logged_calls (used : bool) (s : string) : logged (calls used s) = [].
Proof. by destruct used. Qed.

Lemma logged_aggregations_found (reply : SearchResponse) :
  logged (aggregations_found reply) = aggregations_found reply.
Proof. unfold aggregations_found. by destruct (_ && _). Qed.

(** X22: a search that returns a text has handed to the logger, in order:
    the parameters of the request, the body it sent, the number of
    aggregations when the reply has some, and the cardinalities of the
    reply (total hits, returned hits, time taken, aggregations); it has
    logged no error. *)
Theorem successful_search_is_logged
    (Unmarshal : string -> outcome value) (UnmarshalMap : string -> outcome gomap)
    (h : ElasticsearchHandler) (request : CallToolRequest) (doc : json) (t : list event) :
  execute (handleSearch Unmarshal UnmarshalMap h request) = (NewToolResultText doc, t) ->
  ∃ index body res reply,
    RequireString request "index" = Ok index
    ∧ Search (client h) index body (GetBool request "track_total_hits" true)
        (timeoutOption request) = Ok res
    ∧ res_Body res = Ok reply
    ∧ logged t
      = [executing_search request index;
         Log DebugLevel [RawJSON "search_body" body] "Search request body"]
        ++ aggregations_found reply ++ [search_executed index reply]
    ∧ ∀ fields msg, ¬ In (Log ErrorLevel fields msg) t.
Proof.
  intros E.
  apply handleSearch_success in E
    as (index & body & res & reply & Hi & Hs & He & Hb & Hdoc & ->).
  exists index, body, res, reply. do 3 (split; [done|]).
  assert (Hlogged :
            logged (executing_search request index :: decoder_calls request
                    ++ [Log DebugLevel [RawJSON "search_body" body] "Search request body";
                        ESSearch index body (GetBool request "track_total_hits" true) true
                          (timeoutOption request)]
                    ++ aggregations_found reply ++ [search_executed index reply])
            = [executing_search request index;
               Log DebugLevel [RawJSON "search_body" body] "Search request body"]
              ++ aggregations_found reply ++ [search_executed index reply]).
  { change (logged (?e :: ?l)) with (logged ([e] ++ l)).
    rewrite !logged_app, logged_aggregations_found.
    unfold decoder_calls. simpl flat_map. rewrite !logged_app, !logged_calls. done. }
  split; [exact Hlogged|].
  intros fields msg Hin.
  assert (Hin' : In (Log ErrorLevel fields msg)
                    ([executing_search request index;
                      Log DebugLevel [RawJSON "search_body" body] "Search request body"]
                     ++ aggregations_found reply ++ [search_executed index reply])).
  { rewrite <- Hlogged. apply filter_In. by split. }
  simpl in Hin'. destruct Hin' as [H|[H|H]]; [discriminate H|discriminate H|].
  apply in_app_or in H as [H|[H|[]]]; [|discriminate H].
  unfold aggregations_found in H. destruct (_ && _); [|done].
  destruct H as [H|[]]. discriminate H.
Qed.

(** X22 on the reply with two hits and one aggregation. *)
Lemma successful_search_is_logged_witness :
  ∃ doc t body,
    execute (Examples.search Examples.replying_handler Cases.only_index)
    = (NewToolResultText doc, t)
    ∧ logged t
      = [executing_search Cases.only_index "logs-*";
         Log DebugLevel [RawJSON "search_body" body] "Search request body";
         Log DebugLevel [Int "agg_count" 1] "Aggregations found in response";
         Log InfoLevel
           [Str "index" "logs-*"; Int "total_hits" 2; Int "returned_hits" 2;
            Int "took_ms" 3; Int "agg_count" 1]
           "Search executed successfully"].
Proof.
  assert (E : ∃ doc t, execute (Examples.search Examples.replying_handler Cases.only_index)
                       = (NewToolResultText doc, t)).
  { eexists _, _. vm_compute. reflexivity. }
  destruct E as (doc & t & E).
  destruct (successful_search_is_logged encoding_json.Unmarshal encoding_json.UnmarshalMap
              Examples.replying_handler Cases.only_index doc t E)
    as (index & body & res & reply & Hreq & Hs & Hb & Hl & _).
  exists doc, t, body. split; [exact E|].
  vm_compute in Hreq. injection Hreq as <-.
  vm_compute in Hs. injection Hs as <-. vm_compute in Hb. injection Hb as <-.
  exact Hl.
Defined.

(** ** Typed environment variables *)

Lemma digit_of_chr (d : Z) :
  0 <= d < 10 -> strconv.digit_of (encoding_json.chr (48 + d)) = Some d.
Proof.
  intros H.
  assert (d = 0 ∨ d = 1 ∨ d = 2 ∨ d = 3 ∨ d = 4 ∨ d = 5 ∨ d = 6 ∨ d = 7 ∨ d = 8 ∨ d = 9)
    as Hd by lia.
  repeat (destruct Hd as [->|Hd]; [reflexivity|]). by subst.
Qed.

(** Reading the digits of [n] back gives [n], after what was read before. *)
Lemma parse_digits_of (fuel : nat) :
  ∀ n acc, 0 <= n < 2 ^ (Z.of_nat fuel + 1) ->
    ∃ p, ∀ a, strconv.parse_digits (digits_of fuel n acc) a
              = strconv.parse_digits acc (a * p + n).
Proof.
  assert (Hlast : ∀ n acc a, 0 <= n < 10 ->
            strconv.parse_digits (String (encoding_json.chr (48 + n mod 10)) acc) a
            = strconv.parse_digits acc (a * 10 + n)).
  { intros n acc a Hn. simpl. rewrite Z.mod_small by lia. rewrite digit_of_chr by lia.
    f_equal. lia. }
  induction fuel as [|fuel IH]; intros n acc Hn.
  - exists 10. intros a. simpl digits_of. apply Hlast. simpl in Hn. lia.
  - simpl digits_of. destruct (n <? 10) eqn:E.
    + exists 10. intros a. apply Hlast. apply Z.ltb_lt in E. lia.
    + apply Z.ltb_ge in E.
      destruct (IH (n / 10) (String (encoding_json.chr (48 + n mod 10)) acc)) as [p Hp].
      { split; [apply Z.div_pos; lia|].
        apply Z.div_lt_upper_bound; [lia|].
        replace (Z.of_nat (S fuel) + 1) with (Z.succ (Z.of_nat fuel + 1)) in Hn by lia.
        rewrite Z.pow_succ_r in Hn by lia. lia. }
      exists (10 * p). intros a. rewrite Hp. simpl.
      rewrite digit_of_chr by (apply Z.mod_pos_bound; lia).
      f_equal. pose proof (Z.div_mod n 10). lia.
Qed.

(** The text of a number starts with a digit. *)
Lemma digits_of_head (fuel : nat) :
  ∀ n acc, 0 <= n ->
    ∃ d r, 0 <= d < 10 ∧ digits_of fuel n acc = String (encoding_json.chr (48 + d)) r.
Proof.
  induction fuel as [|fuel IH]; intros n acc Hn; simpl digits_of.
  - exists (n mod 10), acc. split; [apply Z.mod_pos_bound; lia|done].
  - destruct (n <? 10).
    + exists (n mod 10), acc. split; [apply Z.mod_pos_bound; lia|done].
    + apply IH. apply Z.div_pos; lia.
Qed.

Lemma fuel_suffices (n : Z) : 0 <= n -> 0 <= n < 2 ^ (Z.of_nat (Z.to_nat (Z.log2 n)) + 1).
Proof.
  intros Hn. split; [done|]. rewrite Z2Nat.id by apply Z.log2_nonneg.
  destruct (decide (n = 0)) as [->|H0]; [done|].
  replace (Z.log2 n + 1) with (Z.succ (Z.log2 n)) by lia.
  apply Z.log2_spec. lia.
Qed.

(** [strconv.Atoi] reads back what [strconv.Itoa] writes. *)
Lemma Atoi_Itoa (n : Z) : in_range n -> strconv.Atoi (Itoa n) = Some n.
Proof.
  intros Hr.
  assert (Hrb : in_rangeb n = true).
  { unfold in_rangeb. unfold in_range in Hr. apply andb_true_iff.
    split; apply Z.leb_le; lia. }
  unfold Itoa. destruct (n <? 0) eqn:E.
  - apply Z.ltb_lt in E.
    destruct (digits_of_head (Z.to_nat (Z.log2 (- n))) (- n) EmptyString) as (d & r & Hd & Hs);
      [lia|].
    destruct (parse_digits_of (Z.to_nat (Z.log2 (- n))) (- n) EmptyString) as [p Hp].
    { apply fuel_suffices. lia. }
    unfold strconv.Atoi. cbv iota beta. rewrite Hs. rewrite <- Hs, Hp. simpl.
    replace (0 * p + - n) with (- n) by lia. rewrite Z.opp_involutive, Hrb. done.
  - apply Z.ltb_ge in E.
    destruct (digits_of_head (Z.to_nat (Z.log2 n)) n EmptyString) as (d & r & Hd & Hs);
      [lia|].
    destruct (parse_digits_of (Z.to_nat (Z.log2 n)) n EmptyString) as [p Hp].
    { by apply fuel_suffices. }
    specialize (Hp 0). rewrite Hs in Hp |- *.
    assert (d = 0 ∨ d = 1 ∨ d = 2 ∨ d = 3 ∨ d = 4 ∨ d = 5 ∨ d = 6 ∨ d = 7 ∨ d = 8 ∨ d = 9)
      as Hcase by lia.
    unfold strconv.Atoi.
    destruct Hcase as [->|[->|[->|[->|[->|[->|[->|[->|[->| ->]]]]]]]]];
      simpl in Hp |- *; rewrite Hp; simpl;
      replace (0 * p + n) with n by lia; by rewrite Hrb.
Qed.

Lemma Itoa_not_empty (n : Z) : Itoa n ≠ EmptyString.
Proof.
  unfold Itoa. destruct (n <? 0) eqn:E; [done|]. apply Z.ltb_ge in E.
  destruct (digits_of_head (Z.to_nat (Z.log2 n)) n EmptyString) as (d & r & _ & ->); done.
Qed.

(** X23: the typed readers of the environment never fail.  [getIntEnv]
    reads back the decimal text of every [int]; [getBoolEnv] understands
    the spellings of [strconv.ParseBool]; both return the default for a
    variable that is unset or empty, and [getBoolEnv] for any other text. *)
Theorem typed_environment_readers (env : gmap string string) (key : string) :
  (∀ n d, in_range n -> getIntEnv (<[key := Itoa n]> env) key d = n)
  ∧ (∀ d b, default EmptyString (env !! key) = EmptyString ->
            getIntEnv env key d = d ∧ getBoolEnv env key b = b)
  ∧ (∀ s b, getBoolEnv (<[key := s]> env) key b
            = if bool_decide (s ∈ true_spellings) then true
              else if bool_decide (s ∈ false_spellings) then false
              else b).
Proof.
  split; [|split].
  - intros n d Hn. unfold getIntEnv, Getenv. rewrite lookup_insert_eq. simpl.
    rewrite bool_decide_false by apply Itoa_not_empty. simpl.
    by rewrite Atoi_Itoa.
  - intros d b H. unfold getIntEnv, getBoolEnv, Getenv. rewrite H. done.
  - intros s b. unfold getBoolEnv, Getenv. rewrite lookup_insert_eq. simpl.
    unfold strconv.ParseBool, true_spellings, false_spellings.
    destruct (decide (s = EmptyString)) as [->|Hs].
    + rewrite bool_decide_true by done. vm_compute. reflexivity.
    + rewrite bool_decide_false by done. simpl. by repeat case_bool_decide.
Qed.

(** X23 on the largest and the smallest [int]. *)
Lemma typed_environment_readers_witness :
  Itoa max_int = "9223372036854775807"
  ∧ Itoa min_int = "-9223372036854775808"
  ∧ getIntEnv (<["PORT" := "9223372036854775807"]> ∅) "PORT" 0 = max_int
  ∧ getIntEnv (<["PORT" := "-9223372036854775808"]> ∅) "PORT" 0 = min_int.
Proof.
  split; [vm_compute; reflexivity|]. split; [vm_compute; reflexivity|].
  assert (H1 : in_range max_int) by (vm_compute; split; discriminate).
  assert (H2 : in_range min_int) by (vm_compute; split; discriminate).
  split.
  - exact (proj1 (typed_environment_readers ∅ "PORT") max_int 0 H1).
  - exact (proj1 (typed_environment_readers ∅ "PORT") min_int 0 H2).
Defined.

(** A search event in the trace of the reduced variant carries the encoding
    of what it has built. *)
Lemma reduced_dispatched_request
    (Unmarshal : string -> outcome value) (UnmarshalMap : string -> outcome gomap)
    (h : ElasticsearchHandler) (request : CallToolRequest)
    (index : string) (body : json) (trackTotalHits pretty : bool) (timeout : option string) :
  In (ESSearch index body trackTotalHits pretty timeout)
     (execute (Reduced.handleSearch Unmarshal UnmarshalMap h request)).2 ->
  ∃ q o,
    RequireString request "index" = Ok index
    ∧ UnmarshalMap (GetString request "query" "{}") = Ok q
    ∧ field_ok (GetString request "sort" EmptyString)
        (Unmarshal (GetString request "sort" EmptyString)) o
    ∧ Marshal (VMap (Some (insert_opt "sort" o
                             (Reduced.build_search_request q (GetInt request "size" 10)
                                (GetBool request "track_total_hits" true))))) = Ok body
    ∧ trackTotalHits = GetBool request "track_total_hits" true
    ∧ pretty = true
    ∧ timeout = None.
Proof.
  intros Hin.
  assert (Hnone : ∀ t, backend_calls t = [] ->
                       ¬ In (ESSearch index body trackTotalHits pretty timeout) t).
  { intros t Ht Hin'.
    assert (In (ESSearch index body trackTotalHits pretty timeout) (backend_calls t))
      as Hb by (apply filter_In; by split).
    rewrite Ht in Hb. destruct Hb. }
  revert Hin. unfold execute, Reduced.handleSearch.
  rewrite exec_bind_eq, require_index_eq.
  destruct (RequireString request "index") as [index'|e] eqn:Hi.
  2:{ intros Hin. by apply Hnone in Hin. }
  rewrite exec_bind_eq. unfold emit at 1. simpl app.
  rewrite exec_bind_eq. unfold Reduced.validate_size, when.
  destruct ((GetInt request "size" 10 <? 0) || (GetInt request "size" 10 >? 10000)) eqn:Hsize.
  { intros Hin. by apply Hnone in Hin. }
  unfold mret at 1, M_ret at 1.
  rewrite exec_bind_eq. unfold Reduced.parse_query, unmarshal_map.
  rewrite !bind_eq. unfold emit at 1, mret at 1, M_ret at 1.
  destruct (UnmarshalMap (GetString request "query" "{}")) as [q|e] eqn:Hq.
  2:{ intros Hin. by apply Hnone in Hin. }
  unfold mret at 1, M_ret at 1.
  rewrite exec_bind_eq, add_sort_eq.
  assert (Ho : (∃ o, field_ok (GetString request "sort" EmptyString)
                       (Unmarshal (GetString request "sort" EmptyString)) o)
               ∨ ∃ e, decoded (GetString request "sort" EmptyString) = true
                      ∧ Unmarshal (GetString request "sort" EmptyString) = Err e).
  { unfold field_ok. destruct (decoded _); [|left; by exists None].
    destruct (Unmarshal _) as [v|e]; [left; exists (Some v); eauto|right; eauto]. }
  destruct Ho as [[o Ho]|(e & Hd & He)].
  2:{ rewrite Hd, He. intros Hin. by apply Hnone in Hin. }
  rewrite <- (add_sort_eq Unmarshal), (add_sort_ok Unmarshal _ _ o) by exact Ho.
  rewrite exec_bind_eq.
  destruct (Marshal (VMap (Some (insert_opt "sort" o
                                   (Reduced.build_search_request q (GetInt request "size" 10)
                                      (GetBool request "track_total_hits" true))))))
    as [body'|e] eqn:Hm.
  2:{ unfold Reduced.execute_search. rewrite Hm.
      cbv beta iota zeta delta [mbind M_bind mret M_ret emit return_ when].
      intros Hin. apply Hnone in Hin; [done|]. cbn [snd].
      by rewrite !backend_calls_app, backend_calls_calls. }
  intros Hin.
  pose proof (reduced_handleSearch_dispatches Unmarshal UnmarshalMap h request index' q o
                body' Hi Hsize Hq Ho Hm) as Hcalls.
  assert (Hin' : In (ESSearch index body trackTotalHits pretty timeout)
                    (backend_calls (execute (Reduced.handleSearch Unmarshal UnmarshalMap
                                               h request)).2)).
  { apply filter_In. split; [|done]. revert Hin. unfold execute, Reduced.handleSearch.
    rewrite exec_bind_eq, require_index_eq, Hi.
    rewrite exec_bind_eq. unfold emit at 1. simpl app.
    rewrite exec_bind_eq. unfold Reduced.validate_size, when. rewrite Hsize.
    unfold mret at 1, M_ret at 1.
    rewrite exec_bind_eq. unfold Reduced.parse_query, unmarshal_map.
    rewrite !bind_eq. unfold emit at 1, mret at 1, M_ret at 1. rewrite Hq.
    unfold mret at 1, M_ret at 1.
    rewrite exec_bind_eq, (add_sort_ok Unmarshal _ _ o) by exact Ho.
    rewrite exec_bind_eq. done. }
  rewrite Hcalls in Hin'. destruct Hin' as [[= <- <- <- <- <-]|[]].
  exists q, o. done.
Qed.

(** X24: the reduced variant has no default query: it hands the query text
    to the decoder always, and sends what the decoder returns, also a map
    without entries; it sends neither an offset nor a timeout. *)
Theorem reduced_search_sends_the_query_as_decoded
    (Unmarshal : string -> outcome value) (UnmarshalMap : string -> outcome gomap)
    (h : ElasticsearchHandler) (request : CallToolRequest)
    (index : string) (body : json) (trackTotalHits pretty : bool) (timeout : option string) :
  In (ESSearch index body trackTotalHits pretty timeout)
     (execute (Reduced.handleSearch Unmarshal UnmarshalMap h request)).2 ->
  ∃ q j m,
    UnmarshalMap (GetString request "query" "{}") = Ok q
    ∧ Marshal (VMap q) = Ok j
    ∧ body = JObject m
    ∧ m !! "query" = Some j
    ∧ m !! "from" = None
    ∧ m !! "timeout" = None
    ∧ timeout = None.
Proof.
  intros Hin.
  apply reduced_dispatched_request in Hin as (q & o & _ & Hq & _ & Hm & _ & _ & ->).
  apply Marshal_map_Ok in Hm as (m & -> & Hm).
  assert (Hlook : ∀ k, k ≠ "sort" ->
            insert_opt "sort" o
              (Reduced.build_search_request q (GetInt request "size" 10)
                 (GetBool request "track_total_hits" true)) !! k
            = Reduced.build_search_request q (GetInt request "size" 10)
                (GetBool request "track_total_hits" true) !! k).
  { intros k Hk. rewrite lookup_insert_opt. by destruct (decide ("sort" = k)). }
  destruct (Marshal_lookup_Some _ _ "query" (VMap q) Hm) as (j & Hj & Hk).
  { rewrite Hlook by done. by rewrite reduced_build_search_request_lookup. }
  exists q, j, m. do 4 (split; [done|]). split; [|split; [|done]].
  - apply (Marshal_lookup_None _ _ _ Hm). rewrite Hlook by done.
    by rewrite reduced_build_search_request_lookup.
  - apply (Marshal_lookup_None _ _ _ Hm). rewrite Hlook by done.
    by rewrite reduced_build_search_request_lookup.
Qed.

(** X24 on a search with its index only: the reduced variant sends the
    empty query, where the search sends [match_all]. *)
Lemma reduced_search_sends_the_query_as_decoded_witness :
  ∃ body m body0 m0,
    In (ESSearch "logs-*" body true true None)
       (execute (Reduced.handleSearch encoding_json.Unmarshal encoding_json.UnmarshalMap
                   Examples.handler Cases.only_index)).2
    ∧ body = JObject m
    ∧ m !! "query" = Some (JObject ∅)
    ∧ In (ESSearch "logs-*" body0 true true None)
         (execute (Examples.search Examples.handler Cases.only_index)).2
    ∧ body0 = JObject m0
    ∧ m0 !! "query" = Some (JObject {[ "match_all" := JObject ∅ ]}).
Proof.
  assert (Hin : ∃ body,
             In (ESSearch "logs-*" body true true None)
                (execute (Reduced.handleSearch encoding_json.Unmarshal
                            encoding_json.UnmarshalMap Examples.handler
                            Cases.only_index)).2).
  { eexists. vm_compute. do 3 right. left. reflexivity. }
  destruct Hin as [body Hin].
  destruct (reduced_search_sends_the_query_as_decoded encoding_json.Unmarshal
              encoding_json.UnmarshalMap Examples.handler Cases.only_index
              "logs-*" body true true None Hin) as (q & j & m & Hq & Hj & Hb & Hk & _).
  vm_compute in Hq. injection Hq as <-. vm_compute in Hj. injection Hj as <-.
  exists body, m. eexists _, _. split; [exact Hin|]. split; [exact Hb|].
  split; [exact Hk|].
  split; [vm_compute; do 2 right; left; reflexivity|].
  split; [reflexivity|]. vm_compute. reflexivity.
Defined.
